(** * BSOR: a shallow embedding of [electrumsv_bsor/core.py]

    The development follows the layout of the Python module: the values the
    codec handles, the exceptions it raises, the primitives it borrows from
    its collaborators (the script token stream, [struct], the UTF-8 codec),
    then the schema model ([DataclassDefinition]), the decoder
    ([_read_structure], [_read_field], [_read_type], [loads]) and the encoder
    ([_write_structure], [_write_field], [_write_type], [dumps]). *)

From Stdlib Require Import ZArith Strings.Byte String Ascii List Bool Lia.
From stdpp Require Import gmap strings list fin_maps.

Import ListNotations.
Local Open Scope string_scope.
Local Open Scope list_scope.
Local Open Scope Z_scope.

(** ** Bytes *)

Abbreviation bytes := (list byte).

#[global] Instance byte_eq_dec : EqDecision byte := Byte.byte_eq_dec.

Definition byte_to_Z (b : byte) : Z := Z.of_N (Byte.to_N b).

Definition Z_to_byte (z : Z) : byte :=
  match Byte.of_N (Z.to_N (z mod 256)) with
  | Some b => b
  | None => x00
  end.

Definition len {A : Type} (l : list A) : Z := Z.of_nat (length l).

(** ** Exceptions

    One constructor per Python exception class the module can raise, either
    itself or through a primitive it calls.  A message keeps the constant
    part of the Python text; interpolated values are left out. *)

Inductive exn : Type :=
| ValueError (msg : string)
| NotImplementedError (msg : string)
| Exception (msg : string)
| AssertionError
| TypeError
| AttributeError
| KeyError
| StopIteration
| TruncatedScriptError
| UnicodeDecodeError
| UnicodeEncodeError
| StructError
| OverflowError
| RecursionError.

Inductive result (A : Type) : Type :=
| Ok (a : A)
| Raise (e : exn).
Arguments Ok {A} a.
Arguments Raise {A} e.

#[global] Instance result_bind : MBind result := fun A B k m =>
  match m with
  | Ok a => k a
  | Raise e => Raise e
  end.

#[global] Instance result_ret : MRet result := fun A a => Ok a.

Definition is_Ok {A : Type} (r : result A) : bool :=
  match r with Ok _ => true | Raise _ => false end.

(** ** The script token stream (bitcoinx)

    [push_int], [push_item], [item_to_int], [Ops] and
    [Script.ops_and_items] belong to the bitcoinx package, which the module
    imports; they are the external token stream of the format. *)

Module Bitcoinx.

Definition OP_0 : Z := 0.
Definition OP_PUSHDATA1 : Z := 76.
Definition OP_PUSHDATA2 : Z := 77.
Definition OP_PUSHDATA4 : Z := 78.
Definition OP_1NEGATE : Z := 79.
Definition OP_RESERVED : Z := 80.
Definition OP_1 : Z := 81.
Definition OP_16 : Z := 96.

(** [int.from_bytes(b, 'little')]. *)
Fixpoint le_bytes_to_int (b : bytes) : Z :=
  match b with
  | [] => 0
  | x :: r => byte_to_Z x + 256 * le_bytes_to_int r
  end.

(** The shortest little-endian magnitude of a non-negative integer: the
    loop runs once per byte, [fuel] bounds the number of bytes. *)
Fixpoint int_to_le_bytes_aux (fuel : nat) (n : Z) : bytes :=
  match fuel with
  | O => []
  | S f => if n <=? 0 then [] else Z_to_byte n :: int_to_le_bytes_aux f (n / 256)
  end.

Definition int_to_le_bytes (n : Z) : bytes :=
  int_to_le_bytes_aux (S (Z.to_nat (Z.log2 n))) n.

(** [pack_le_uint16], [pack_le_uint32]: fixed-width little-endian. *)
Fixpoint pack_le (width : nat) (n : Z) : bytes :=
  match width with
  | O => []
  | S w => Z_to_byte n :: pack_le w (n / 256)
  end.

(** Modelled from the spec: bitcoinx's [int_to_item], absent from the
    sources; "Integer: minimal signed representation - the shortest byte
    string recovering the value; empty string encodes 0".  The top bit of
    the last byte is the sign; a magnitude that already uses that bit gets
    one more byte. *)
Definition int_to_item (value : Z) : bytes :=
  if value =? 0 then []
  else
    let mag := int_to_le_bytes (Z.abs value) in
    let last_byte := byte_to_Z (List.last mag x00) in
    if Z.testbit last_byte 7
    then mag ++ [if value <? 0 then x80 else x00]
    else if value <? 0
         then List.removelast mag ++ [Z_to_byte (Z.lor last_byte 128)]
         else mag.

(** Modelled from the spec: bitcoinx's [item_to_int], absent from the
    sources; "interpret via the Token Stream's minimal signed encoding
    (empty payload = 0)".  A missing payload ([None]) is falsy and reads
    as 0 as well. *)
Definition item_to_int (item : option bytes) : Z :=
  match item with
  | None => 0
  | Some [] => 0
  | Some b =>
      let last_byte := byte_to_Z (List.last b x00) in
      if Z.testbit last_byte 7
      then - le_bytes_to_int (List.removelast b ++ [Z_to_byte (Z.land last_byte 127)])
      else le_bytes_to_int b
  end.

(** Modelled from the spec: bitcoinx's [push_item], absent from the
    sources; "each either a small integer or a raw byte payload, already
    minimally encoded".  The empty item is [OP_0], a one-byte item 1..16
    is [OP_1]..[OP_16], the one-byte item 0x81 is [OP_1NEGATE]; other
    items carry their length in the opcode or after a PUSHDATA opcode.
    A length that does not fit 32 bits cannot be packed. *)
Definition push_item (item : bytes) : result bytes :=
  let dlen := len item in
  let direct :=
    if dlen <? OP_PUSHDATA1 then Ok (Z_to_byte dlen :: item)
    else if dlen <=? 255 then Ok (Z_to_byte OP_PUSHDATA1 :: Z_to_byte dlen :: item)
    else if dlen <=? 65535 then Ok (Z_to_byte OP_PUSHDATA2 :: pack_le 2 dlen ++ item)
    else if dlen <=? 4294967295 then Ok (Z_to_byte OP_PUSHDATA4 :: pack_le 4 dlen ++ item)
    else Raise StructError in
  match item with
  | [] => Ok [x00]
  | [b] =>
      let value := byte_to_Z b in
      if (0 <? value) && (value <=? 16) then Ok [Z_to_byte (OP_1 + value - 1)]
      else if value =? 129 then Ok [Z_to_byte OP_1NEGATE]
      else direct
  | _ => direct
  end.

(** The items [push_item] accepts. *)
Definition pushable (item : bytes) : bool := len item <=? 4294967295.

(** Modelled from the spec: bitcoinx's [push_int], absent from the
    sources; the push of the minimal signed item of the integer. *)
Definition push_int (value : Z) : result bytes :=
  push_item (int_to_item value).

(** The slice [script[n : n + dlen]] together with the check that it has
    the announced length. *)
Definition take_exact (dlen : Z) (script : bytes) : result (bytes * bytes) :=
  if dlen <=? len script
  then Ok (take (Z.to_nat dlen) script, drop (Z.to_nat dlen) script)
  else Raise TruncatedScriptError.

(** Modelled from the spec: one step of the generator
    [Script(data).ops_and_items()] of bitcoinx, absent from the sources.
    The generator state is the part of the script not yet consumed;
    [next] on an exhausted generator raises [StopIteration].  An opcode
    above [OP_16], and [OP_RESERVED], carry no item ([None]). *)
Definition next (script : bytes) : result ((Z * option bytes) * bytes) :=
  match script with
  | [] => Raise StopIteration
  | b :: rest =>
      let op := byte_to_Z b in
      if op <=? OP_16 then
        if op <=? OP_PUSHDATA4 then
          '(dlen, rest1) ←
            (if op <? OP_PUSHDATA1 then Ok (op, rest)
             else if op =? OP_PUSHDATA1 then
               '(l, r) ← take_exact 1 rest; Ok (le_bytes_to_int l, r)
             else if op =? OP_PUSHDATA2 then
               '(l, r) ← take_exact 2 rest; Ok (le_bytes_to_int l, r)
             else
               '(l, r) ← take_exact 4 rest; Ok (le_bytes_to_int l, r));
          '(data, rest2) ← take_exact dlen rest1;
          Ok ((op, Some data), rest2)
        else if OP_1 <=? op then Ok ((op, Some [Z_to_byte (op - OP_1 + 1)]), rest)
        else if op =? OP_1NEGATE then Ok ((op, Some [x81]), rest)
        else Ok ((op, None), rest)
      else Ok ((op, None), rest)
  end.

End Bitcoinx.

(** ** Floats ([struct])

    A Python float is an IEEE-754 binary64 number; it is kept as its 64-bit
    pattern.  [struct.pack("<d", x)] and [struct.unpack("<d", b)] copy the
    eight bytes; the ["<f"] forms convert to and from binary32, rounding to
    nearest, ties to even.  A NaN keeps its sign and the top of its payload
    and comes out quiet. *)

Module Struct.

Import Bitcoinx.

Definition float_sign (bits : Z) : Z := Z.shiftr bits 63.
Definition float_exponent (bits : Z) : Z := Z.land (Z.shiftr bits 52) 2047.
Definition float_mantissa (bits : Z) : Z := Z.land bits (2 ^ 52 - 1).

Definition is_nan (bits : Z) : bool :=
  (float_exponent bits =? 2047) && negb (float_mantissa bits =? 0).

(** [(double) y] for a binary32 pattern [w]. *)
Definition widen (w : Z) : Z :=
  let sign := Z.shiftl (Z.shiftr w 31) 63 in
  let e := Z.land (Z.shiftr w 23) 255 in
  let m := Z.land w (2 ^ 23 - 1) in
  if e =? 255 then
    sign + Z.shiftl 2047 52 + (if m =? 0 then 0 else Z.lor (Z.shiftl m 29) (2 ^ 51))
  else if e =? 0 then
    if m =? 0 then sign
    else
      let k := Z.log2 m in
      sign + Z.shiftl (k - 149 + 1023) 52 + Z.shiftl (m - 2 ^ k) (52 - k)
  else sign + Z.shiftl (e - 127 + 1023) 52 + Z.shiftl m 29.

(** Round the quotient of [m] by [2 ^ shift] to nearest, ties to even. *)
Definition round_shift (m shift : Z) : Z :=
  let q := Z.shiftr m shift in
  let r := m - Z.shiftl q shift in
  let half := 2 ^ (shift - 1) in
  if (half <? r) || ((r =? half) && Z.odd q) then q + 1 else q.

(** [(float) x] for a binary64 pattern: the binary32 pattern without its
    sign, which is the infinity pattern 0x7F800000 or more on overflow. *)
Definition narrow_body (bits : Z) : Z :=
  let e := float_exponent bits in
  let m := float_mantissa bits in
  if e =? 2047 then
    if m =? 0 then 2139095040
    else Z.lor (2139095040 + Z.shiftr m 29) (2 ^ 22)
  else if e =? 0 then 0
  else
    let e32 := e - 1023 in
    let full := 2 ^ 52 + m in
    if -126 <=? e32
    then Z.shiftl (e32 + 126) 23 + round_shift full 29
    else round_shift full (29 + (-126 - e32)).

(** [int] to [float], as [float(n)] does: exact up to 53 bits, rounded
    beyond, [OverflowError] past the largest double. *)
Definition int_to_float (n : Z) : result Z :=
  if n =? 0 then Ok 0
  else
    let sign := if n <? 0 then 2 ^ 63 else 0 in
    let a := Z.abs n in
    let k := Z.log2 a in
    let body :=
      if k <=? 52 then Z.shiftl (k + 1023) 52 + Z.shiftl (a - 2 ^ k) (52 - k)
      else Z.shiftl (k + 1022) 52 + round_shift a (k - 52) in
    if Z.shiftl 2047 52 <=? body then Raise OverflowError else Ok (sign + body).

Definition pack_d (bits : Z) : bytes := pack_le 8 bits.

Definition pack_f (bits : Z) : result bytes :=
  let body := narrow_body bits in
  if (2139095040 <=? body) && negb (float_exponent bits =? 2047)
  then Raise OverflowError
  else Ok (pack_le 4 (Z.shiftl (float_sign bits) 31 + body)).

Definition unpack_d (b : bytes) : Z := le_bytes_to_int b.

Definition unpack_f (b : bytes) : Z := widen (le_bytes_to_int b).

End Struct.

(** ** Text ([str.encode], [bytes.decode])

    A Python [str] is a sequence of code points.  [encode] produces UTF-8
    and refuses surrogates; [decode] accepts exactly the well-formed
    sequences (no overlong form, no surrogate, nothing above U+10FFFF). *)

Module Codecs.

Abbreviation str := (list Z).

Definition encode_char (c : Z) : result bytes :=
  if (c <? 0) || (1114111 <? c) then Raise UnicodeEncodeError
  else if c <? 128 then Ok [Z_to_byte c]
  else if c <? 2048 then Ok [Z_to_byte (192 + c / 64); Z_to_byte (128 + c mod 64)]
  else if c <? 65536 then
    if (55296 <=? c) && (c <=? 57343) then Raise UnicodeEncodeError
    else Ok [Z_to_byte (224 + c / 4096); Z_to_byte (128 + (c / 64) mod 64);
             Z_to_byte (128 + c mod 64)]
  else Ok [Z_to_byte (240 + c / 262144); Z_to_byte (128 + (c / 4096) mod 64);
           Z_to_byte (128 + (c / 64) mod 64); Z_to_byte (128 + c mod 64)].

Fixpoint encode (s : str) : result bytes :=
  match s with
  | [] => Ok []
  | c :: r => b ← encode_char c; br ← encode r; Ok (b ++ br)
  end.

Definition between (lo x hi : Z) : bool := (lo <=? x) && (x <=? hi).

(** One well-formed sequence from the front of [b]. *)
Definition decode_char (b : bytes) : option (Z * bytes) :=
  match b with
  | [] => None
  | x0 :: r0 =>
      let b0 := byte_to_Z x0 in
      if b0 <? 128 then Some (b0, r0)
      else if between 194 b0 223 then
        match r0 with
        | x1 :: r1 =>
            let b1 := byte_to_Z x1 in
            if between 128 b1 191 then Some ((b0 - 192) * 64 + (b1 - 128), r1)
            else None
        | _ => None
        end
      else if between 224 b0 239 then
        match r0 with
        | x1 :: x2 :: r2 =>
            let b1 := byte_to_Z x1 in
            let b2 := byte_to_Z x2 in
            let lo := if b0 =? 224 then 160 else 128 in
            let hi := if b0 =? 237 then 159 else 191 in
            if between lo b1 hi && between 128 b2 191
            then Some ((b0 - 224) * 4096 + (b1 - 128) * 64 + (b2 - 128), r2)
            else None
        | _ => None
        end
      else if between 240 b0 244 then
        match r0 with
        | x1 :: x2 :: x3 :: r3 =>
            let b1 := byte_to_Z x1 in
            let b2 := byte_to_Z x2 in
            let b3 := byte_to_Z x3 in
            let lo := if b0 =? 240 then 144 else 128 in
            let hi := if b0 =? 244 then 143 else 191 in
            if between lo b1 hi && between 128 b2 191 && between 128 b3 191
            then Some ((b0 - 240) * 262144 + (b1 - 128) * 4096
                       + (b2 - 128) * 64 + (b3 - 128), r3)
            else None
        | _ => None
        end
      else None
  end.

(** The decoding loop; every step consumes a byte, so the number of
    bytes bounds the number of steps. *)
Fixpoint decode_aux (fuel : nat) (b : bytes) : result str :=
  match b with
  | [] => Ok []
  | _ =>
      match fuel with
      | O => Raise UnicodeDecodeError
      | S f =>
          match decode_char b with
          | Some (c, r) => s ← decode_aux f r; Ok (c :: s)
          | None => Raise UnicodeDecodeError
          end
      end
  end.

Definition decode (b : bytes) : result str := decode_aux (length b) b.

(** The code points of an ASCII literal. *)
Fixpoint of_string (s : string) : str :=
  match s with
  | EmptyString => []
  | String a r => Z.of_N (N_of_ascii a) :: of_string r
  end.

End Codecs.

(** ** Python text operations on type names *)

Module PyStr.

Definition startswith (s p : string) : bool := String.prefix p s.

(** [s[start:stop]], with Python's treatment of negative and out-of-range
    bounds. *)
Definition slice (s : string) (start stop : Z) : string :=
  let n := Z.of_nat (String.length s) in
  let norm i := Z.min n (Z.max 0 (if i <? 0 then i + n else i)) in
  let a := norm start in
  let b := norm stop in
  String.substring (Z.to_nat a) (Z.to_nat (b - a)) s.

Definition endswith (s p : string) : bool :=
  let n := Z.of_nat (String.length s) in
  let k := Z.of_nat (String.length p) in
  (k <=? n) && String.eqb (slice s (n - k) n) p.

End PyStr.

(** ** Values

    The Python objects that flow through the codec.  An instance carries
    its class and its attributes; a class is a dataclass when it has
    [__dataclass_fields__].  Fields are declared without default values, as
    every structure of the test suite is. *)

(* These are not BSOR type numbers but rather for our own internal usage. *)
Inductive FieldType : Type :=
| INTEGER
| FLOAT
| DOUBLE
| LIST
| STRING
| BYTES
| OBJECT.

#[global] Instance FieldType_eq_dec : EqDecision FieldType.
Proof. solve_decision. Defined.

Module dataclasses.

(** The [metadata] mapping of a field, restricted to the three keys the
    module reads. *)
Record Metadata : Type := {
  bsor_id : option Z;
  bsor_length : option Z;
  bsor_type : option FieldType
}.

Record Field : Type := {
  name : string;
  type : string;
  metadata : Metadata
}.

End dataclasses.

Record pyclass : Type := {
  __name__ : string;
  __dataclass_fields__ : option (list dataclasses.Field)
}.

#[global] Instance Metadata_eq_dec : EqDecision dataclasses.Metadata.
Proof. solve_decision. Defined.

#[global] Instance Field_eq_dec : EqDecision dataclasses.Field.
Proof. solve_decision. Defined.

#[global] Instance pyclass_eq_dec : EqDecision pyclass.
Proof. solve_decision. Defined.

Local Unset Elimination Schemes.
Inductive value : Type :=
| VNone
| VInt (n : Z)
| VFloat (bits : Z)
| VStr (s : Codecs.str)
| VBytes (b : bytes)
| VList (items : list value)
| VObject (cls : pyclass) (attrs : list (string * value)).
Local Set Elimination Schemes.

(** A callable: a class, or a function of one argument. *)
Inductive pyobject : Type :=
| PyClass (c : pyclass)
| PyFun (f : value -> result value).

(** [hasattr] and [getattr] on the attributes of an instance.  Built-in
    values have none of the attributes a field can be named after. *)
Fixpoint assoc (k : string) (l : list (string * value)) : option value :=
  match l with
  | [] => None
  | (k', v) :: r => if String.eqb k k' then Some v else assoc k r
  end.

Definition getattr (o : value) (attr : string) : result value :=
  match o with
  | VObject _ attrs =>
      match assoc attr attrs with
      | Some v => Ok v
      | None => Raise AttributeError
      end
  | _ => Raise AttributeError
  end.

Definition hasattr (o : value) (attr : string) : bool := is_Ok (getattr o attr).

Definition builtin (n : string) : pyclass :=
  {| __name__ := n; __dataclass_fields__ := None |}.

(** [object.__class__]. *)
Definition class_of (o : value) : pyclass :=
  match o with
  | VNone => builtin "NoneType"
  | VInt _ => builtin "int"
  | VFloat _ => builtin "float"
  | VStr _ => builtin "str"
  | VBytes _ => builtin "bytes"
  | VList _ => builtin "list"
  | VObject c _ => c
  end.

(** [dataclasses.fields(cls)]. *)
Definition dataclasses_fields (o : pyobject) : result (list dataclasses.Field) :=
  match o with
  | PyClass c =>
      match __dataclass_fields__ c with
      | Some fs => Ok fs
      | None => Raise TypeError
      end
  | PyFun _ => Raise TypeError
  end.

(** A call with keyword arguments only: the generated [__init__] of a dataclass wants every
    field and nothing else, and stores the fields in declaration order. *)
Fixpoint init_attrs (fs : list dataclasses.Field) (kwargs : gmap string value)
    : result (list (string * value)) :=
  match fs with
  | [] => Ok []
  | f :: r =>
      match kwargs !! dataclasses.name f with
      | Some v => rest ← init_attrs r kwargs; Ok ((dataclasses.name f, v) :: rest)
      | None => Raise TypeError
      end
  end.

Definition call_kwargs (callee : pyobject) (kwargs : gmap string value) : result value :=
  match callee with
  | PyClass c =>
      match __dataclass_fields__ c with
      | Some fs =>
          if forallb (fun k => existsb (fun f => String.eqb k (dataclasses.name f)) fs)
               (map fst (map_to_list kwargs))
          then attrs ← init_attrs fs kwargs; Ok (VObject c attrs)
          else Raise TypeError
      | None => Raise TypeError
      end
  | PyFun _ => Raise TypeError
  end.

(** [callee(arg)]. *)
Definition call1 (callee : pyobject) (arg : value) : result value :=
  match callee with
  | PyFun f => f arg
  | PyClass c =>
      match __dataclass_fields__ c with
      | Some [f] => Ok (VObject c [(dataclasses.name f, arg)])
      | _ => Raise TypeError
      end
  end.

(** The integer a finite float is equal to, when it is one. *)
Definition float_to_int (bits : Z) : option Z :=
  let e := Struct.float_exponent bits in
  let m := Struct.float_mantissa bits in
  let sgn (z : Z) := if Struct.float_sign bits =? 0 then z else - z in
  if e =? 2047 then None
  else if e =? 0 then (if m =? 0 then Some 0 else None)
  else
    let full := 2 ^ 52 + m in
    if 1075 <=? e then Some (sgn (Z.shiftl full (e - 1075)))
    else if Z.land full (2 ^ (1075 - e) - 1) =? 0
         then Some (sgn (Z.shiftr full (1075 - e)))
         else None.

Definition float_eq (a b : Z) : bool :=
  negb (Struct.is_nan a) && negb (Struct.is_nan b)
  && ((a =? b) || ((Z.land a (2 ^ 63 - 1) =? 0) && (Z.land b (2 ^ 63 - 1) =? 0))).

(** [a == b]: numbers by value, text, bytes and lists by content,
    instances by class and attributes. *)
Fixpoint py_eq (a b : value) {struct a} : bool :=
  match a, b with
  | VNone, VNone => true
  | VInt x, VInt y => x =? y
  | VInt x, VFloat f | VFloat f, VInt x =>
      match float_to_int f with Some y => x =? y | None => false end
  | VFloat x, VFloat y => float_eq x y
  | VStr x, VStr y => bool_decide (x = y)
  | VBytes x, VBytes y => bool_decide (x = y)
  | VList x, VList y =>
      (fix go (l1 l2 : list value) {struct l1} : bool :=
         match l1, l2 with
         | [], [] => true
         | v1 :: r1, v2 :: r2 => py_eq v1 v2 && go r1 r2
         | _, _ => false
         end) x y
  | VObject c1 a1, VObject c2 a2 =>
      String.eqb (__name__ c1) (__name__ c2)
      && (fix go (l1 l2 : list (string * value)) {struct l1} : bool :=
            match l1, l2 with
            | [], [] => true
            | (k1, v1) :: r1, (k2, v2) :: r2 =>
                String.eqb k1 k2 && py_eq v1 v2 && go r1 r2
            | _, _ => false
            end) a1 a2
  | _, _ => false
  end.

(** ** The schema model *)

Definition TYPE_DEFAULTS (t : FieldType) : option value :=
  match t with
  | STRING => Some (VStr [])
  | BYTES => Some (VBytes [])
  | INTEGER => Some (VInt 0)
  | _ => None
  end.

Record FieldTypeMetadata : Type := {
  field_type : FieldType;
  is_class_reference : bool;
  stores_pointers : bool
}.

Record FieldEntry : Type := {
  identifier : Z;
  type_metadata : FieldTypeMetadata
}.

Abbreviation NamedFieldEntry := (string * FieldEntry)%type.

(** An entry of the binding table: [(decoder or class, encoder factory or
    None, field type)]. *)
Record class_reference : Type := {
  ref_first : pyobject;
  ref_second : option (value -> result (unit -> result value));
  ref_type : FieldType
}.

Definition map_type_name_to_field_type (type_name : string)
    (class_references : gmap string class_reference)
    (field : option dataclasses.Field) : result FieldTypeMetadata :=
  let '(type_name, stores_pointers) :=
    if PyStr.endswith type_name " | None"
    then (PyStr.slice type_name 0 (-7), true)
    else (type_name, false) in
  if String.eqb type_name "int" then
    Ok {| field_type := INTEGER; is_class_reference := false;
          stores_pointers := stores_pointers |}
  else if String.eqb type_name "float" then
    match field with
    | None =>
        Ok {| field_type := FLOAT; is_class_reference := false;
              stores_pointers := false |}
    | Some f =>
        let field_type :=
          default FLOAT (dataclasses.bsor_type (dataclasses.metadata f)) in
        match field_type with
        | FLOAT | DOUBLE =>
            Ok {| field_type := field_type; is_class_reference := false;
                  stores_pointers := stores_pointers |}
        | _ => Raise AssertionError
        end
    end
  else if PyStr.startswith type_name "list[" then
    Ok {| field_type := LIST; is_class_reference := false;
          stores_pointers := stores_pointers |}
  else if String.eqb type_name "str" then
    Ok {| field_type := STRING; is_class_reference := false;
          stores_pointers := stores_pointers |}
  else if String.eqb type_name "bytes" then
    Ok {| field_type := BYTES; is_class_reference := false;
          stores_pointers := stores_pointers |}
  else
    match class_references !! type_name with
    | Some r =>
        Ok {| field_type := ref_type r; is_class_reference := true;
              stores_pointers := stores_pointers |}
    | None => Raise (Exception "Unknown type")
    end.

Record DataclassDefinition : Type := {
  _dataclass_object : pyobject;
  _class_references : gmap string class_reference;
  _fields : list NamedFieldEntry
}.

(** The loop of [DataclassDefinition.__init__]: the state is the pair of
    [encountered_identifiers] and [fields]. *)
Fixpoint init_fields (class_references : gmap string class_reference)
    (todo : list dataclasses.Field)
    (encountered_identifiers : gset Z) (fields : list NamedFieldEntry)
    : result (gset Z * list NamedFieldEntry) :=
  match todo with
  | [] => Ok (encountered_identifiers, fields)
  | dataclass_field :: rest =>
      match dataclasses.bsor_id (dataclasses.metadata dataclass_field) with
      | None => Raise AssertionError
      | Some field_id =>
          let encountered_identifiers := {[ field_id ]} ∪ encountered_identifiers in
          field_type_data ←
            map_type_name_to_field_type (dataclasses.type dataclass_field)
              class_references (Some dataclass_field);
          init_fields class_references rest encountered_identifiers
            (fields ++ [(dataclasses.name dataclass_field,
                         {| identifier := field_id;
                            type_metadata := field_type_data |})])
      end
  end.

Definition DataclassDefinition_init (dataclass_object : pyobject)
    (class_references : gmap string class_reference) : result DataclassDefinition :=
  todo ← dataclasses_fields dataclass_object;
  '(_, fields) ← init_fields class_references todo ∅ [];
  Ok {| _dataclass_object := dataclass_object;
        _class_references := class_references;
        _fields := fields |}.

Definition get_field (self : DataclassDefinition) (field_identifier : Z)
    : result NamedFieldEntry :=
  match List.find (fun named_field => identifier (snd named_field) =? field_identifier)
          (_fields self) with
  | Some named_field => Ok named_field
  | None => Raise (ValueError "Field not found")
  end.

Definition get_fields (self : DataclassDefinition) : list NamedFieldEntry :=
  _fields self.

Definition get_field_entries (self : DataclassDefinition) : list FieldEntry :=
  map snd (_fields self).

Definition get_field_entry (self : DataclassDefinition) (field_identifier : Z)
    : result FieldEntry :=
  match List.find (fun field => identifier field =? field_identifier)
          (get_field_entries self) with
  | Some field => Ok field
  | None => Raise (ValueError "Unexpected field identifier")
  end.

(** [self._dataclass_object.__dataclass_fields__[name]]. *)
Definition dataclass_field (self : DataclassDefinition) (field_name : string)
    : result dataclasses.Field :=
  fs ← dataclasses_fields (_dataclass_object self);
  match List.find (fun f => String.eqb (dataclasses.name f) field_name) fs with
  | Some f => Ok f
  | None => Raise KeyError
  end.

Definition is_primitive_name (n : string) : bool :=
  String.eqb n "int" || String.eqb n "float" || String.eqb n "str"
  || String.eqb n "bytes".

Definition get_field_value (self : DataclassDefinition) (field_identifier : Z)
    : result (pyobject * option (value -> result (unit -> result value))) :=
  match List.find (fun named_field => identifier (snd named_field) =? field_identifier)
          (_fields self) with
  | Some (entry_field_name, entry_field_entry) =>
      field ← dataclass_field self entry_field_name;
      let field_type_name := dataclasses.type field in
      if is_primitive_name field_type_name
      then Raise AttributeError (* a field without a default is no class attribute *)
      else
        let field_type_name :=
          if PyStr.startswith field_type_name "list["
          then PyStr.slice (dataclasses.type field) 5 (-1)
          else field_type_name in
        let field_type_name :=
          if PyStr.endswith field_type_name " | None"
          then PyStr.slice field_type_name 0 (-7)
          else field_type_name in
        match _class_references self !! field_type_name with
        | Some r => Ok (ref_first r, ref_second r)
        | None => Raise KeyError
        end
  | None => Raise (ValueError "Unexpected field identifier")
  end.

Definition get_list_constraint (self : DataclassDefinition) (field_identifier : Z)
    : result (DataclassDefinition * FieldEntry * option Z) :=
  match List.find (fun named_field => identifier (snd named_field) =? field_identifier)
          (_fields self) with
  | Some (entry_field_name, entry_field_entry) =>
      field ← dataclass_field self entry_field_name;
      let item_count := dataclasses.bsor_length (dataclasses.metadata field) in
      let field_type_name := PyStr.slice (dataclasses.type field) 5 (-1) in
      field_type_data ←
        map_type_name_to_field_type field_type_name (_class_references self) None;
      Ok (self, {| identifier := field_identifier;
                   type_metadata := field_type_data |}, item_count)
  | None => Raise (ValueError "Unexpected field identifier")
  end.

Definition get_definition (self : DataclassDefinition) (field_identifier : Z)
    : result DataclassDefinition :=
  '(class_reference, decoder_callable) ← get_field_value self field_identifier;
  match decoder_callable with
  | Some _ => Raise AssertionError
  | None => DataclassDefinition_init class_reference (_class_references self)
  end.

Import Bitcoinx.

(** ** Loops *)

(** [for _ in range(n): s = body(s)]. *)
Fixpoint for_range {S : Type} (n : nat) (body : S -> result S) (s : S) : result S :=
  match n with
  | O => Ok s
  | S k => s' ← body s; for_range k body s'
  end.

(** [for x in l: s = body(s, x)]. *)
Fixpoint for_each {S A : Type} (l : list A) (body : S -> A -> result S) (s : S)
    : result S :=
  match l with
  | [] => Ok s
  | x :: r => s' ← body s x; for_each r body s'
  end.

(** ** The decoder

    The generator over the script is its unread suffix; each function
    returns the suffix it leaves.  [depth] is the number of nested calls
    the interpreter still allows: the three functions call each other, and a
    schema can make them recurse without reading anything. *)

Definition bytes_or_none (value_bytes : option bytes) : value :=
  match value_bytes with
  | Some b => VBytes b
  | None => VNone
  end.

(** The second loop of [_read_structure], for one declared field. *)
Definition backfill (kwargs : gmap string value) (named_field : NamedFieldEntry)
    : gmap string value :=
  let '(field_name, field) := named_field in
  match kwargs !! field_name with
  | Some _ => kwargs
  | None =>
      if stores_pointers (type_metadata field)
      then <[field_name := VNone]> kwargs
      else
        match TYPE_DEFAULTS (field_type (type_metadata field)) with
        | Some d => <[field_name := d]> kwargs
        | None => kwargs
        end
  end.

Definition is_custom_scalar (m : FieldTypeMetadata) : bool :=
  is_class_reference m && negb (bool_decide (field_type m = OBJECT)).

(** The body of the first loop of [_read_structure]: one field off the
    wire into [kwargs]. *)
Definition read_structure_step
    (read_field : bytes -> result ((Z * value) * bytes))
    (definition : DataclassDefinition)
    (state : gmap string value * bytes) : result (gmap string value * bytes) :=
  let '(kwargs, generator) := state in
  '((field_id, field_value), generator) ← read_field generator;
  '(field_name, _field) ← get_field definition field_id;
  Ok (<[field_name := field_value]> kwargs, generator).

(** The body of the list loop of [_read_type]: one slot appended to
    [field_value]. *)
Definition read_list_step
    (read_item : bytes -> result (value * bytes))
    (item_field_entry : FieldEntry)
    (state : list value * bytes) : result (list value * bytes) :=
  let '(field_value, generator) := state in
  if stores_pointers (type_metadata item_field_entry) then
    '((opcode, value_bytes), generator) ← next generator;
    if opcode =? OP_0 then Ok (field_value ++ [VNone], generator)
    else if negb (opcode =? OP_1) then
      Raise (ValueError "List of pointers contains a non-zero/non-one entry prefix")
    else
      '(item, generator) ← read_item generator;
      Ok (field_value ++ [item], generator)
  else
    '(item, generator) ← read_item generator;
    Ok (field_value ++ [item], generator).

Fixpoint _read_structure (depth : nat) (generator : bytes)
    (definition : DataclassDefinition) (class_reference : pyobject) {struct depth}
    : result (value * bytes) :=
  match depth with
  | O => Raise RecursionError
  | S depth =>
      '((opcode, value_bytes), generator) ← next generator;
      let field_count := item_to_int value_bytes in
      '(kwargs, generator) ←
        for_range (Z.to_nat field_count)
          (read_structure_step (fun generator => _read_field depth generator definition)
             definition)
          (∅, generator);
      let kwargs := fold_left backfill (get_fields definition) kwargs in
      instance ← call_kwargs class_reference kwargs;
      Ok (instance, generator)
  end

with _read_field (depth : nat) (generator : bytes)
    (definition : DataclassDefinition) {struct depth}
    : result ((Z * value) * bytes) :=
  match depth with
  | O => Raise RecursionError
  | S depth =>
      '((opcode, value_bytes), generator) ← next generator;
      let field_identifier := item_to_int value_bytes in
      field_entry ← get_field_entry definition field_identifier;
      '(field_value, generator) ← _read_type depth generator definition field_entry;
      Ok ((field_identifier, field_value), generator)
  end

with _read_type (depth : nat) (generator : bytes)
    (definition : DataclassDefinition) (field_entry : FieldEntry) {struct depth}
    : result (value * bytes) :=
  match depth with
  | O => Raise RecursionError
  | S depth =>
      if is_custom_scalar (type_metadata field_entry) then
        '(decode_callable, _encode_callable) ←
          get_field_value definition (identifier field_entry);
        '((opcode, value_bytes), generator) ← next generator;
        field_value ← call1 decode_callable (bytes_or_none value_bytes);
        Ok (field_value, generator)
      else
        match field_type (type_metadata field_entry) with
        | INTEGER =>
            '((opcode, value_bytes), generator) ← next generator;
            Ok (VInt (item_to_int value_bytes), generator)
        | FLOAT =>
            '((opcode, value_bytes), generator) ← next generator;
            match value_bytes with
            | Some b =>
                if len b =? 4 then Ok (VFloat (Struct.unpack_f b), generator)
                else Raise (ValueError "Invalid float length, expected 4 bytes")
            | None => Raise (ValueError "Invalid float length, expected 4 bytes")
            end
        | DOUBLE =>
            '((opcode, value_bytes), generator) ← next generator;
            match value_bytes with
            | Some b =>
                if len b =? 8 then Ok (VFloat (Struct.unpack_d b), generator)
                else Raise (ValueError "Invalid float length, expected 8 bytes")
            | None => Raise (ValueError "Invalid float length, expected 8 bytes")
            end
        | BYTES =>
            '((opcode, value_bytes), generator) ← next generator;
            Ok (bytes_or_none value_bytes, generator)
        | STRING =>
            '((opcode, value_bytes), generator) ← next generator;
            match value_bytes with
            | None => Raise (ValueError "Invalid string, expected pushdata got None")
            | Some b => s ← Codecs.decode b; Ok (VStr s, generator)
            end
        | LIST =>
            '(list_definition, item_field_entry, item_count) ←
              get_list_constraint definition (identifier field_entry);
            '(item_count, generator) ←
              match item_count with
              | None =>
                  '((opcode, value_bytes), generator) ← next generator;
                  Ok (item_to_int value_bytes, generator)
              | Some n => Ok (n, generator)
              end;
            '(field_value, generator) ←
              for_range (Z.to_nat item_count)
                (read_list_step
                   (fun generator =>
                      _read_type depth generator list_definition item_field_entry)
                   item_field_entry)
                ([], generator);
            Ok (VList field_value, generator)
        | OBJECT =>
            next_definition ← get_definition definition (identifier field_entry);
            '(class_reference, decoder_value) ←
              get_field_value definition (identifier field_entry);
            match decoder_value with
            | Some _ => Raise AssertionError
            | None => _read_structure depth generator next_definition class_reference
            end
        end
  end.

(** [recursion_limit] is the interpreter's bound on nested calls. *)
Definition loads (recursion_limit : nat) (data : bytes)
    (definition : DataclassDefinition) (class_reference : pyobject) : result value :=
  '(instance, _) ← _read_structure recursion_limit data definition class_reference;
  Ok instance.

(** [load] reads the whole stream first and then does what [loads] does. *)
Definition load (recursion_limit : nat) (stream : bytes)
    (definition : DataclassDefinition) (class_reference : pyobject) : result value :=
  loads recursion_limit stream definition class_reference.

(** ** The encoder

    The output stream is the list of bytes written so far; a write appends. *)

Definition push_int_value (v : value) : result bytes :=
  match v with
  | VInt n => push_int n
  | _ => Raise TypeError
  end.

Definition push_item_value (v : value) : result bytes :=
  match v with
  | VBytes b => push_item b
  | _ => Raise TypeError
  end.

(** [struct.pack] takes a float or an integer. *)
Definition float_arg (v : value) : result Z :=
  match v with
  | VFloat bits => Ok bits
  | VInt n => Struct.int_to_float n
  | _ => Raise StructError
  end.

(** [field_value.encode()]. *)
Definition str_encode (v : value) : result bytes :=
  match v with
  | VStr s => Codecs.encode s
  | _ => Raise AttributeError
  end.

(** [len(field_value)] and the items [enumerate(field_value)] yields. *)
Definition py_len (v : value) : result Z :=
  match v with
  | VList l => Ok (len l)
  | VStr s => Ok (len s)
  | VBytes b => Ok (len b)
  | _ => Raise TypeError
  end.

Definition py_iter (v : value) : result (list value) :=
  match v with
  | VList l => Ok l
  | VStr s => Ok (map (fun c => VStr [c]) s)
  | VBytes b => Ok (map (fun x => VInt (byte_to_Z x)) b)
  | _ => Raise TypeError
  end.

Definition is_None (v : value) : bool :=
  match v with VNone => true | _ => false end.

(** The test of the first loop of [_write_structure]: [true] when the field
    is appended to [fields], [false] on either [continue]. *)
Definition field_survives (object_value : value) (named_field : NamedFieldEntry) : bool :=
  let '(field_name, field_entry) := named_field in
  if negb (hasattr object_value field_name) then false
  else
    match getattr object_value field_name with
    | Raise _ => false
    | Ok field_value =>
        match TYPE_DEFAULTS (field_type (type_metadata field_entry)) with
        | Some d =>
            if stores_pointers (type_metadata field_entry)
            then negb (is_None field_value)
            else negb (py_eq field_value d)
        | None => true
        end
    end.

Definition write (stream : bytes) (data : result bytes) : result bytes :=
  b ← data; Ok (stream ++ b).

(** The body of the second loop of [_write_structure]: one surviving
    field. *)
Definition write_structure_step
    (write_field : bytes -> Z -> FieldTypeMetadata -> value -> result bytes)
    (object_value : value) (stream : bytes) (named_field : NamedFieldEntry)
    : result bytes :=
  let '(field_name, field_entry) := named_field in
  if hasattr object_value field_name then
    field_value ← getattr object_value field_name;
    write_field stream (identifier field_entry) (type_metadata field_entry) field_value
  else Ok stream.

(** The body of the list loop of [_write_type]: one item. *)
Definition write_list_step
    (write_item : bytes -> value -> result bytes)
    (item_field_entry : FieldEntry) (stream : bytes) (item_value : value)
    : result bytes :=
  if stores_pointers (type_metadata item_field_entry) then
    (* Lists of pointers have a 0 for a nil, or a 1 followed by the value
       pointed to. *)
    if is_None item_value then write stream (push_int 0)
    else
      stream ← write stream (push_int 1);
      write_item stream item_value
  else write_item stream item_value.

Fixpoint _write_structure (depth : nat) (stream : bytes)
    (definition : DataclassDefinition) (object_value : value) {struct depth}
    : result bytes :=
  match depth with
  | O => Raise RecursionError
  | S depth =>
      let fields := List.filter (field_survives object_value) (get_fields definition) in
      stream ← write stream (push_int (len fields));
      for_each fields
        (write_structure_step
           (fun stream => _write_field depth stream definition) object_value)
        stream
  end

with _write_field (depth : nat) (stream : bytes)
    (definition : DataclassDefinition) (field_identifier : Z)
    (field_type_metadata : FieldTypeMetadata) (field_value : value) {struct depth}
    : result bytes :=
  match depth with
  | O => Raise RecursionError
  | S depth =>
      stream ← write stream (push_int field_identifier);
      _write_type depth stream definition field_identifier field_type_metadata field_value
  end

with _write_type (depth : nat) (stream : bytes)
    (definition : DataclassDefinition) (field_identifier : Z)
    (field_type_metadata : FieldTypeMetadata) (field_value : value) {struct depth}
    : result bytes :=
  match depth with
  | O => Raise RecursionError
  | S depth =>
      field_value ←
        (if is_custom_scalar field_type_metadata then
           '(_decode_callable, encoder_callable_factory) ←
             get_field_value definition field_identifier;
           match field_type field_type_metadata with
           | BYTES =>
               match encoder_callable_factory with
               | Some factory => encoder ← factory field_value; encoder tt
               | None => Raise TypeError
               end
           | _ => Raise (NotImplementedError
                           "Needs encoder for class instance field, with type ")
           end
         else Ok field_value);
      match field_type field_type_metadata with
      | INTEGER => write stream (push_int_value field_value)
      | FLOAT =>
          write stream (bits ← float_arg field_value;
                        float_value ← Struct.pack_f bits; push_item float_value)
      | DOUBLE =>
          write stream (bits ← float_arg field_value; push_item (Struct.pack_d bits))
      | BYTES => write stream (push_item_value field_value)
      | STRING => write stream (b ← str_encode field_value; push_item b)
      | LIST =>
          '(list_definition, item_field_entry, item_count) ←
            get_list_constraint definition field_identifier;
          stream ←
            match item_count with
            | None => item_count ← py_len field_value; write stream (push_int item_count)
            | Some _ => Ok stream
            end;
          items ← py_iter field_value;
          for_each items
            (write_list_step
               (fun stream =>
                  _write_type depth stream list_definition field_identifier
                    (type_metadata item_field_entry))
               item_field_entry)
            stream
      | OBJECT =>
          next_definition ← get_definition definition field_identifier;
          _write_structure depth stream next_definition field_value
      end
  end.

Definition dump (recursion_limit : nat) (object : value) (stream : bytes)
    (structure_metadata : gmap string class_reference) : result bytes :=
  definition ← DataclassDefinition_init (PyClass (class_of object)) structure_metadata;
  _write_structure recursion_limit stream definition object.

Definition dumps (recursion_limit : nat) (object : value)
    (structure_metadata : gmap string class_reference) : result bytes :=
  dump recursion_limit object [] structure_metadata.

(** ** Canonical instances

    The instances the round trip is stated for.  [canonical_structure]
    follows the schema the way the codec does and, at each level, asks of
    the value what the wire can carry and give back:
    - the instance is of the class the definition was built from, with one
      attribute per declared field, in declaration order; field names
      and field ids are not repeated;
    - an Integer is an [int], Bytes are [bytes], a String is text that
      UTF-8 can encode, each short enough for one push;
    - a Float64 is a float (64 bits), a Float32 a float that binary32
      represents exactly, neither a NaN (which is equal to nothing);
    - a list holds items of the declared item type, as many as
      [bsor_length] when it is declared; a pointer item may be [None];
    - an Object field holds a canonical instance of the bound class;
    - a custom scalar is a value, equal to itself, that its encoder turns
      into bytes that its decoder turns back into the same value;
    - a field the encoder leaves out holds what the decoder puts back:
      [None] for a pointer, the zero default otherwise.
    [depth] bounds the nesting as the interpreter does. *)

Fixpoint value_eqb (a b : value) {struct a} : bool :=
  match a, b with
  | VNone, VNone => true
  | VInt x, VInt y => x =? y
  | VFloat x, VFloat y => x =? y
  | VStr x, VStr y => bool_decide (x = y)
  | VBytes x, VBytes y => bool_decide (x = y)
  | VList x, VList y =>
      (fix go (l1 l2 : list value) {struct l1} : bool :=
         match l1, l2 with
         | [], [] => true
         | v1 :: r1, v2 :: r2 => value_eqb v1 v2 && go r1 r2
         | _, _ => false
         end) x y
  | VObject c1 a1, VObject c2 a2 =>
      bool_decide (c1 = c2)
      && (fix go (l1 l2 : list (string * value)) {struct l1} : bool :=
            match l1, l2 with
            | [], [] => true
            | (k1, v1) :: r1, (k2, v2) :: r2 =>
                String.eqb k1 k2 && value_eqb v1 v2 && go r1 r2
            | _, _ => false
            end) a1 a2
  | _, _ => false
  end.

(** What the second loop of [_read_structure] gives a field that is not on
    the wire. *)
Definition backfilled (m : FieldTypeMetadata) : option value :=
  if stores_pointers m then Some VNone else TYPE_DEFAULTS (field_type m).

Fixpoint canonical_structure (depth : nat) (definition : DataclassDefinition)
    (cls : pyclass) (x : value) {struct depth} : bool :=
  match depth with
  | O => false
  | S depth =>
      match x, __dataclass_fields__ cls with
      | VObject c attrs, Some fs =>
          bool_decide (c = cls)
          && bool_decide (map fst attrs = map dataclasses.name fs)
          && bool_decide (map fst (get_fields definition) = map dataclasses.name fs)
          && bool_decide (NoDup (map dataclasses.name fs))
          && bool_decide (NoDup (map (fun named_field => identifier (snd named_field))
                                   (get_fields definition)))
          && pushable
               (int_to_item
                  (len (List.filter (field_survives x) (get_fields definition))))
          && forallb
               (fun named_field =>
                  match getattr x (fst named_field) with
                  | Ok v =>
                      if field_survives x named_field
                      then canonical_field depth definition (snd named_field) v
                      else
                        match backfilled (type_metadata (snd named_field)) with
                        | Some d => value_eqb v d
                        | None => false
                        end
                  | Raise _ => false
                  end)
               (get_fields definition)
      | _, _ => false
      end
  end

with canonical_field (depth : nat) (definition : DataclassDefinition)
    (field_entry : FieldEntry) (v : value) {struct depth} : bool :=
  match depth with
  | O => false
  | S depth =>
      pushable (int_to_item (identifier field_entry))
      && canonical_type depth definition (identifier field_entry)
           (type_metadata field_entry) v
  end

with canonical_type (depth : nat) (definition : DataclassDefinition)
    (field_identifier : Z) (m : FieldTypeMetadata) (v : value) {struct depth} : bool :=
  match depth with
  | O => false
  | S depth =>
      if is_custom_scalar m then
        match field_type m, get_field_value definition field_identifier with
        | BYTES, Ok (decode_callable, Some factory) =>
            match factory v with
            | Ok encoder =>
                match encoder tt with
                | Ok (VBytes b) =>
                    pushable b
                    && py_eq v v
                    && match call1 decode_callable (VBytes b) with
                       | Ok v' => value_eqb v' v
                       | Raise _ => false
                       end
                | _ => false
                end
            | Raise _ => false
            end
        | _, _ => false
        end
      else
        match field_type m with
        | INTEGER =>
            match v with VInt n => pushable (int_to_item n) | _ => false end
        | FLOAT =>
            match v with
            | VFloat bits =>
                negb (Struct.is_nan bits)
                && match Struct.pack_f bits with
                   | Ok b => Struct.unpack_f b =? bits
                   | Raise _ => false
                   end
            | _ => false
            end
        | DOUBLE =>
            match v with
            | VFloat bits =>
                negb (Struct.is_nan bits) && (0 <=? bits) && (bits <? 2 ^ 64)
            | _ => false
            end
        | BYTES =>
            match v with VBytes b => pushable b | _ => false end
        | STRING =>
            match v with
            | VStr s =>
                match Codecs.encode s with
                | Ok b => pushable b
                | Raise _ => false
                end
            | _ => false
            end
        | LIST =>
            match v, get_list_constraint definition field_identifier with
            | VList items, Ok (list_definition, item_field_entry, item_count) =>
                match item_count with
                | Some n => len items =? n
                | None => pushable (int_to_item (len items))
                end
                && forallb
                     (fun item =>
                        (stores_pointers (type_metadata item_field_entry)
                         && is_None item)
                        || canonical_type depth list_definition field_identifier
                             (type_metadata item_field_entry) item)
                     items
            | _, _ => false
            end
        | OBJECT =>
            match get_definition definition field_identifier,
                  get_field_value definition field_identifier with
            | Ok next_definition, Ok (PyClass sub, None) =>
                canonical_structure depth next_definition sub v
            | _, _ => false
            end
        end
  end.

(** The [kwargs] the first loop of [_read_structure] gathers when the wire
    carries the fields [fields] of the instance [x], in this order. *)
Definition wire_kwargs (x : value) (fields : list NamedFieldEntry)
    (kwargs : gmap string value) : gmap string value :=
  fold_left
    (fun kwargs named_field =>
       match getattr x (fst named_field) with
       | Ok v => <[fst named_field := v]> kwargs
       | Raise _ => kwargs
       end)
    fields kwargs.

(** ** Structures used as examples

    The two-field structure of the default-elision example, list fields in
    the shapes of [XTestStruct] (with and without [bsor_length], with
    pointer items), float fields of both widths, and bindings in the style
    of the test suite's [structure_metadata]. *)

Module Examples.

Definition field (n t : string) (id : Z) (length : option Z)
    (ft : option FieldType) : dataclasses.Field :=
  {| dataclasses.name := n; dataclasses.type := t;
     dataclasses.metadata :=
       {| dataclasses.bsor_id := Some id; dataclasses.bsor_length := length;
          dataclasses.bsor_type := ft |} |}.

Definition dataclass (n : string) (fs : list dataclasses.Field) : pyclass :=
  {| __name__ := n; __dataclass_fields__ := Some fs |}.

Definition XTestSubStruct : pyclass :=
  dataclass "XTestSubStruct"
    [field "SubIntField" "int" 1 None None;
     field "SubStringField" "str" 2 None None].

(** [{IntField(id=1,int), StrField(id=2,string)}]. *)
Definition Pair : pyclass :=
  dataclass "Pair"
    [field "IntField" "int" 1 None None; field "StrField" "str" 2 None None].

Definition IntPtrList : pyclass :=
  dataclass "IntPtrList" [field "Items" "list[int | None]" 1 None None].

Definition Lists : pyclass :=
  dataclass "Lists"
    [field "ArrayPrimitiveField" "list[int]" 8 None None;
     field "FixedArrayPrimitiveField" "list[int]" 9 (Some 2) None].

Definition Floats : pyclass :=
  dataclass "Floats"
    [field "Single" "float" 1 None None;
     field "Double" "float" 2 None (Some DOUBLE)].

Definition Twice : pyclass :=
  dataclass "Twice"
    [field "First" "int" 1 None None; field "Second" "str" 1 None None].

Definition WithPtr : pyclass :=
  dataclass "WithPtr" [field "SubStructPtr" "XTestSubStruct | None" 4 None None].

Definition FloatPtr : pyclass :=
  dataclass "FloatPtr" [field "Ratio" "float | None" 1 None None].

Definition Priced : pyclass :=
  dataclass "Priced" [field "Price" "Amount" 1 None None].

(** A custom scalar in the manner of [PublicKey]: an instance wraps its
    raw bytes; [from_bytes] builds it and [to_bytes] gives them back. *)
Definition PublicKey : pyclass := builtin "PublicKey".

Definition from_bytes (v : value) : result value :=
  match v with
  | VBytes b => Ok (VObject PublicKey [("raw", VBytes b)])
  | _ => Raise TypeError
  end.

Definition to_bytes (instance : value) : result (unit -> result value) :=
  Ok (fun _ => getattr instance "raw").

Definition structure_metadata : gmap string class_reference :=
  <["PublicKey" := {| ref_first := PyFun from_bytes; ref_second := Some to_bytes;
                      ref_type := BYTES |}]>
  (<["XTestSubStruct" := {| ref_first := PyClass XTestSubStruct; ref_second := None;
                            ref_type := OBJECT |}]>
  (<["Amount" := {| ref_first := PyFun from_bytes; ref_second := Some to_bytes;
                    ref_type := INTEGER |}]> ∅)).

Definition instance (c : pyclass) (attrs : list (string * value)) : value :=
  VObject c attrs.

(** A structure with the field shapes of [XTestStruct], and an instance
    of it. *)
Definition Sample : pyclass :=
  dataclass "Sample"
    [field "IntField" "int" 1 None None;
     field "StringField" "str" 2 None None;
     field "SubStruct" "XTestSubStruct" 3 None None;
     field "SubStructPtr" "XTestSubStruct | None" 4 None None;
     field "BinaryField" "bytes" 5 None None;
     field "PointerField" "str | None" 7 None None;
     field "ArrayPrimitiveField" "list[str]" 8 None None;
     field "FixedArrayPrimitiveField" "list[int]" 9 (Some 2) None;
     field "ArrayObjectField" "list[XTestSubStruct]" 10 None None;
     field "ArrayObjectPtrField" "list[XTestSubStruct | None]" 12 None None;
     field "ArrayStringPtrField" "list[str | None]" 13 None None;
     field "PublicKeyField" "PublicKey" 14 None None;
     field "PublicKeyPtrField" "PublicKey | None" 15 None None;
     field "PublicKeyArrayField" "list[PublicKey]" 17 None None;
     field "IntPtrField" "int | None" 21 None None;
     field "IntPtrZeroField" "int | None" 23 None None;
     field "Single" "float" 30 None None;
     field "Double" "float" 31 None (Some DOUBLE)].

Definition sub_struct (i : Z) (s : string) : value :=
  instance XTestSubStruct
    [("SubIntField", VInt i); ("SubStringField", VStr (Codecs.of_string s))].

Definition public_key (raw : bytes) : value :=
  instance PublicKey [("raw", VBytes raw)].

Definition sample : value :=
  instance Sample
    [("IntField", VInt 0);
     ("StringField", VStr (Codecs.of_string "hi"));
     ("SubStruct", sub_struct 3 "");
     ("SubStructPtr", sub_struct 0 "");
     ("BinaryField", VBytes [x01; x02]);
     ("PointerField", VNone);
     ("ArrayPrimitiveField", VList [VStr (Codecs.of_string "a"); VStr []]);
     ("FixedArrayPrimitiveField", VList [VInt 1; VInt (-200)]);
     ("ArrayObjectField", VList [sub_struct 0 ""; sub_struct 1 "z"]);
     ("ArrayObjectPtrField", VList [VNone; sub_struct 1 "z"]);
     ("ArrayStringPtrField", VList [VNone; VStr [233; 8364]]);
     ("PublicKeyField", public_key [x02; x03]);
     ("PublicKeyPtrField", VNone);
     ("PublicKeyArrayField", VList [public_key [x05]]);
     ("IntPtrField", VNone);
     ("IntPtrZeroField", VInt 0);
     ("Single", VFloat 4609434218613702656);
     ("Double", VFloat 4591870180066957722)].

(** The definition of an example class (without fields, should the build
    fail). *)
Definition definition_of (c : pyclass) : DataclassDefinition :=
  match DataclassDefinition_init (PyClass c) structure_metadata with
  | Ok d => d
  | Raise _ =>
      {| _dataclass_object := PyClass c; _class_references := ∅; _fields := [] |}
  end.

End Examples.

(** ** Further structures used as examples *)

Module Further.

Import Examples.

(** The second field has no [bsor_id]; the third has a type nobody binds. *)
Definition NoId : pyclass :=
  dataclass "NoId"
    [field "First" "int" 1 None None;
     {| dataclasses.name := "Second"; dataclasses.type := "str";
        dataclasses.metadata :=
          {| dataclasses.bsor_id := None; dataclasses.bsor_length := None;
             dataclasses.bsor_type := None |} |};
     field "Third" "Mystery" 3 None None].

Definition Untyped : pyclass :=
  dataclass "Untyped"
    [field "First" "int" 1 None None; field "Second" "Mystery" 2 None None].

(** The pointer to a list of the module docstring. *)
Definition ListPtr : pyclass :=
  dataclass "ListPtr" [field "Items" "list[int] | None" 1 None None].

(** A fixed array of arrays. *)
Definition Matrix : pyclass :=
  dataclass "Matrix" [field "Rows" "list[list[int]]" 1 (Some 2) None].

(** Lists of floats, with and without pointer items, the second on a
    field that asks for doubles. *)
Definition FloatLists : pyclass :=
  dataclass "FloatLists"
    [field "Plain" "list[float]" 1 None None;
     field "Pointers" "list[float | None]" 2 None (Some DOUBLE)].

(** A structure with fields that have no zero default. *)
Definition Mixed : pyclass :=
  dataclass "Mixed"
    [field "IntField" "int" 1 None None;
     field "Ratio" "float" 2 None None;
     field "Items" "list[int]" 3 None None;
     field "SubStruct" "XTestSubStruct" 4 None None].

End Further.

(** * Properties *)

(** ** Bytes *)

Lemma byte_to_Z_range (b : byte) : 0 <= byte_to_Z b < 256.
Proof.
  unfold byte_to_Z. pose proof (Byte.to_N_bounded b) as H.
  split; [apply N2Z.is_nonneg|]. lia.
Qed.

Lemma Z_to_byte_to_Z (b : byte) : Z_to_byte (byte_to_Z b) = b.
Proof.
  unfold Z_to_byte, byte_to_Z.
  rewrite Z.mod_small by (apply byte_to_Z_range).
  rewrite N2Z.id, Byte.of_to_N. reflexivity.
Qed.

Lemma byte_to_Z_to_byte (z : Z) : byte_to_Z (Z_to_byte z) = z mod 256.
Proof.
  unfold Z_to_byte, byte_to_Z.
  pose proof (Z.mod_pos_bound z 256 eq_refl) as Hr.
  destruct (Byte.of_N (Z.to_N (z mod 256))) as [b|] eqn:E.
  - apply Byte.to_of_N in E. rewrite E, Z2N.id; lia.
  - apply Byte.of_N_None_iff in E. lia.
Qed.

Lemma byte_to_Z_small (z : Z) : 0 <= z < 256 -> byte_to_Z (Z_to_byte z) = z.
Proof. intros H. rewrite byte_to_Z_to_byte. apply Z.mod_small, H. Qed.

Lemma byte_to_Z_inj (a b : byte) : byte_to_Z a = byte_to_Z b -> a = b.
Proof. intros H. rewrite <- (Z_to_byte_to_Z a), <- (Z_to_byte_to_Z b). congruence. Qed.

Lemma len_app {A : Type} (l1 l2 : list A) : len (l1 ++ l2) = len l1 + len l2.
Proof. unfold len. rewrite length_app. lia. Qed.

Lemma len_nonneg {A : Type} (l : list A) : 0 <= len l.
Proof. unfold len. lia. Qed.

(** ** The token stream: what is pushed is what is read *)

Section TokenStream.

Import Bitcoinx.

Lemma le_bytes_to_int_app (l : bytes) (x : byte) :
  le_bytes_to_int (l ++ [x]) = le_bytes_to_int l + 256 ^ len l * byte_to_Z x.
Proof.
  induction l as [|y l IH]; simpl.
  - unfold len; simpl. lia.
  - rewrite IH. unfold len. simpl length. rewrite Nat2Z.inj_succ, Z.pow_succ_r by lia.
    fold (len l). lia.
Qed.

Lemma le_bytes_to_int_nonneg (l : bytes) : 0 <= le_bytes_to_int l.
Proof.
  induction l as [|y l IH]; simpl; [lia|].
  pose proof (byte_to_Z_range y). lia.
Qed.

Lemma int_to_le_bytes_aux_value (fuel : nat) (n : Z) :
  0 <= n < 256 ^ Z.of_nat fuel ->
  le_bytes_to_int (int_to_le_bytes_aux fuel n) = n.
Proof.
  revert n. induction fuel as [|f IH]; intros n Hn.
  - simpl in *. lia.
  - simpl. destruct (Z.leb_spec n 0); [simpl; lia|].
    simpl. rewrite byte_to_Z_to_byte, IH.
    + pose proof (Z.div_mod n 256). lia.
    + rewrite Nat2Z.inj_succ, Z.pow_succ_r in Hn by lia.
      split; [apply Z.div_pos; lia|].
      apply Z.div_lt_upper_bound; lia.
Qed.

Lemma log2_bound (n : Z) : 0 < n -> n < 256 ^ Z.of_nat (S (Z.to_nat (Z.log2 n))).
Proof.
  intros Hn. pose proof (Z.log2_nonneg n) as Hl.
  pose proof (Z.log2_spec n Hn) as [_ Hu].
  rewrite Nat2Z.inj_succ, Z2Nat.id by lia.
  eapply Z.lt_le_trans; [exact Hu|].
  change 256 with (2 ^ 8). rewrite <- Z.pow_mul_r by lia.
  apply Z.pow_le_mono_r; lia.
Qed.

Lemma int_to_le_bytes_value (n : Z) :
  0 < n -> le_bytes_to_int (int_to_le_bytes n) = n.
Proof.
  intros Hn. unfold int_to_le_bytes. apply int_to_le_bytes_aux_value.
  split; [lia|]. apply log2_bound, Hn.
Qed.

Lemma int_to_le_bytes_nonempty (n : Z) : 0 < n -> int_to_le_bytes n <> [].
Proof.
  intros Hn. unfold int_to_le_bytes. simpl.
  destruct (Z.leb_spec n 0); [lia|]. discriminate.
Qed.

Lemma last_removelast (l : bytes) (d : byte) :
  l <> [] -> List.removelast l ++ [List.last l d] = l.
Proof. intros H. symmetry. apply app_removelast_last, H. Qed.

Lemma removelast_snoc (l : bytes) (x : byte) : List.removelast (l ++ [x]) = l.
Proof. apply removelast_last. Qed.

Lemma last_snoc (l : bytes) (x d : byte) : List.last (l ++ [x]) d = x.
Proof. apply last_last. Qed.

Lemma testbit7_small (z : Z) : 0 <= z < 256 -> Z.testbit z 7 = false -> z < 128.
Proof.
  intros Hz Hb. destruct (Z.ltb_spec z 128) as [|Hge]; [assumption|].
  exfalso. assert (Ht : Z.testbit z 7 = true).
  { rewrite Z.testbit_true by lia. change (2 ^ 7) with 128.
    assert (z / 128 = 1) as -> by (Z.div_mod_to_equations; lia).
    reflexivity. }
  congruence.
Qed.

Lemma lor_128_land_127 (z : Z) :
  0 <= z < 256 -> Z.testbit z 7 = false -> Z.land (Z.lor z 128) 127 = z.
Proof.
  intros Hz Hb.
  assert (Hlt : z < 128) by (apply testbit7_small; assumption).
  apply Z.bits_inj'. intros k Hk.
  rewrite Z.land_spec, Z.lor_spec.
  change 127 with (Z.ones 7). change 128 with (2 ^ 7).
  rewrite Z.pow2_bits_eqb by lia.
  destruct (Z.ltb_spec k 7).
  - rewrite Z.ones_spec_low by lia.
    destruct (Z.eqb_spec 7 k); [lia|]. rewrite orb_false_r, andb_true_r. reflexivity.
  - rewrite Z.ones_spec_high by lia. rewrite andb_false_r.
    destruct (Z.eq_dec k 7) as [->|]; [congruence|].
    symmetry. destruct (Z.eq_dec z 0) as [->|]; [apply Z.bits_0|].
    apply Z.bits_above_log2; [lia|].
    assert (Z.log2 z < 7); [|lia].
    apply Z.log2_lt_pow2; [lia|]. change (2 ^ 7) with 128. lia.
Qed.

Lemma testbit7_lor_128 (z : Z) : Z.testbit (Z.lor z 128) 7 = true.
Proof. rewrite Z.lor_spec. change (Z.testbit 128 7) with true. apply orb_true_r. Qed.

Lemma lor_128_range (z : Z) : 0 <= z < 128 -> 0 <= Z.lor z 128 < 256.
Proof.
  intros Hz. split; [apply Z.lor_nonneg; lia|].
  destruct (Z.eq_dec (Z.lor z 128) 0) as [->|Hne]; [lia|].
  apply Z.log2_lt_cancel. rewrite Z.log2_lor by lia.
  change (Z.log2 256) with 8. change (Z.log2 128) with 7.
  destruct (Z.eq_dec z 0) as [->|]; [simpl; lia|].
  assert (Z.log2 z < 7) by (apply Z.log2_lt_pow2; [lia|change (2 ^ 7) with 128; lia]).
  lia.
Qed.

(** The minimal signed item of an integer reads back as the integer. *)
Lemma item_to_int_int_to_item (n : Z) : item_to_int (Some (int_to_item n)) = n.
Proof.
  unfold int_to_item.
  destruct (Z.eqb_spec n 0) as [->|Hn]; [reflexivity|].
  set (mag := int_to_le_bytes (Z.abs n)).
  assert (Hmag : le_bytes_to_int mag = Z.abs n) by (apply int_to_le_bytes_value; lia).
  assert (Hne : mag <> []) by (apply int_to_le_bytes_nonempty; lia).
  pose proof (byte_to_Z_range (List.last mag x00)) as Hlast.
  destruct (Z.testbit (byte_to_Z (List.last mag x00)) 7) eqn:Hbit.
  - (* the magnitude uses the sign bit: one more byte *)
    unfold item_to_int.
    destruct (mag ++ [if n <? 0 then x80 else x00]) as [|h t] eqn:E;
      [destruct mag; discriminate|].
    rewrite <- E. rewrite last_snoc, removelast_snoc.
    destruct (Z.ltb_spec n 0).
    + change (Z.testbit (byte_to_Z x80) 7) with true. cbv iota.
      change (Z_to_byte (Z.land (byte_to_Z x80) 127)) with x00.
      rewrite le_bytes_to_int_app. change (byte_to_Z x00) with 0. lia.
    + change (Z.testbit (byte_to_Z x00) 7) with false. cbv iota.
      rewrite le_bytes_to_int_app. change (byte_to_Z x00) with 0. lia.
  - pose proof (testbit7_small _ Hlast Hbit) as Hsmall.
    destruct (Z.ltb_spec n 0).
    + unfold item_to_int.
      destruct (List.removelast mag ++ [Z_to_byte (Z.lor (byte_to_Z (List.last mag x00)) 128)])
        as [|h t] eqn:E; [destruct (List.removelast mag); discriminate|].
      rewrite <- E. rewrite last_snoc, removelast_snoc.
      rewrite byte_to_Z_small by (apply lor_128_range; lia).
      rewrite testbit7_lor_128, lor_128_land_127 by assumption.
      rewrite Z_to_byte_to_Z, last_removelast by assumption. lia.
    + unfold item_to_int. destruct mag as [|h t] eqn:E; [congruence|].
      rewrite <- E in *. rewrite Hbit. lia.
Qed.

Lemma take_exact_app (item rest : bytes) :
  take_exact (len item) (item ++ rest) = Ok (item, rest).
Proof.
  unfold take_exact. rewrite len_app.
  pose proof (len_nonneg rest).
  destruct (Z.leb_spec (len item) (len item + len rest)); [|lia].
  unfold len. rewrite Nat2Z.id.
  rewrite take_app_length, drop_app_length. reflexivity.
Qed.

Lemma le_bytes_to_int_pack_le (w : nat) (n : Z) :
  0 <= n < 256 ^ Z.of_nat w -> le_bytes_to_int (pack_le w n) = n.
Proof.
  revert n. induction w as [|w IH]; intros n Hn.
  - simpl in *. lia.
  - simpl. rewrite byte_to_Z_to_byte, IH.
    + pose proof (Z.div_mod n 256). lia.
    + rewrite Nat2Z.inj_succ, Z.pow_succ_r in Hn by lia.
      split; [apply Z.div_pos; lia|].
      apply Z.div_lt_upper_bound; lia.
Qed.

Lemma length_pack_le (w : nat) (n : Z) : length (pack_le w n) = w.
Proof. revert n. induction w; intros; simpl; congruence. Qed.

Lemma take_exact_pack_le (w : nat) (n : Z) (rest : bytes) :
  take_exact (Z.of_nat w) (pack_le w n ++ rest) = Ok (pack_le w n, rest).
Proof.
  pose proof (take_exact_app (pack_le w n) rest) as H.
  unfold len in H. rewrite length_pack_le in H. exact H.
Qed.

(** A pushed item is the next token of the stream, whatever follows. *)
Lemma next_push_item (item b rest : bytes) :
  push_item item = Ok b ->
  exists op, next (b ++ rest) = Ok ((op, Some item), rest).
Proof.
  intros Hpush.
  assert (Hdirect :
    forall b',
      (if len item <? OP_PUSHDATA1 then Ok (Z_to_byte (len item) :: item)
       else if len item <=? 255 then Ok (Z_to_byte OP_PUSHDATA1 :: Z_to_byte (len item) :: item)
       else if len item <=? 65535 then Ok (Z_to_byte OP_PUSHDATA2 :: pack_le 2 (len item) ++ item)
       else if len item <=? 4294967295
            then Ok (Z_to_byte OP_PUSHDATA4 :: pack_le 4 (len item) ++ item)
            else Raise StructError) = Ok b' ->
      exists op, next (b' ++ rest) = Ok ((op, Some item), rest)).
  { intros b' H. pose proof (len_nonneg item) as Hlen. unfold OP_PUSHDATA1 in H.
    destruct (Z.ltb_spec (len item) 76).
    - injection H as <-. exists (len item). cbn [app next].
      rewrite byte_to_Z_small by lia.
      unfold OP_16, OP_PUSHDATA4, OP_PUSHDATA1.
      destruct (Z.leb_spec (len item) 96); [|lia].
      destruct (Z.leb_spec (len item) 78); [|lia].
      destruct (Z.ltb_spec (len item) 76); [|lia].
      cbn. rewrite take_exact_app. reflexivity.
    - destruct (Z.leb_spec (len item) 255).
      + injection H as <-. exists 76. cbn [app next].
        change (byte_to_Z (Z_to_byte 76)) with 76. cbn -[take_exact le_bytes_to_int].
        change (Z_to_byte (len item) :: item ++ rest)
          with (pack_le 1 (len item) ++ item ++ rest).
        rewrite (take_exact_pack_le 1). cbn -[take_exact le_bytes_to_int pack_le].
        rewrite le_bytes_to_int_pack_le by (simpl; lia).
        rewrite take_exact_app. reflexivity.
      + destruct (Z.leb_spec (len item) 65535).
        * injection H as <-. exists 77. cbn [app next].
          change (byte_to_Z (Z_to_byte OP_PUSHDATA2)) with 77.
          cbn -[take_exact le_bytes_to_int pack_le].
          match goal with |- context [take_exact 2 ?l] =>
            change l with (pack_le 2 (len item) ++ item ++ rest) end.
          rewrite (take_exact_pack_le 2).
          cbn -[take_exact le_bytes_to_int pack_le].
          rewrite le_bytes_to_int_pack_le by (simpl; lia).
          rewrite take_exact_app. reflexivity.
        * destruct (Z.leb_spec (len item) 4294967295); [|discriminate].
          injection H as <-. exists 78. cbn [app next].
          change (byte_to_Z (Z_to_byte OP_PUSHDATA4)) with 78.
          cbn -[take_exact le_bytes_to_int pack_le].
          match goal with |- context [take_exact 4 ?l] =>
            change l with (pack_le 4 (len item) ++ item ++ rest) end.
          rewrite (take_exact_pack_le 4).
          cbn -[take_exact le_bytes_to_int pack_le].
          rewrite le_bytes_to_int_pack_le by (simpl; lia).
          rewrite take_exact_app. reflexivity. }
  unfold push_item in Hpush.
  destruct item as [|x [|y item']].
  - injection Hpush as <-. exists 0. cbn -[take_exact].
    change (take_exact 0 rest) with (take_exact (len (@nil byte)) ([] ++ rest)).
    rewrite take_exact_app. reflexivity.
  - pose proof (byte_to_Z_range x) as Hx.
    destruct ((0 <? byte_to_Z x) && (byte_to_Z x <=? 16)) eqn:Hsmall.
    + apply andb_true_iff in Hsmall as [H0 H16].
      apply Z.ltb_lt in H0. apply Z.leb_le in H16.
      injection Hpush as <-. exists (OP_1 + byte_to_Z x - 1). cbn [app next].
      unfold OP_1, OP_16, OP_PUSHDATA4. rewrite byte_to_Z_small by lia.
      destruct (Z.leb_spec (81 + byte_to_Z x - 1) 96); [|lia].
      destruct (Z.leb_spec (81 + byte_to_Z x - 1) 78); [lia|].
      destruct (Z.leb_spec 81 (81 + byte_to_Z x - 1)); [|lia].
      replace (81 + byte_to_Z x - 1 - 81 + 1) with (byte_to_Z x) by lia.
      rewrite Z_to_byte_to_Z. reflexivity.
    + destruct (Z.eqb_spec (byte_to_Z x) 129) as [H129|].
      * injection Hpush as <-. exists OP_1NEGATE.
        assert (x = x81) as -> by (apply byte_to_Z_inj; rewrite H129; reflexivity).
        reflexivity.
      * apply Hdirect, Hpush.
  - apply Hdirect, Hpush.
Qed.

Lemma push_item_pushable (item : bytes) :
  pushable item = true -> exists b, push_item item = Ok b.
Proof.
  unfold pushable. intros H. apply Z.leb_le in H. unfold push_item.
  assert (Hd : exists b,
    (if len item <? OP_PUSHDATA1 then Ok (Z_to_byte (len item) :: item)
     else if len item <=? 255 then Ok (Z_to_byte OP_PUSHDATA1 :: Z_to_byte (len item) :: item)
     else if len item <=? 65535 then Ok (Z_to_byte OP_PUSHDATA2 :: pack_le 2 (len item) ++ item)
     else if len item <=? 4294967295
          then Ok (Z_to_byte OP_PUSHDATA4 :: pack_le 4 (len item) ++ item)
          else Raise StructError) = Ok b).
  { repeat match goal with |- context [if ?c then _ else _] => destruct c eqn:? end;
      eauto. apply Z.leb_gt in Heqb2. lia. }
  destruct item as [|x [|y t]]; eauto.
  repeat match goal with |- context [if ?c then _ else _] => destruct c end; eauto.
Qed.

(** An integer that fits a push is the next token, read back by
    [item_to_int]. *)
Lemma next_push_int (n : Z) (b rest : bytes) :
  push_int n = Ok b ->
  exists op item, next (b ++ rest) = Ok ((op, item), rest) /\ item_to_int item = n.
Proof.
  unfold push_int. intros H.
  destruct (next_push_item _ _ rest H) as [op Hop].
  exists op, (Some (int_to_item n)). split; [exact Hop|].
  apply item_to_int_int_to_item.
Qed.

End TokenStream.

(** ** Text and floats: what is packed is what is unpacked *)

Section Leaves.

Import Bitcoinx Codecs.

Ltac euclid := Z.div_mod_to_equations; lia.

Ltac zcases :=
  repeat match goal with
  | |- context [?a =? ?b] => destruct (Z.eqb_spec a b); try (exfalso; euclid)
  | |- context [?a <? ?b] => destruct (Z.ltb_spec a b); try (exfalso; euclid)
  | |- context [?a <=? ?b] => destruct (Z.leb_spec a b); try (exfalso; euclid)
  end.

Ltac prove_bool := unfold between; zcases; reflexivity.

Ltac decide_head :=
  match goal with
  | |- (if ?c then _ else _) = _ =>
      first [ replace c with true by (symmetry; prove_bool)
            | replace c with false by (symmetry; prove_bool) ];
      cbv iota
  end.

Lemma decode_char_encode_char (c : Z) (b rest : bytes) :
  encode_char c = Ok b ->
  decode_char (b ++ rest) = Some (c, rest) /\ b <> [].
Proof.
  unfold encode_char. intros H.
  destruct (Z.ltb_spec c 0); [discriminate|].
  destruct (Z.ltb_spec 1114111 c); [discriminate|]. cbn [orb] in H.
  destruct (Z.ltb_spec c 128).
  { injection H as <-. split; [|discriminate]. cbn [app decode_char].
    rewrite byte_to_Z_small by lia. decide_head. reflexivity. }
  destruct (Z.ltb_spec c 2048).
  { injection H as <-. split; [|discriminate]. cbn [app decode_char].
    rewrite !byte_to_Z_small by euclid. repeat decide_head.
    do 2 f_equal. euclid. }
  destruct (Z.ltb_spec c 65536).
  { destruct (Z.leb_spec 55296 c); destruct (Z.leb_spec c 57343);
      cbn [andb] in H; try discriminate; try lia;
      (injection H as <-; split; [|discriminate]; cbn [app decode_char];
       rewrite !byte_to_Z_small by euclid; repeat decide_head;
       do 2 f_equal; euclid). }
  injection H as <-. split; [|discriminate]. cbn [app decode_char].
  rewrite !byte_to_Z_small by euclid. repeat decide_head.
  do 2 f_equal. euclid.
Qed.

Lemma decode_aux_encode (s : str) :
  forall (b : bytes) (fuel : nat),
    encode s = Ok b -> (length b <= fuel)%nat -> decode_aux fuel b = Ok s.
Proof.
  induction s as [|c s IH]; intros b fuel H Hfuel.
  - injection H as <-. destruct fuel; reflexivity.
  - cbn [encode] in H.
    destruct (encode_char c) as [bc|] eqn:Hc; [|discriminate].
    destruct (encode s) as [bs|] eqn:Hs; [|discriminate].
    cbn in H. injection H as <-.
    destruct (decode_char_encode_char c bc bs Hc) as [Hd Hne].
    rewrite length_app in Hfuel.
    destruct bc as [|x bc]; [congruence|].
    destruct fuel as [|fuel]; [simpl in Hfuel; lia|].
    cbn [decode_aux app]. cbn [app] in Hd. rewrite Hd.
    rewrite (IH bs fuel eq_refl) by (simpl in Hfuel; lia). reflexivity.
Qed.

(** Text that encodes decodes to itself. *)
Lemma decode_encode (s : str) (b : bytes) : encode s = Ok b -> decode b = Ok s.
Proof. intros H. apply decode_aux_encode; [exact H|lia]. Qed.

Lemma unpack_pack_d (bits : Z) :
  0 <= bits < 2 ^ 64 -> Struct.unpack_d (Struct.pack_d bits) = bits.
Proof.
  intros H. unfold Struct.unpack_d, Struct.pack_d.
  apply (le_bytes_to_int_pack_le 8). exact H.
Qed.

Lemma len_pack_d (bits : Z) : len (Struct.pack_d bits) = 8.
Proof. reflexivity. Qed.

Lemma len_pack_f (bits : Z) (b : bytes) : Struct.pack_f bits = Ok b -> len b = 4.
Proof.
  unfold Struct.pack_f. destruct (_ && _); [discriminate|].
  intros [= <-]. reflexivity.
Qed.

End Leaves.

(** ** Loops *)

Lemma for_range_raise {S : Type} (n : nat) (body : S -> result S) (s : S) (e : exn) :
  body s = Raise e -> for_range (Datatypes.S n) body s = Raise e.
Proof. intros H. simpl. rewrite H. reflexivity. Qed.

Lemma for_range_add {S : Type} (n m : nat) (body : S -> result S) (s : S) :
  for_range (n + m) body s = (s' ← for_range n body s; for_range m body s').
Proof.
  revert s. induction n as [|n IH]; intros s; simpl; [reflexivity|].
  destruct (body s) as [s'|e]; simpl; [apply IH|reflexivity].
Qed.

Lemma for_each_app {S A : Type} (l1 l2 : list A) (body : S -> A -> result S) (s : S) :
  for_each (l1 ++ l2) body s = (s' ← for_each l1 body s; for_each l2 body s').
Proof.
  revert s. induction l1 as [|x l1 IH]; intros s; simpl; [reflexivity|].
  destruct (body s x) as [s'|e]; simpl; [apply IH|reflexivity].
Qed.

(** ** Building a definition *)

(** C8 (as found in the code). [DataclassDefinition.__init__] collects the
    field ids in [encountered_identifiers] and never looks at the set: the
    structure [Twice], whose two fields share the id 1, gets a definition
    with both fields; nothing is raised. *)
Theorem C8_duplicate_field_id_accepted :
  exists d,
    DataclassDefinition_init (PyClass Examples.Twice) Examples.structure_metadata = Ok d
    /\ map (fun named_field => (fst named_field, identifier (snd named_field))) (_fields d)
       = [("First", 1); ("Second", 1)].
Proof. eexists. split; reflexivity. Qed.

(** ** The encoder, field by field *)

Lemma filter_app_bool {A : Type} (p : A -> bool) (l1 l2 : list A) :
  List.filter p (l1 ++ l2) = List.filter p l1 ++ List.filter p l2.
Proof. apply List.filter_app. Qed.

(** C9. A declared field for which the instance has no attribute is left
    out by the first loop of [_write_structure]: it is not among the
    surviving fields, and the whole call - the count it writes, the ids and
    values that follow, and whether it raises - is the call made over the
    declared fields without that one. *)
Theorem C9_field_without_attribute_omitted
    (depth : nat) (stream : bytes) (definition : DataclassDefinition)
    (object_value : value) (before after : list NamedFieldEntry)
    (named_field : NamedFieldEntry) :
  get_fields definition = before ++ named_field :: after ->
  hasattr object_value (fst named_field) = false ->
  field_survives object_value named_field = false
  /\ _write_structure (S depth) stream definition object_value =
       (let fields := List.filter (field_survives object_value) (before ++ after) in
        stream ← write stream (push_int (len fields));
        for_each fields
          (write_structure_step
             (fun stream => _write_field depth stream definition) object_value)
          stream).
Proof.
  intros Hfields Hattr.
  assert (Hs : field_survives object_value named_field = false).
  { destruct named_field as [field_name field_entry]. unfold field_survives.
    simpl in Hattr. rewrite Hattr. reflexivity. }
  split; [exact Hs|].
  cbn [_write_structure]. rewrite Hfields.
  rewrite !filter_app_bool. cbn [List.filter]. rewrite Hs. reflexivity.
Qed.

Lemma C9_field_without_attribute_omitted_witness :
  let definition := Examples.definition_of Examples.Pair in
  let object_value :=
    Examples.instance Examples.Pair [("StrField", VStr (Codecs.of_string "hi"))] in
  hasattr object_value "IntField" = false
  /\ _write_structure 4 [] definition object_value = Ok [x51; x52; x02; x68; x69].
Proof.
  split; [reflexivity|].
  pose proof (C9_field_without_attribute_omitted 3 []
                (Examples.definition_of Examples.Pair)
                (Examples.instance Examples.Pair [("StrField", VStr (Codecs.of_string "hi"))])
                []
                [("StrField",
                  {| identifier := 2;
                     type_metadata := {| field_type := STRING; is_class_reference := false;
                                         stores_pointers := false |} |})]
                ("IntField",
                  {| identifier := 1;
                     type_metadata := {| field_type := INTEGER; is_class_reference := false;
                                         stores_pointers := false |} |})
                eq_refl eq_refl) as [_ H].
  rewrite H. reflexivity.
Defined.

(** C10. For a class-reference field whose binding gives a field type
    other than Bytes or Object, [_write_type] raises [NotImplementedError]
    whatever the value; and [map_type_name_to_field_type], on which building
    a definition rests, takes the field type of any binding as it is. *)
Theorem C10_custom_scalar_without_encoder
    (depth : nat) (stream : bytes) (definition : DataclassDefinition)
    (field_identifier : Z) (field_type_metadata : FieldTypeMetadata)
    (field_value : value) :
  is_class_reference field_type_metadata = true ->
  field_type field_type_metadata <> BYTES ->
  field_type field_type_metadata <> OBJECT ->
  is_Ok (get_field_value definition field_identifier) = true ->
  _write_type (S depth) stream definition field_identifier field_type_metadata field_value
  = Raise (NotImplementedError "Needs encoder for class instance field, with type ")
  /\ (forall type_name class_references binding field,
        PyStr.endswith type_name " | None" = false ->
        is_primitive_name type_name = false ->
        PyStr.startswith type_name "list[" = false ->
        class_references !! type_name = Some binding ->
        map_type_name_to_field_type type_name class_references field
        = Ok {| field_type := ref_type binding; is_class_reference := true;
                stores_pointers := false |}).
Proof.
  intros Hclass Hbytes Hobject Hvalue. split.
  - cbn [_write_type]. unfold is_custom_scalar. rewrite Hclass.
    rewrite bool_decide_eq_false_2 by assumption. cbn [andb negb].
    destruct (get_field_value definition field_identifier) as [[dec enc]|e];
      [|discriminate].
    destruct (field_type field_type_metadata) eqn:E; try congruence; reflexivity.
  - intros type_name class_references binding field Hnone Hprim Hlist Hbinding.
    unfold map_type_name_to_field_type. rewrite Hnone.
    unfold is_primitive_name in Hprim.
    apply orb_false_iff in Hprim as [Hprim Hb].
    apply orb_false_iff in Hprim as [Hprim Hs].
    apply orb_false_iff in Hprim as [Hi Hf].
    rewrite Hi, Hf, Hlist, Hs, Hb, Hbinding. reflexivity.
Qed.

Lemma C10_custom_scalar_without_encoder_witness :
  let definition := Examples.definition_of Examples.Priced in
  let metadata := {| field_type := INTEGER; is_class_reference := true;
                     stores_pointers := false |} in
  get_fields definition = [("Price", {| identifier := 1; type_metadata := metadata |})]
  /\ _write_type 1 [] definition 1 metadata (VInt 7)
     = Raise (NotImplementedError "Needs encoder for class instance field, with type ").
Proof.
  split; [reflexivity|].
  refine (proj1 (C10_custom_scalar_without_encoder 0 []
                   (Examples.definition_of Examples.Priced) 1
                   {| field_type := INTEGER; is_class_reference := true;
                      stores_pointers := false |} (VInt 7) eq_refl _ _ eq_refl));
    discriminate.
Defined.

(** ** The decoder, token by token *)

Lemma get_field_entry_unknown (definition : DataclassDefinition) (field_identifier : Z) :
  (forall entry, In entry (get_field_entries definition) ->
                 identifier entry <> field_identifier) ->
  get_field_entry definition field_identifier
  = Raise (ValueError "Unexpected field identifier").
Proof.
  intros H. unfold get_field_entry.
  destruct (List.find _ _) as [entry|] eqn:E; [|reflexivity].
  apply List.find_some in E as [Hin Hid].
  apply Z.eqb_eq in Hid. exfalso. exact (H entry Hin Hid).
Qed.

(** C7. When the first [k] fields of a structure have been read and the
    next token carries a field id that no declared field has, [_read_field]
    raises at that token (the [ValueError] of [get_field_entry]); the error
    ends the loop of [_read_structure], so [loads] raises it and returns no
    instance.  Nothing is read past the id. *)
Theorem C7_unknown_field_id_is_fatal
    (depth : nat) (data : bytes) (definition : DataclassDefinition)
    (class_reference : pyobject)
    (opcode : Z) (value_bytes : option bytes) (generator : bytes)
    (k : nat) (kwargs : gmap string value) (generator_k : bytes)
    (opcode' : Z) (value_bytes' : option bytes) (generator' : bytes) :
  next data = Ok ((opcode, value_bytes), generator) ->
  (k < Z.to_nat (item_to_int value_bytes))%nat ->
  for_range k
    (read_structure_step
       (fun generator => _read_field (S depth) generator definition) definition)
    (∅, generator) = Ok (kwargs, generator_k) ->
  next generator_k = Ok ((opcode', value_bytes'), generator') ->
  (forall entry, In entry (get_field_entries definition) ->
                 identifier entry <> item_to_int value_bytes') ->
  _read_field (S depth) generator_k definition
  = Raise (ValueError "Unexpected field identifier")
  /\ loads (S (S depth)) data definition class_reference
     = Raise (ValueError "Unexpected field identifier").
Proof.
  intros Hcount Hk Hloop Hnext Hunknown.
  assert (Hfield : _read_field (S depth) generator_k definition
                   = Raise (ValueError "Unexpected field identifier")).
  { cbn [_read_field]. rewrite Hnext. cbn.
    rewrite get_field_entry_unknown by assumption. reflexivity. }
  split; [exact Hfield|].
  unfold loads. cbn [_read_structure]. rewrite Hcount. cbn [mbind result_bind].
  replace (Z.to_nat (item_to_int value_bytes))
    with (k + S (Z.to_nat (item_to_int value_bytes) - S k))%nat by lia.
  rewrite for_range_add, Hloop. cbn [mbind result_bind].
  rewrite for_range_raise with (e := ValueError "Unexpected field identifier");
    [reflexivity|].
  unfold read_structure_step. rewrite Hfield. reflexivity.
Qed.

(** The example of the specification: [count=1], then [fieldId=999]. *)
Lemma C7_unknown_field_id_is_fatal_witness :
  loads 2 [x51; x02; xe7; x03] (Examples.definition_of Examples.Pair)
    (PyClass Examples.Pair)
  = Raise (ValueError "Unexpected field identifier").
Proof.
  refine (proj2 (C7_unknown_field_id_is_fatal 0 [x51; x02; xe7; x03]
                   (Examples.definition_of Examples.Pair) (PyClass Examples.Pair)
                   81 (Some [x01]) [x02; xe7; x03] 0 ∅ [x02; xe7; x03]
                   2 (Some [xe7; x03]) [] eq_refl _ eq_refl eq_refl _)).
  - vm_compute. lia.
  - intros entry Hin. vm_compute in Hin.
    destruct Hin as [<-|[<-|[]]]; vm_compute; discriminate.
Defined.

(** C6. A Float32 field takes one token whose payload must have exactly 4
    bytes, a Float64 field one whose payload must have exactly 8; a missing
    payload or another length raises the [ValueError] that reports the
    invalid float length.  A payload of the right length is read as a
    little-endian IEEE-754 pattern: the binary64 pattern itself, or the
    binary32 pattern widened to the binary64 of a Python float. *)
Theorem C6_float_payload_length
    (depth : nat) (generator : bytes) (definition : DataclassDefinition)
    (field_entry : FieldEntry)
    (opcode : Z) (value_bytes : option bytes) (rest : bytes) :
  is_custom_scalar (type_metadata field_entry) = false ->
  next generator = Ok ((opcode, value_bytes), rest) ->
  (field_type (type_metadata field_entry) = FLOAT ->
     (forall b, value_bytes = Some b -> len b <> 4 ->
        _read_type (S depth) generator definition field_entry
        = Raise (ValueError "Invalid float length, expected 4 bytes"))
     /\ (value_bytes = None ->
        _read_type (S depth) generator definition field_entry
        = Raise (ValueError "Invalid float length, expected 4 bytes"))
     /\ (forall b, value_bytes = Some b -> len b = 4 ->
        _read_type (S depth) generator definition field_entry
        = Ok (VFloat (Struct.widen (le_bytes_to_int b)), rest)))
  /\ (field_type (type_metadata field_entry) = DOUBLE ->
     (forall b, value_bytes = Some b -> len b <> 8 ->
        _read_type (S depth) generator definition field_entry
        = Raise (ValueError "Invalid float length, expected 8 bytes"))
     /\ (value_bytes = None ->
        _read_type (S depth) generator definition field_entry
        = Raise (ValueError "Invalid float length, expected 8 bytes"))
     /\ (forall b, value_bytes = Some b -> len b = 8 ->
        _read_type (S depth) generator definition field_entry
        = Ok (VFloat (le_bytes_to_int b), rest))).
Proof.
  intros Hcustom Hnext.
  split; intros Htype; cbn [_read_type]; rewrite Hcustom, Htype, Hnext;
    cbn [mbind result_bind]; (split; [|split]).
  - intros b -> Hlen. destruct (Z.eqb_spec (len b) 4); [contradiction|reflexivity].
  - intros ->. reflexivity.
  - intros b -> Hlen. rewrite Hlen. reflexivity.
  - intros b -> Hlen. destruct (Z.eqb_spec (len b) 8); [contradiction|reflexivity].
  - intros ->. reflexivity.
  - intros b -> Hlen. rewrite Hlen. reflexivity.
Qed.

(** The boundary cases of the specification: a Float32 token of 3 bytes, a
    Float64 token of 9 bytes; and the four bytes of 1.0. *)
Lemma C6_float_payload_length_witness :
  let single := {| identifier := 1;
                   type_metadata := {| field_type := FLOAT; is_class_reference := false;
                                       stores_pointers := false |} |} in
  let double := {| identifier := 2;
                   type_metadata := {| field_type := DOUBLE; is_class_reference := false;
                                       stores_pointers := false |} |} in
  let definition := Examples.definition_of Examples.Floats in
  _read_type 1 [x03; x00; x80; x3f] definition single
  = Raise (ValueError "Invalid float length, expected 4 bytes")
  /\ _read_type 1 [x09; x00; x00; x00; x00; x00; x00; x00; xf0; x3f] definition double
     = Raise (ValueError "Invalid float length, expected 8 bytes")
  /\ _read_type 1 [x04; x00; x00; x80; x3f] definition single
     = Ok (VFloat 4607182418800017408, []).
Proof.
  set (single := {| identifier := 1;
                    type_metadata := {| field_type := FLOAT; is_class_reference := false;
                                        stores_pointers := false |} |}).
  set (double := {| identifier := 2;
                    type_metadata := {| field_type := DOUBLE; is_class_reference := false;
                                        stores_pointers := false |} |}).
  cbv zeta. split; [|split].
  - refine (proj1 (proj1 (C6_float_payload_length 0 [x03; x00; x80; x3f]
                            (Examples.definition_of Examples.Floats) single
                            3 (Some [x00; x80; x3f]) [] eq_refl eq_refl) eq_refl)
                  [x00; x80; x3f] eq_refl _).
    vm_compute. discriminate.
  - refine (proj1 (proj2 (C6_float_payload_length 0
                            [x09; x00; x00; x00; x00; x00; x00; x00; xf0; x3f]
                            (Examples.definition_of Examples.Floats) double
                            9 (Some [x00; x00; x00; x00; x00; x00; x00; xf0; x3f]) []
                            eq_refl eq_refl) eq_refl)
                  [x00; x00; x00; x00; x00; x00; x00; xf0; x3f] eq_refl _).
    vm_compute. discriminate.
  - exact (proj2 (proj2 (proj1 (C6_float_payload_length 0 [x04; x00; x00; x80; x3f]
                            (Examples.definition_of Examples.Floats) single
                            4 (Some [x00; x00; x80; x3f]) [] eq_refl eq_refl) eq_refl))
                  [x00; x00; x80; x3f] eq_refl eq_refl).
Defined.

(** ** Lists *)

Lemma read_list_step_length (read_item : bytes -> result (value * bytes))
    (item_field_entry : FieldEntry) (acc acc' : list value) (g g' : bytes) :
  read_list_step read_item item_field_entry (acc, g) = Ok (acc', g') ->
  length acc' = S (length acc).
Proof.
  unfold read_list_step.
  destruct (stores_pointers (type_metadata item_field_entry)).
  - destruct (next g) as [[[op vb] g1]|e]; [|discriminate]. cbn.
    destruct (op =? OP_0).
    + intros [= <- <-]. rewrite length_app. simpl. lia.
    + destruct (op =? OP_1); [|discriminate]. cbn.
      destruct (read_item g1) as [[item g2]|e]; [|discriminate]. cbn.
      intros [= <- <-]. rewrite length_app. simpl. lia.
  - destruct (read_item g) as [[item g2]|e]; [|discriminate]. cbn.
    intros [= <- <-]. rewrite length_app. simpl. lia.
Qed.

Lemma for_range_read_list_length (read_item : bytes -> result (value * bytes))
    (item_field_entry : FieldEntry) (n : nat) :
  forall (acc acc' : list value) (g g' : bytes),
    for_range n (read_list_step read_item item_field_entry) (acc, g) = Ok (acc', g') ->
    length acc' = (n + length acc)%nat.
Proof.
  induction n as [|n IH]; intros acc acc' g g' H.
  - injection H as <- <-. reflexivity.
  - cbn [for_range] in H.
    destruct (read_list_step read_item item_field_entry (acc, g)) as [[acc1 g1]|e] eqn:E;
      [|discriminate].
    cbn in H. apply IH in H. apply read_list_step_length in E. lia.
Qed.

(** C5. For a list field, [get_list_constraint] gives the declared
    [bsor_length] or nothing.  With a declared length [n] the decoder reads
    no count: the item loop starts on the very token the field value starts
    with and runs [n] times, so a decoded list has exactly [n] items; and
    the encoder writes the items and nothing before them.  Without a
    declared length the decoder takes the number of items from one leading
    integer token, which the encoder writes as the length of the list. *)
Theorem C5_list_length_static_or_counted
    (depth : nat) (definition : DataclassDefinition) (field_identifier : Z)
    (field_type_metadata : FieldTypeMetadata)
    (list_definition : DataclassDefinition) (item_field_entry : FieldEntry)
    (item_count : option Z) :
  is_custom_scalar field_type_metadata = false ->
  field_type field_type_metadata = LIST ->
  get_list_constraint definition field_identifier
  = Ok (list_definition, item_field_entry, item_count) ->
  let field_entry :=
    {| identifier := field_identifier; type_metadata := field_type_metadata |} in
  let read_step :=
    read_list_step
      (fun generator => _read_type depth generator list_definition item_field_entry)
      item_field_entry in
  let write_step :=
    write_list_step
      (fun stream => _write_type depth stream list_definition field_identifier
                       (type_metadata item_field_entry))
      item_field_entry in
  (forall n, item_count = Some n ->
     (forall generator,
        _read_type (S depth) generator definition field_entry
        = ('(items, generator) ← for_range (Z.to_nat n) read_step ([], generator);
           Ok (VList items, generator)))
     /\ (forall generator field_value rest,
           _read_type (S depth) generator definition field_entry = Ok (field_value, rest) ->
           exists items, field_value = VList items /\ length items = Z.to_nat n)
     /\ (forall stream items,
           _write_type (S depth) stream definition field_identifier
             field_type_metadata (VList items)
           = for_each items write_step stream))
  /\ (item_count = None ->
     (forall generator,
        _read_type (S depth) generator definition field_entry
        = ('((_, value_bytes), generator) ← next generator;
           '(items, generator) ←
             for_range (Z.to_nat (item_to_int value_bytes)) read_step ([], generator);
           Ok (VList items, generator)))
     /\ (forall stream items,
           _write_type (S depth) stream definition field_identifier
             field_type_metadata (VList items)
           = (stream ← write stream (push_int (len items));
              for_each items write_step stream))).
Proof.
  intros Hcustom Htype Hconstraint field_entry read_step write_step.
  assert (Hread : forall generator,
    _read_type (S depth) generator definition field_entry
    = ('(item_count, generator) ←
         match item_count with
         | None =>
             '((_, value_bytes), generator) ← next generator;
             Ok (item_to_int value_bytes, generator)
         | Some n => Ok (n, generator)
         end;
       '(items, generator) ← for_range (Z.to_nat item_count) read_step ([], generator);
       Ok (VList items, generator))).
  { intros generator. cbn [_read_type]. subst field_entry. cbn [type_metadata identifier].
    rewrite Hcustom, Htype, Hconstraint. reflexivity. }
  assert (Hwrite : forall stream items,
    _write_type (S depth) stream definition field_identifier
      field_type_metadata (VList items)
    = (stream ←
         match item_count with
         | None => write stream (push_int (len items))
         | Some _ => Ok stream
         end;
       for_each items write_step stream)).
  { intros stream items. cbn [_write_type]. rewrite Hcustom, Htype.
    cbn [mbind result_bind]. rewrite Hconstraint. cbn [mbind result_bind].
    destruct item_count; reflexivity. }
  split.
  - intros n ->. split; [|split].
    + intros generator. rewrite Hread. reflexivity.
    + intros generator field_value rest H. rewrite Hread in H. cbn in H.
      destruct (for_range (Z.to_nat n) read_step ([], generator))
        as [[items g]|e] eqn:E; [|discriminate].
      cbn in H. injection H as <- <-. exists items. split; [reflexivity|].
      apply for_range_read_list_length in E. simpl in E. lia.
    + intros stream items. rewrite Hwrite. reflexivity.
  - intros ->. split.
    + intros generator. rewrite Hread.
      destruct (next generator) as [[[op vb] g]|e]; reflexivity.
    + intros stream items. rewrite Hwrite. reflexivity.
Qed.

(** [FixedArrayPrimitiveField] (two integers, no count on the wire) and
    [ArrayPrimitiveField] (a count first). *)
Lemma C5_list_length_static_or_counted_witness :
  let definition := Examples.definition_of Examples.Lists in
  let metadata := {| field_type := LIST; is_class_reference := false;
                     stores_pointers := false |} in
  _write_type 2 [] definition 9 metadata (VList [VInt 1; VInt 200])
  = Ok [x51; x02; xc8; x00]
  /\ _read_type 2 [x51; x02; xc8; x00]
       definition {| identifier := 9; type_metadata := metadata |}
     = Ok (VList [VInt 1; VInt 200], [])
  /\ _write_type 2 [] definition 8 metadata (VList [VInt 1; VInt 200])
     = Ok [x52; x51; x02; xc8; x00]
  /\ _read_type 2 [x52; x51; x02; xc8; x00]
       definition {| identifier := 8; type_metadata := metadata |}
     = Ok (VList [VInt 1; VInt 200], []).
Proof.
  set (metadata := {| field_type := LIST; is_class_reference := false;
                      stores_pointers := false |}).
  set (item := {| identifier := 9;
                  type_metadata := {| field_type := INTEGER; is_class_reference := false;
                                      stores_pointers := false |} |}).
  set (item' := {| identifier := 8;
                   type_metadata := {| field_type := INTEGER; is_class_reference := false;
                                       stores_pointers := false |} |}).
  pose proof (C5_list_length_static_or_counted 1 (Examples.definition_of Examples.Lists)
                9 metadata (Examples.definition_of Examples.Lists) item (Some 2)
                eq_refl eq_refl eq_refl) as [Hfixed _].
  pose proof (C5_list_length_static_or_counted 1 (Examples.definition_of Examples.Lists)
                8 metadata (Examples.definition_of Examples.Lists) item' None
                eq_refl eq_refl eq_refl) as [_ Hcounted].
  destruct (Hfixed 2 eq_refl) as (Hr & _ & Hw).
  destruct (Hcounted eq_refl) as (Hr' & Hw').
  cbv zeta. split; [|split; [|split]].
  - rewrite Hw. reflexivity.
  - rewrite Hr. reflexivity.
  - rewrite Hw'. reflexivity.
  - rewrite Hr'. reflexivity.
Defined.

(** C4. In a list whose items are pointers every slot starts with a
    one-byte presence token.  Decoding: the token [OP_0] (the integer 0)
    gives a null slot and reads nothing more; [OP_1] (the integer 1) is
    followed by the item; any other token raises the [ValueError] about the
    entry prefix.  Encoding: a null item is the single byte 0, any other
    item the byte [OP_1] and then the item.  The list [[5, None, 7]] of
    [int | None] is written as its count 3 and the three slots in order,
    and is read back as [[5, None, 7]]. *)
Theorem C4_pointer_list_presence_token
    (read_item : bytes -> result (value * bytes))
    (write_item : bytes -> value -> result bytes)
    (item_field_entry : FieldEntry) :
  stores_pointers (type_metadata item_field_entry) = true ->
  (forall field_value generator opcode value_bytes rest,
     next generator = Ok ((opcode, value_bytes), rest) ->
     (opcode = OP_0 ->
        read_list_step read_item item_field_entry (field_value, generator)
        = Ok (field_value ++ [VNone], rest))
     /\ (opcode = OP_1 ->
        read_list_step read_item item_field_entry (field_value, generator)
        = ('(item, generator) ← read_item rest; Ok (field_value ++ [item], generator)))
     /\ (opcode <> OP_0 -> opcode <> OP_1 ->
        read_list_step read_item item_field_entry (field_value, generator)
        = Raise (ValueError "List of pointers contains a non-zero/non-one entry prefix")))
  /\ (forall stream,
        write_list_step write_item item_field_entry stream VNone = Ok (stream ++ [x00]))
  /\ (forall stream item_value,
        item_value <> VNone ->
        write_list_step write_item item_field_entry stream item_value
        = write_item (stream ++ [x51]) item_value)
  /\ (let x := Examples.instance Examples.IntPtrList
                 [("Items", VList [VInt 5; VNone; VInt 7])] in
      let data := [x51; x51; x53; x51; x55; x00; x51; x57] in
      dumps 4 x Examples.structure_metadata = Ok data
      /\ loads 4 data (Examples.definition_of Examples.IntPtrList)
           (PyClass Examples.IntPtrList) = Ok x).
Proof.
  intros Hptr. split; [|split; [|split]].
  - intros field_value generator opcode value_bytes rest Hnext.
    unfold read_list_step. rewrite Hptr, Hnext. cbn [mbind result_bind].
    split; [|split].
    + intros ->. reflexivity.
    + intros ->. reflexivity.
    + intros H0 H1. destruct (Z.eqb_spec opcode OP_0); [contradiction|].
      destruct (Z.eqb_spec opcode OP_1); [contradiction|]. reflexivity.
  - intros stream. unfold write_list_step. rewrite Hptr. reflexivity.
  - intros stream item_value Hv. unfold write_list_step. rewrite Hptr.
    destruct item_value; try contradiction; reflexivity.
  - split; reflexivity.
Qed.

Lemma C4_pointer_list_presence_token_witness :
  let item := {| identifier := 1;
                 type_metadata := {| field_type := INTEGER; is_class_reference := false;
                                     stores_pointers := true |} |} in
  let read_item generator :=
    _read_type 1 generator (Examples.definition_of Examples.IntPtrList) item in
  read_list_step read_item item ([VInt 5], [x00; x51; x57]) = Ok ([VInt 5; VNone], [x51; x57])
  /\ read_list_step read_item item ([VInt 5; VNone], [x51; x57])
     = Ok ([VInt 5; VNone; VInt 7], [])
  /\ read_list_step read_item item ([], [x52; x55])
     = Raise (ValueError "List of pointers contains a non-zero/non-one entry prefix").
Proof.
  set (item := {| identifier := 1;
                  type_metadata := {| field_type := INTEGER; is_class_reference := false;
                                      stores_pointers := true |} |}).
  cbv zeta.
  set (read_item := fun generator =>
         _read_type 1 generator (Examples.definition_of Examples.IntPtrList) item).
  pose proof (C4_pointer_list_presence_token read_item (fun stream _ => Ok stream) item
                eq_refl) as [Hread _].
  split; [|split].
  - exact (proj1 (Hread [VInt 5] [x00; x51; x57] 0 (Some []) [x51; x57] eq_refl) eq_refl).
  - rewrite (proj1 (proj2 (Hread [VInt 5; VNone] [x51; x57] 81 (Some [x01]) [x57] eq_refl))
               eq_refl).
    reflexivity.
  - refine (proj2 (proj2 (Hread [] [x52; x55] 82 (Some [x02]) [x55] eq_refl)) _ _);
      discriminate.
Defined.

(** ** Back-fill *)

Lemma backfill_lookup_Some (kwargs : gmap string value) (named_field : NamedFieldEntry)
    (n : string) (v : value) :
  kwargs !! n = Some v -> backfill kwargs named_field !! n = Some v.
Proof.
  intros H. destruct named_field as [field_name field]. unfold backfill.
  destruct (kwargs !! field_name) eqn:E; [exact H|].
  assert (field_name <> n) by congruence.
  destruct (stores_pointers (type_metadata field)).
  - rewrite lookup_insert_ne; assumption.
  - destruct (TYPE_DEFAULTS (field_type (type_metadata field))); [|exact H].
    rewrite lookup_insert_ne; assumption.
Qed.

Lemma fold_backfill_lookup_Some (fields : list NamedFieldEntry) :
  forall (kwargs : gmap string value) (n : string) (v : value),
    kwargs !! n = Some v -> fold_left backfill fields kwargs !! n = Some v.
Proof.
  induction fields as [|f fields IH]; intros kwargs n v H; [exact H|].
  simpl. apply IH, backfill_lookup_Some, H.
Qed.

Lemma backfill_lookup_other (kwargs : gmap string value) (named_field : NamedFieldEntry)
    (n : string) :
  fst named_field <> n -> backfill kwargs named_field !! n = kwargs !! n.
Proof.
  destruct named_field as [field_name field]. simpl. intros H. unfold backfill.
  destruct (kwargs !! field_name); [reflexivity|].
  destruct (stores_pointers (type_metadata field)).
  - apply lookup_insert_ne, H.
  - destruct (TYPE_DEFAULTS (field_type (type_metadata field))); [|reflexivity].
    apply lookup_insert_ne, H.
Qed.

Lemma fold_backfill_lookup_other (fields : list NamedFieldEntry) :
  forall (kwargs : gmap string value) (n : string),
    ~ In n (map fst fields) -> fold_left backfill fields kwargs !! n = kwargs !! n.
Proof.
  induction fields as [|f fields IH]; intros kwargs n H; [reflexivity|].
  simpl in *. rewrite IH by tauto. apply backfill_lookup_other. tauto.
Qed.

Lemma backfill_lookup_here (kwargs : gmap string value) (field_name : string)
    (field : FieldEntry) :
  kwargs !! field_name = None ->
  backfill kwargs (field_name, field) !! field_name
  = if stores_pointers (type_metadata field) then Some VNone
    else TYPE_DEFAULTS (field_type (type_metadata field)).
Proof.
  intros H. unfold backfill. rewrite H.
  destruct (stores_pointers (type_metadata field)).
  - apply lookup_insert_eq.
  - destruct (TYPE_DEFAULTS (field_type (type_metadata field))); [|exact H].
    apply lookup_insert_eq.
Qed.

(** ** Construction of the instance *)

Lemma init_attrs_assoc (fs : list dataclasses.Field) (kwargs : gmap string value) :
  forall attrs,
    init_attrs fs kwargs = Ok attrs ->
    forall n, In n (map dataclasses.name fs) -> assoc n attrs = kwargs !! n.
Proof.
  induction fs as [|f fs IH]; intros attrs H n Hin; [destruct Hin|].
  cbn [init_attrs] in H.
  destruct (kwargs !! dataclasses.name f) as [v|] eqn:E; [|discriminate].
  destruct (init_attrs fs kwargs) as [rest|] eqn:Er; [|discriminate].
  cbn in H. injection H as <-. cbn [assoc].
  destruct (String.eqb_spec n (dataclasses.name f)) as [->|Hne]; [symmetry; exact E|].
  apply (IH rest eq_refl). destruct Hin as [Heq|Hin]; [congruence|exact Hin].
Qed.

Lemma call_kwargs_getattr (callee : pyobject) (kwargs : gmap string value)
    (instance : value) :
  call_kwargs callee kwargs = Ok instance ->
  forall n v, kwargs !! n = Some v -> getattr instance n = Ok v.
Proof.
  unfold call_kwargs. intros H n v Hn.
  destruct callee as [c|f]; [|discriminate].
  destruct (__dataclass_fields__ c) as [fs|]; [|discriminate].
  destruct (forallb _ _) eqn:Hkeys; [|discriminate].
  destruct (init_attrs fs kwargs) as [attrs|] eqn:Ha; [|discriminate].
  cbn in H. injection H as <-. cbn [getattr].
  rewrite (init_attrs_assoc fs kwargs attrs Ha n), Hn; [reflexivity|].
  rewrite forallb_forall in Hkeys.
  assert (Hin : In n (map fst (map_to_list kwargs))).
  { apply in_map_iff. exists (n, v). split; [reflexivity|].
    apply list_elem_of_In, elem_of_map_to_list, Hn. }
  apply Hkeys in Hin. apply existsb_exists in Hin as (f & Hf & Heq).
  apply String.eqb_eq in Heq. subst n. apply in_map, Hf.
Qed.

(** C3. Once the first loop of [_read_structure] has read the fields that
    are on the wire into [kwargs], the call is the construction of the
    instance from the back-filled keyword arguments: a field met on the wire
    keeps the value read; a declared field not met is [None] when it is a
    pointer, and 0, the empty string or the empty bytes when it is a
    non-pointer Integer, String or Bytes field; and these are the attributes
    of the instance when the constructor accepts them. *)
Theorem C3_absent_fields_backfilled
    (depth : nat) (generator : bytes) (definition : DataclassDefinition)
    (class_reference : pyobject)
    (opcode : Z) (value_bytes : option bytes) (generator1 : bytes)
    (kwargs : gmap string value) (rest : bytes) :
  next generator = Ok ((opcode, value_bytes), generator1) ->
  for_range (Z.to_nat (item_to_int value_bytes))
    (read_structure_step
       (fun generator => _read_field depth generator definition) definition)
    (∅, generator1) = Ok (kwargs, rest) ->
  exists kwargs' : gmap string value,
    _read_structure (S depth) generator definition class_reference
    = (instance ← call_kwargs class_reference kwargs'; Ok (instance, rest))
    /\ (forall name v, kwargs !! name = Some v -> kwargs' !! name = Some v)
    /\ (forall before name field after,
          get_fields definition = before ++ (name, field) :: after ->
          ~ In name (map fst before) ->
          kwargs !! name = None ->
          (stores_pointers (type_metadata field) = true ->
             kwargs' !! name = Some VNone)
          /\ (stores_pointers (type_metadata field) = false ->
              (field_type (type_metadata field) = INTEGER ->
                 kwargs' !! name = Some (VInt 0))
              /\ (field_type (type_metadata field) = STRING ->
                 kwargs' !! name = Some (VStr []))
              /\ (field_type (type_metadata field) = BYTES ->
                 kwargs' !! name = Some (VBytes []))))
    /\ (forall instance name v,
          call_kwargs class_reference kwargs' = Ok instance ->
          kwargs' !! name = Some v -> getattr instance name = Ok v).
Proof.
  intros Hnext Hloop.
  exists (fold_left backfill (get_fields definition) kwargs).
  split; [|split; [|split]].
  - cbn [_read_structure]. rewrite Hnext. cbn [mbind result_bind].
    rewrite Hloop. reflexivity.
  - intros name v Hv. apply fold_backfill_lookup_Some, Hv.
  - intros before name field after Hfields Hbefore Habsent.
    assert (Hfilled :
      forall d,
        (if stores_pointers (type_metadata field) then Some VNone
         else TYPE_DEFAULTS (field_type (type_metadata field))) = Some d ->
        fold_left backfill (get_fields definition) kwargs !! name = Some d).
    { intros d Hd.
      rewrite Hfields, fold_left_app. cbn [fold_left].
      apply fold_backfill_lookup_Some.
      rewrite backfill_lookup_here, Hd; [reflexivity|].
      rewrite fold_backfill_lookup_other; assumption. }
    split.
    + intros Hptr. apply Hfilled. rewrite Hptr. reflexivity.
    + intros Hptr. split; [|split]; intros Htype; apply Hfilled;
        rewrite Hptr, Htype; reflexivity.
  - intros instance name v Hcall Hv. eapply call_kwargs_getattr; eassumption.
Qed.

(** The default-elision example: the stream [count=1, id=2, "hi"] decodes
    to [{IntField=0, StrField="hi"}]. *)
Lemma C3_absent_fields_backfilled_witness :
  let definition := Examples.definition_of Examples.Pair in
  let instance :=
    Examples.instance Examples.Pair
      [("IntField", VInt 0); ("StrField", VStr (Codecs.of_string "hi"))] in
  _read_structure 3 [x51; x52; x02; x68; x69] definition (PyClass Examples.Pair)
  = Ok (instance, [])
  /\ getattr instance "IntField" = Ok (VInt 0).
Proof.
  cbv zeta.
  destruct (C3_absent_fields_backfilled 2 [x51; x52; x02; x68; x69]
              (Examples.definition_of Examples.Pair) (PyClass Examples.Pair)
              81 (Some [x01]) [x52; x02; x68; x69]
              {[ "StrField" := VStr (Codecs.of_string "hi") ]} []
              eq_refl eq_refl)
    as (kwargs' & Hread & _ & Hfill & Hattr).
  assert (Hint : kwargs' !! "IntField" = Some (VInt 0)).
  { refine (proj1 (proj2 (Hfill []
              "IntField"
              {| identifier := 1;
                 type_metadata := {| field_type := INTEGER; is_class_reference := false;
                                     stores_pointers := false |} |}
              [("StrField",
                {| identifier := 2;
                   type_metadata := {| field_type := STRING; is_class_reference := false;
                                       stores_pointers := false |} |})]
              eq_refl _ eq_refl) eq_refl) eq_refl).
    intros []. }
  assert (Hvalue :
    _read_structure 3 [x51; x52; x02; x68; x69] (Examples.definition_of Examples.Pair)
      (PyClass Examples.Pair)
    = Ok (Examples.instance Examples.Pair
            [("IntField", VInt 0); ("StrField", VStr (Codecs.of_string "hi"))], []))
    by reflexivity.
  split; [exact Hvalue|].
  rewrite Hvalue in Hread.
  destruct (call_kwargs (PyClass Examples.Pair) kwargs') as [instance|] eqn:Hcall;
    [|discriminate Hread].
  injection Hread as <-. exact (Hattr _ "IntField" (VInt 0) eq_refl Hint).
Defined.

(** ** Elision *)

(** What the first loop of [_write_structure] does for a field the instance
    has: it drops the field exactly when its type has a zero default and
    either the field is a pointer holding [None], or it is not a pointer and
    holds a value equal to the default. *)
Lemma field_survives_false (object_value : value) (field_name : string)
    (field_entry : FieldEntry) (field_value : value) :
  getattr object_value field_name = Ok field_value ->
  field_survives object_value (field_name, field_entry) = false
  <-> exists d,
        TYPE_DEFAULTS (field_type (type_metadata field_entry)) = Some d
        /\ ((stores_pointers (type_metadata field_entry) = true /\ field_value = VNone)
            \/ (stores_pointers (type_metadata field_entry) = false
                /\ py_eq field_value d = true)).
Proof.
  intros Hattr. unfold field_survives, hasattr. rewrite Hattr. cbn [is_Ok negb].
  destruct (TYPE_DEFAULTS (field_type (type_metadata field_entry))) as [d|].
  - destruct (stores_pointers (type_metadata field_entry)).
    + split.
      * intros H. exists d. split; [reflexivity|]. left. split; [reflexivity|].
        destruct field_value; try discriminate; reflexivity.
      * intros (d' & _ & [[_ ->]|[? _]]); [reflexivity|discriminate].
    + split.
      * intros H. exists d. split; [reflexivity|]. right. split; [reflexivity|].
        apply negb_false_iff, H.
      * intros (d' & [= <-] & [[? _]|[_ H]]); [discriminate|].
        rewrite H. reflexivity.
  - split; [discriminate|]. intros (d & ? & _). discriminate.
Qed.

(** C2 (as found in the code). The test for a null pointer sits inside the
    test for a zero default, so a pointer field of a type without one is
    written even when it holds [None]: the null [SubStructPtr] of [WithPtr]
    survives the first loop and is written as id 4 followed by an empty
    structure, and the null [Ratio] of [FloatPtr] reaches [struct.pack],
    which refuses it. *)
Theorem C2_null_pointer_without_default_written :
  let x := Examples.instance Examples.WithPtr [("SubStructPtr", VNone)] in
  let y := Examples.instance Examples.FloatPtr [("Ratio", VNone)] in
  get_fields (Examples.definition_of Examples.WithPtr)
  = [("SubStructPtr",
      {| identifier := 4;
         type_metadata := {| field_type := OBJECT; is_class_reference := true;
                             stores_pointers := true |} |})]
  /\ List.filter (field_survives x) (get_fields (Examples.definition_of Examples.WithPtr))
     = get_fields (Examples.definition_of Examples.WithPtr)
  /\ dumps 6 x Examples.structure_metadata = Ok [x51; x54; x00]
  /\ dumps 6 y Examples.structure_metadata = Raise StructError.
Proof. cbv zeta. repeat split. Qed.

(** ** Equality of values *)

Section value_induction.

Variable P : value -> Prop.
Hypothesis HNone : P VNone.
Hypothesis HInt : forall n, P (VInt n).
Hypothesis HFloat : forall bits, P (VFloat bits).
Hypothesis HStr : forall s, P (VStr s).
Hypothesis HBytes : forall b, P (VBytes b).
Hypothesis HList : forall items, Forall P items -> P (VList items).
Hypothesis HObject :
  forall cls attrs, Forall (fun kv => P (snd kv)) attrs -> P (VObject cls attrs).

Lemma value_induction (v : value) : P v.
Proof using HNone HInt HFloat HStr HBytes HList HObject.
  revert v. fix IH 1. intros [| n | bits | s | b | items | cls attrs].
  - exact HNone.
  - apply HInt.
  - apply HFloat.
  - apply HStr.
  - apply HBytes.
  - apply HList. induction items as [|x r IHr]; constructor; [apply IH|exact IHr].
  - apply HObject. induction attrs as [|kv r IHr]; constructor; [apply IH|exact IHr].
Qed.

End value_induction.

Lemma value_eqb_eq (a b : value) : value_eqb a b = true -> a = b.
Proof.
  revert b. induction a as [| n | bits | s | x | items IH | cls attrs IH]
    using value_induction; intros b H; destruct b; try discriminate H; cbn in H.
  - reflexivity.
  - apply Z.eqb_eq in H. congruence.
  - apply Z.eqb_eq in H. congruence.
  - apply bool_decide_eq_true in H. congruence.
  - apply bool_decide_eq_true in H. congruence.
  - f_equal. revert items0 H. induction IH as [|v r Hv _ IHr]; intros [|w t] H;
      try discriminate H; [reflexivity|].
    apply andb_true_iff in H as [H1 H2]. f_equal; [apply Hv, H1|apply IHr, H2].
  - apply andb_true_iff in H as [Hc H]. apply bool_decide_eq_true in Hc. subst cls0.
    f_equal. revert attrs0 H.
    induction IH as [|[k v] r Hv _ IHr]; intros [|[k' w] t] H;
      try discriminate H; [reflexivity|].
    apply andb_true_iff in H as [H1 H3]. apply andb_true_iff in H1 as [H1 H2].
    apply String.eqb_eq in H1. subst k'.
    f_equal; [f_equal; apply Hv, H2|apply IHr, H3].
Qed.

(** ** Lookups in a definition *)

Lemma to_nat_len {A : Type} (l : list A) : Z.to_nat (len l) = length l.
Proof. unfold len. apply Nat2Z.id. Qed.

Lemma find_by_identifier (fields : list NamedFieldEntry) (named_field : NamedFieldEntry) :
  NoDup (map (fun nf => identifier (snd nf)) fields) ->
  In named_field fields ->
  List.find (fun nf => identifier (snd nf) =? identifier (snd named_field)) fields
  = Some named_field.
Proof.
  induction fields as [|f fields IH]; intros Hnd Hin; [destruct Hin|].
  cbn [map] in Hnd. apply NoDup_cons in Hnd as [Hnotin Hnd]. cbn [List.find].
  destruct Hin as [->|Hin].
  - rewrite Z.eqb_refl. reflexivity.
  - destruct (Z.eqb_spec (identifier (snd f)) (identifier (snd named_field))) as [E|_].
    + exfalso. apply Hnotin. rewrite E. apply list_elem_of_In.
      apply (in_map (fun nf => identifier (snd nf))), Hin.
    + apply IH; assumption.
Qed.

Lemma get_field_found (definition : DataclassDefinition) (named_field : NamedFieldEntry) :
  NoDup (map (fun nf => identifier (snd nf)) (get_fields definition)) ->
  In named_field (get_fields definition) ->
  get_field definition (identifier (snd named_field)) = Ok named_field.
Proof.
  intros Hnd Hin. unfold get_field. unfold get_fields in *.
  rewrite (find_by_identifier _ named_field Hnd Hin). reflexivity.
Qed.

Lemma find_map_snd (fields : list NamedFieldEntry) (p : FieldEntry -> bool) :
  List.find p (map snd fields) = snd <$> List.find (fun nf => p (snd nf)) fields.
Proof.
  induction fields as [|f fields IH]; [reflexivity|].
  cbn [map List.find]. destruct (p (snd f)); [reflexivity|exact IH].
Qed.

Lemma get_field_entry_found (definition : DataclassDefinition)
    (named_field : NamedFieldEntry) :
  NoDup (map (fun nf => identifier (snd nf)) (get_fields definition)) ->
  In named_field (get_fields definition) ->
  get_field_entry definition (identifier (snd named_field)) = Ok (snd named_field).
Proof.
  intros Hnd Hin. unfold get_field_entry, get_field_entries. unfold get_fields in *.
  rewrite find_map_snd.
  rewrite (find_by_identifier _ named_field Hnd Hin). reflexivity.
Qed.

Lemma get_list_constraint_entry (definition list_definition : DataclassDefinition)
    (field_identifier : Z) (item_field_entry : FieldEntry) (item_count : option Z) :
  get_list_constraint definition field_identifier
  = Ok (list_definition, item_field_entry, item_count) ->
  item_field_entry
  = {| identifier := field_identifier; type_metadata := type_metadata item_field_entry |}.
Proof.
  unfold get_list_constraint.
  destruct (List.find _ _) as [[n e]|]; [|discriminate].
  destruct (dataclass_field definition n) as [f|]; [|discriminate]. cbn.
  destruct (map_type_name_to_field_type _ _ _) as [m|]; [|discriminate]. cbn.
  intros [= _ <- _]. reflexivity.
Qed.

(** ** The round trip, level by level *)

Lemma write_Ok (stream b : bytes) : write stream (Ok b) = Ok (stream ++ b).
Proof. reflexivity. Qed.

Lemma pushed_then_read (item : bytes) :
  pushable item = true ->
  exists b, push_item item = Ok b
            /\ forall rest, exists op, next (b ++ rest) = Ok ((op, Some item), rest).
Proof.
  intros H. destruct (push_item_pushable item H) as [b Hb].
  exists b. split; [exact Hb|]. intros rest. exact (next_push_item item b rest Hb).
Qed.

Lemma pushed_int_then_read (n : Z) :
  pushable (int_to_item n) = true ->
  exists b, push_int n = Ok b
            /\ forall rest, exists op item,
                 next (b ++ rest) = Ok ((op, item), rest) /\ item_to_int item = n.
Proof.
  intros H. destruct (push_item_pushable _ H) as [b Hb].
  exists b. split; [exact Hb|]. intros rest. exact (next_push_int n b rest Hb).
Qed.

Lemma next_OP_0 (rest : bytes) : next (x00 :: rest) = Ok ((OP_0, Some []), rest).
Proof.
  cbn -[take_exact].
  change (take_exact 0 rest) with (take_exact (len (@nil byte)) ([] ++ rest)).
  rewrite take_exact_app. reflexivity.
Qed.

Lemma next_OP_1 (rest : bytes) : next (x51 :: rest) = Ok ((OP_1, Some [x01]), rest).
Proof. reflexivity. Qed.

Section ListLoop.

Variable write_item : bytes -> value -> result bytes.
Variable read_item : bytes -> result (value * bytes).
Variable item_field_entry : FieldEntry.
Variable ok : value -> bool.

Hypothesis item_roundtrip :
  forall item stream rest,
    ok item = true ->
    exists data,
      write_item stream item = Ok (stream ++ data)
      /\ read_item (data ++ rest) = Ok (item, rest).

Lemma write_list_step_None (stream : bytes) :
  stores_pointers (type_metadata item_field_entry) = true ->
  write_list_step write_item item_field_entry stream VNone = Ok (stream ++ [x00]).
Proof. intros H. unfold write_list_step. rewrite H. reflexivity. Qed.

Lemma write_list_step_pointer (stream : bytes) (item : value) :
  stores_pointers (type_metadata item_field_entry) = true ->
  is_None item = false ->
  write_list_step write_item item_field_entry stream item
  = write_item (stream ++ [x51]) item.
Proof. intros H Hn. unfold write_list_step. rewrite H, Hn. reflexivity. Qed.

Lemma write_list_step_plain (stream : bytes) (item : value) :
  stores_pointers (type_metadata item_field_entry) = false ->
  write_list_step write_item item_field_entry stream item = write_item stream item.
Proof. intros H. unfold write_list_step. rewrite H. reflexivity. Qed.

Lemma read_list_step_None (acc : list value) (generator : bytes) :
  stores_pointers (type_metadata item_field_entry) = true ->
  read_list_step read_item item_field_entry (acc, x00 :: generator)
  = Ok (acc ++ [VNone], generator).
Proof. intros H. unfold read_list_step. rewrite H, next_OP_0. reflexivity. Qed.

Lemma read_list_step_pointer (acc : list value) (generator : bytes) :
  stores_pointers (type_metadata item_field_entry) = true ->
  read_list_step read_item item_field_entry (acc, x51 :: generator)
  = ('(item, generator) ← read_item generator; Ok (acc ++ [item], generator)).
Proof. intros H. unfold read_list_step. rewrite H, next_OP_1. reflexivity. Qed.

Lemma read_list_step_plain (acc : list value) (generator : bytes) :
  stores_pointers (type_metadata item_field_entry) = false ->
  read_list_step read_item item_field_entry (acc, generator)
  = ('(item, generator) ← read_item generator; Ok (acc ++ [item], generator)).
Proof. intros H. unfold read_list_step. rewrite H. reflexivity. Qed.

Lemma item_roundtrip_data (item : value) (stream : bytes) :
  ok item = true ->
  exists data,
    write_item stream item = Ok (stream ++ data)
    /\ forall rest, read_item (data ++ rest) = Ok (item, rest).
Proof using item_roundtrip.
  intros Hok. destruct (item_roundtrip item stream [] Hok) as (d & Hw & _).
  exists d. split; [exact Hw|]. intros rest.
  destruct (item_roundtrip item stream rest Hok) as (d' & Hw' & Hr').
  rewrite Hw in Hw'. injection Hw' as E. apply app_inv_head in E. subst d'. exact Hr'.
Qed.

Lemma list_loop_roundtrip (items : list value) :
  forall (acc : list value) (stream rest : bytes),
    forallb (fun item =>
               (stores_pointers (type_metadata item_field_entry) && is_None item)
               || ok item) items = true ->
    exists data,
      for_each items (write_list_step write_item item_field_entry) stream
      = Ok (stream ++ data)
      /\ for_range (length items) (read_list_step read_item item_field_entry)
           (acc, data ++ rest) = Ok (acc ++ items, rest).
Proof using item_roundtrip.
  induction items as [|item items IH]; intros acc stream rest Hall.
  - exists []. rewrite !app_nil_r. split; reflexivity.
  - cbn [forallb] in Hall. apply andb_true_iff in Hall as [Hitem Hall].
    cbn [for_each length for_range].
    destruct (stores_pointers (type_metadata item_field_entry)) eqn:Hptr.
    + destruct (is_None item) eqn:Hnone.
      * destruct item; try discriminate Hnone.
        destruct (IH (acc ++ [VNone]) (stream ++ [x00]) rest Hall) as (data & Hw & Hr).
        exists ([x00] ++ data). split.
        -- rewrite write_list_step_None by assumption. cbn [mbind result_bind].
           rewrite Hw, <- app_assoc. reflexivity.
        -- cbn [app]. rewrite read_list_step_None by assumption.
           cbn [mbind result_bind]. rewrite Hr, <- app_assoc. reflexivity.
      * cbn [andb orb] in Hitem.
        destruct (item_roundtrip_data item (stream ++ [x51]) Hitem) as (d & Hwi & Hri).
        destruct (IH (acc ++ [item]) ((stream ++ [x51]) ++ d) rest Hall)
          as (data & Hw & Hr).
        exists ([x51] ++ d ++ data). split.
        -- rewrite write_list_step_pointer by assumption. rewrite Hwi.
           cbn [mbind result_bind]. rewrite Hw, <- !app_assoc. reflexivity.
        -- cbn [app]. rewrite read_list_step_pointer by assumption.
           rewrite <- app_assoc, Hri. cbn [mbind result_bind].
           rewrite Hr, <- app_assoc. reflexivity.
    + cbn [andb orb] in Hitem.
      destruct (item_roundtrip_data item stream Hitem) as (d & Hwi & Hri).
      destruct (IH (acc ++ [item]) (stream ++ d) rest Hall) as (data & Hw & Hr).
      exists (d ++ data). split.
      * rewrite write_list_step_plain by assumption. rewrite Hwi.
        cbn [mbind result_bind]. rewrite Hw, <- !app_assoc. reflexivity.
      * rewrite read_list_step_plain by assumption.
        rewrite <- app_assoc, Hri. cbn [mbind result_bind].
        rewrite Hr, <- app_assoc. reflexivity.
Qed.

End ListLoop.

Section TypeLevel.

Variable depth : nat.

Hypothesis type_roundtrip :
  forall definition field_identifier m v stream rest,
    canonical_type depth definition field_identifier m v = true ->
    exists data,
      _write_type depth stream definition field_identifier m v = Ok (stream ++ data)
      /\ _read_type depth (data ++ rest) definition
           {| identifier := field_identifier; type_metadata := m |} = Ok (v, rest).

Hypothesis structure_roundtrip :
  forall definition cls x stream rest,
    canonical_structure depth definition cls x = true ->
    exists data,
      _write_structure depth stream definition x = Ok (stream ++ data)
      /\ _read_structure depth (data ++ rest) definition (PyClass cls) = Ok (x, rest).

Lemma type_roundtrip_step
    (definition : DataclassDefinition) (field_identifier : Z) (m : FieldTypeMetadata)
    (v : value) (stream rest : bytes) :
  canonical_type (S depth) definition field_identifier m v = true ->
  exists data,
    _write_type (S depth) stream definition field_identifier m v = Ok (stream ++ data)
    /\ _read_type (S depth) (data ++ rest) definition
         {| identifier := field_identifier; type_metadata := m |} = Ok (v, rest).
Proof using type_roundtrip structure_roundtrip.
  intros Hc. cbn [canonical_type] in Hc.
  cbn [_write_type _read_type type_metadata identifier].
  destruct (is_custom_scalar m) eqn:Hcustom.
  - (* a custom scalar carried as bytes *)
    destruct (field_type m) eqn:Htype; try discriminate Hc.
    destruct (get_field_value definition field_identifier)
      as [[decode_callable [factory|]]|] eqn:Hvalue; try discriminate Hc.
    cbn [mbind result_bind].
    destruct (factory v) as [encoder|] eqn:Hfactory; [|discriminate Hc].
    destruct (encoder tt) as [[| | | | b | |]|] eqn:Hencoder; try discriminate Hc.
    apply andb_true_iff in Hc as [Hpush Hdecode].
    apply andb_true_iff in Hpush as [Hpush _].
    destruct (call1 decode_callable (VBytes b)) as [v'|] eqn:Hcall; [|discriminate].
    apply value_eqb_eq in Hdecode. subst v'.
    destruct (pushed_then_read b Hpush) as (data & Hdata & Hnext).
    destruct (Hnext rest) as [op Hop].
    exists data. cbn [mbind result_bind]. rewrite Hencoder.
    cbn [mbind result_bind push_item_value].
    rewrite Hdata, Hop. cbn [mbind result_bind bytes_or_none]. rewrite Hcall.
    split; reflexivity.
  - cbn [mbind result_bind].
    destruct (field_type m) eqn:Htype.
    + (* INTEGER *)
      destruct v as [| n | | | | |]; try discriminate Hc.
      destruct (pushed_int_then_read n Hc) as (data & Hdata & Hnext).
      destruct (Hnext rest) as (op & item & Hop & Hitem).
      exists data. cbn [push_int_value]. rewrite Hdata, Hop. cbn [mbind result_bind].
      rewrite Hitem. split; reflexivity.
    + (* FLOAT *)
      destruct v as [| | bits | | | |]; try discriminate Hc.
      apply andb_true_iff in Hc as [_ Hc].
      destruct (Struct.pack_f bits) as [b|] eqn:Hpack; [|discriminate Hc].
      apply Z.eqb_eq in Hc.
      pose proof (len_pack_f bits b Hpack) as Hlen.
      assert (Hpush : pushable b = true) by (unfold pushable; rewrite Hlen; reflexivity).
      destruct (pushed_then_read b Hpush) as (data & Hdata & Hnext).
      destruct (Hnext rest) as [op Hop].
      exists data. cbn [float_arg mbind result_bind]. rewrite Hpack.
      cbn [mbind result_bind]. rewrite Hdata, Hop. cbn [mbind result_bind].
      rewrite Hlen, Hc. split; reflexivity.
    + (* DOUBLE *)
      destruct v as [| | bits | | | |]; try discriminate Hc.
      apply andb_true_iff in Hc as [Hlo Hhi].
      apply andb_true_iff in Hlo as [_ Hlo].
      apply Z.leb_le in Hlo. apply Z.ltb_lt in Hhi.
      assert (Hpush : pushable (Struct.pack_d bits) = true) by reflexivity.
      destruct (pushed_then_read _ Hpush) as (data & Hdata & Hnext).
      destruct (Hnext rest) as [op Hop].
      exists data. cbn [float_arg mbind result_bind]. rewrite Hdata, Hop.
      cbn [mbind result_bind]. rewrite len_pack_d, unpack_pack_d by lia.
      split; reflexivity.
    + (* LIST *)
      destruct v as [| | | | | items |]; try discriminate Hc.
      destruct (get_list_constraint definition field_identifier)
        as [[[list_definition item_field_entry] item_count]|] eqn:Hconstraint;
        [|discriminate Hc].
      apply andb_true_iff in Hc as [Hcount Hitems].
      cbn [mbind result_bind py_len py_iter].
      pose proof (get_list_constraint_entry _ _ _ _ _ Hconstraint) as Hentry.
      assert (Hloop : forall acc stream rest,
        exists data,
          for_each items
            (write_list_step
               (fun stream =>
                  _write_type depth stream list_definition field_identifier
                    (type_metadata item_field_entry)) item_field_entry) stream
          = Ok (stream ++ data)
          /\ for_range (length items)
               (read_list_step
                  (fun generator =>
                     _read_type depth generator list_definition item_field_entry)
                  item_field_entry) (acc, data ++ rest) = Ok (acc ++ items, rest)).
      { intros acc stream' rest'.
        apply list_loop_roundtrip
          with (ok := canonical_type depth list_definition field_identifier
                        (type_metadata item_field_entry)); [|exact Hitems].
        intros item s r Hok.
        destruct (type_roundtrip list_definition field_identifier
                    (type_metadata item_field_entry) item s r Hok) as (data & Hw & Hr).
        exists data. split; [exact Hw|]. rewrite Hentry. exact Hr. }
      destruct item_count as [n|].
      * apply Z.eqb_eq in Hcount. subst n.
        destruct (Hloop [] stream rest) as (data & Hw & Hr).
        exists data. cbn [mbind result_bind]. rewrite to_nat_len, Hw, Hr.
        split; reflexivity.
      * destruct (pushed_int_then_read _ Hcount) as (cdata & Hcdata & Hnext).
        destruct (Hloop [] (stream ++ cdata) rest) as (data & Hw & Hr).
        destruct (Hnext (data ++ rest)) as (op & item & Hop & Hitem).
        exists (cdata ++ data). rewrite Hcdata, write_Ok. cbn [mbind result_bind].
        rewrite Hw, <- !app_assoc, Hop. cbn [mbind result_bind].
        rewrite Hitem, to_nat_len, Hr. split; reflexivity.
    + (* STRING *)
      destruct v as [| | | s | | |]; try discriminate Hc.
      destruct (Codecs.encode s) as [b|] eqn:Hencode; [|discriminate Hc].
      destruct (pushed_then_read b Hc) as (data & Hdata & Hnext).
      destruct (Hnext rest) as [op Hop].
      exists data. cbn [str_encode mbind result_bind]. rewrite Hencode.
      cbn [mbind result_bind]. rewrite Hdata, Hop. cbn [mbind result_bind].
      rewrite (decode_encode s b Hencode). split; reflexivity.
    + (* BYTES *)
      destruct v as [| | | | b | |]; try discriminate Hc.
      destruct (pushed_then_read b Hc) as (data & Hdata & Hnext).
      destruct (Hnext rest) as [op Hop].
      exists data. cbn [push_item_value]. rewrite Hdata, Hop.
      split; reflexivity.
    + (* OBJECT *)
      destruct (get_definition definition field_identifier) as [next_definition|]
        eqn:Hdefinition; [|discriminate Hc].
      destruct (get_field_value definition field_identifier)
        as [[[sub|] [|]]|] eqn:Hvalue; try discriminate Hc.
      cbn [mbind result_bind].
      destruct (structure_roundtrip next_definition sub v stream rest Hc)
        as (data & Hw & Hr).
      exists data. split; assumption.
Qed.

End TypeLevel.

Section FieldLevel.

Variable depth : nat.

Hypothesis type_roundtrip :
  forall definition field_identifier m v stream rest,
    canonical_type depth definition field_identifier m v = true ->
    exists data,
      _write_type depth stream definition field_identifier m v = Ok (stream ++ data)
      /\ _read_type depth (data ++ rest) definition
           {| identifier := field_identifier; type_metadata := m |} = Ok (v, rest).

Lemma field_roundtrip_step
    (definition : DataclassDefinition) (named_field : NamedFieldEntry)
    (v : value) (stream rest : bytes) :
  NoDup (map (fun nf => identifier (snd nf)) (get_fields definition)) ->
  In named_field (get_fields definition) ->
  canonical_field (S depth) definition (snd named_field) v = true ->
  exists data,
    _write_field (S depth) stream definition (identifier (snd named_field))
      (type_metadata (snd named_field)) v = Ok (stream ++ data)
    /\ _read_field (S depth) (data ++ rest) definition
       = Ok ((identifier (snd named_field), v), rest).
Proof using type_roundtrip.
  intros Hnd Hin Hc. cbn [canonical_field] in Hc.
  apply andb_true_iff in Hc as [Hid Hc].
  destruct (pushed_int_then_read _ Hid) as (idata & Hidata & Hnext).
  destruct (type_roundtrip _ _ _ _ (stream ++ idata) rest Hc) as (data & Hw & Hr).
  destruct (Hnext (data ++ rest)) as (op & item & Hop & Hitem).
  exists (idata ++ data). cbn [_write_field _read_field].
  rewrite Hidata, write_Ok. cbn [mbind result_bind].
  rewrite Hw, <- !app_assoc, Hop. cbn [mbind result_bind].
  rewrite Hitem, (get_field_entry_found definition named_field Hnd Hin).
  cbn [mbind result_bind].
  destruct named_field as [field_name [id m]]. cbn [snd identifier type_metadata] in *.
  rewrite Hr. split; reflexivity.
Qed.

End FieldLevel.

(** ** The keyword arguments of the constructor *)

Lemma assoc_In (attrs : list (string * value)) (k : string) (v : value) :
  NoDup (map fst attrs) -> In (k, v) attrs -> assoc k attrs = Some v.
Proof.
  induction attrs as [|[k' v'] attrs IH]; intros Hnd Hin; [destruct Hin|].
  cbn [map fst] in Hnd. apply NoDup_cons in Hnd as [Hnotin Hnd]. cbn [assoc].
  destruct Hin as [[= -> ->]|Hin].
  - rewrite String.eqb_refl. reflexivity.
  - destruct (String.eqb_spec k k') as [->|_]; [|apply IH; assumption].
    exfalso. apply Hnotin, list_elem_of_In. apply (in_map fst) in Hin. exact Hin.
Qed.

Lemma assoc_Some_In (attrs : list (string * value)) (k : string) (v : value) :
  assoc k attrs = Some v -> In (k, v) attrs.
Proof.
  induction attrs as [|[k' v'] attrs IH]; [discriminate|]. cbn [assoc].
  destruct (String.eqb_spec k k') as [->|_].
  - intros [= ->]. left. reflexivity.
  - intros H. right. apply IH, H.
Qed.

Lemma init_attrs_exact (kwargs : gmap string value) (fs : list dataclasses.Field) :
  forall attrs,
    map fst attrs = map dataclasses.name fs ->
    (forall k v, In (k, v) attrs -> kwargs !! k = Some v) ->
    init_attrs fs kwargs = Ok attrs.
Proof.
  induction fs as [|f fs IH]; intros [|[k v] attrs] Hnames Hall;
    try discriminate Hnames; [reflexivity|].
  cbn [map fst] in Hnames. injection Hnames as Hk Hnames. subst k.
  cbn [init_attrs]. rewrite (Hall (dataclasses.name f) v) by (left; reflexivity).
  rewrite (IH attrs Hnames) by (intros k' v' H; apply Hall; right; exact H).
  reflexivity.
Qed.

Lemma NoDup_fst_inj {A B : Type} (l : list (A * B)) (a b : A * B) :
  NoDup (map fst l) -> In a l -> In b l -> fst a = fst b -> a = b.
Proof.
  induction l as [|x l IH]; intros Hnd Ha Hb Heq; [destruct Ha|].
  cbn [map] in Hnd. apply NoDup_cons in Hnd as [Hnotin Hnd].
  destruct Ha as [->|Ha], Hb as [->|Hb].
  - reflexivity.
  - exfalso. apply Hnotin, list_elem_of_In. rewrite Heq. apply in_map, Hb.
  - exfalso. apply Hnotin, list_elem_of_In. rewrite <- Heq. apply in_map, Ha.
  - apply IH; assumption.
Qed.

Lemma wire_kwargs_lookup_other (x : value) (fields : list NamedFieldEntry) :
  forall (kwargs : gmap string value) (n : string),
    ~ In n (map fst fields) -> wire_kwargs x fields kwargs !! n = kwargs !! n.
Proof.
  unfold wire_kwargs.
  induction fields as [|f fields IH]; intros kwargs n H; [reflexivity|].
  cbn [fold_left]. cbn [map In] in H. rewrite IH by tauto.
  destruct (getattr x (fst f)); [|reflexivity].
  apply lookup_insert_ne. tauto.
Qed.

Lemma wire_kwargs_lookup_in (x : value) (fields : list NamedFieldEntry) :
  forall (kwargs : gmap string value) (n : string) (v : value),
    In n (map fst fields) -> getattr x n = Ok v ->
    wire_kwargs x fields kwargs !! n = Some v.
Proof.
  unfold wire_kwargs.
  induction fields as [|f fields IH]; intros kwargs n v Hin Hv; [destruct Hin|].
  cbn [fold_left].
  destruct (in_dec string_dec n (map fst fields)) as [Hlater|Hnot].
  - apply IH; assumption.
  - fold (wire_kwargs x fields
            (match getattr x (fst f) with
             | Ok v0 => <[fst f := v0]> kwargs
             | Raise _ => kwargs
             end)).
    rewrite wire_kwargs_lookup_other by assumption.
    destruct Hin as [Heq|Hin]; [|contradiction].
    rewrite Heq, Hv. subst n. apply lookup_insert_eq.
Qed.

Lemma wire_kwargs_keys (x : value) (fields : list NamedFieldEntry)
    (kwargs : gmap string value) (n : string) :
  is_Some (wire_kwargs x fields kwargs !! n) ->
  In n (map fst fields) \/ is_Some (kwargs !! n).
Proof.
  intros H. destruct (in_dec string_dec n (map fst fields)) as [Hin|Hnot];
    [left; exact Hin|right].
  rewrite wire_kwargs_lookup_other in H; assumption.
Qed.

Lemma fold_backfill_keys (fields : list NamedFieldEntry)
    (kwargs : gmap string value) (n : string) :
  is_Some (fold_left backfill fields kwargs !! n) ->
  In n (map fst fields) \/ is_Some (kwargs !! n).
Proof.
  intros H. destruct (in_dec string_dec n (map fst fields)) as [Hin|Hnot];
    [left; exact Hin|right].
  rewrite fold_backfill_lookup_other in H; assumption.
Qed.

Lemma exists_data_uniform (w : result bytes) (stream : bytes)
    (P : bytes -> bytes -> Prop) :
  (forall rest, exists data, w = Ok (stream ++ data) /\ P data rest) ->
  exists data, w = Ok (stream ++ data) /\ forall rest, P data rest.
Proof.
  intros H. destruct (H []) as (d & Hw & _). exists d. split; [exact Hw|].
  intros rest. destruct (H rest) as (d' & Hw' & Hp).
  rewrite Hw in Hw'. injection Hw' as E. apply app_inv_head in E. subst d'. exact Hp.
Qed.

Lemma write_structure_step_present
    (write_field : bytes -> Z -> FieldTypeMetadata -> value -> result bytes)
    (x : value) (stream : bytes) (named_field : NamedFieldEntry) (v : value) :
  getattr x (fst named_field) = Ok v ->
  write_structure_step write_field x stream named_field
  = write_field stream (identifier (snd named_field))
      (type_metadata (snd named_field)) v.
Proof.
  intros H. destruct named_field as [field_name field_entry]. cbn [fst snd] in *.
  unfold write_structure_step, hasattr. rewrite H. reflexivity.
Qed.

Lemma read_structure_step_found
    (read_field : bytes -> result ((Z * value) * bytes))
    (definition : DataclassDefinition) (kwargs : gmap string value)
    (generator rest : bytes) (named_field : NamedFieldEntry) (v : value) :
  read_field generator = Ok ((identifier (snd named_field), v), rest) ->
  get_field definition (identifier (snd named_field)) = Ok named_field ->
  read_structure_step read_field definition (kwargs, generator)
  = Ok (<[fst named_field := v]> kwargs, rest).
Proof.
  intros Hr Hf. unfold read_structure_step. rewrite Hr. cbn [mbind result_bind].
  rewrite Hf. destruct named_field. reflexivity.
Qed.

Section StructureLevel.

Variable depth : nat.

Hypothesis field_roundtrip :
  forall definition named_field v stream rest,
    NoDup (map (fun nf => identifier (snd nf)) (get_fields definition)) ->
    In named_field (get_fields definition) ->
    canonical_field depth definition (snd named_field) v = true ->
    exists data,
      _write_field depth stream definition (identifier (snd named_field))
        (type_metadata (snd named_field)) v = Ok (stream ++ data)
      /\ _read_field depth (data ++ rest) definition
         = Ok ((identifier (snd named_field), v), rest).

Lemma field_loop_roundtrip (definition : DataclassDefinition) (x : value) :
  NoDup (map (fun nf => identifier (snd nf)) (get_fields definition)) ->
  forall fields,
    (forall nf, In nf fields ->
       In nf (get_fields definition)
       /\ exists v, getattr x (fst nf) = Ok v
                    /\ canonical_field depth definition (snd nf) v = true) ->
    forall (kwargs : gmap string value) (stream rest : bytes),
      exists data,
        for_each fields
          (write_structure_step (fun stream => _write_field depth stream definition) x)
          stream = Ok (stream ++ data)
        /\ for_range (length fields)
             (read_structure_step
                (fun generator => _read_field depth generator definition) definition)
             (kwargs, data ++ rest) = Ok (wire_kwargs x fields kwargs, rest).
Proof using field_roundtrip.
  intros Hnd fields. induction fields as [|nf fields IH]; intros Hall kwargs stream rest.
  - exists []. rewrite !app_nil_r. split; reflexivity.
  - destruct (Hall nf (or_introl eq_refl)) as (Hin & v & Hv & Hc).
    destruct (exists_data_uniform _ stream _
                (fun r => field_roundtrip definition nf v stream r Hnd Hin Hc))
      as (d & Hw & Hr).
    assert (Hall' : forall nf', In nf' fields ->
              In nf' (get_fields definition)
              /\ exists v, getattr x (fst nf') = Ok v
                           /\ canonical_field depth definition (snd nf') v = true)
      by (intros nf' H; apply Hall; right; exact H).
    destruct (IH Hall' (<[fst nf := v]> kwargs) (stream ++ d) rest) as (data & Hws & Hrs).
    exists (d ++ data). cbn [for_each length for_range]. split.
    + rewrite (write_structure_step_present _ x stream nf v Hv), Hw.
      cbn [mbind result_bind]. rewrite Hws, <- app_assoc. reflexivity.
    + rewrite <- app_assoc.
      rewrite (read_structure_step_found _ definition kwargs _ (data ++ rest) nf v
                 (Hr (data ++ rest)) (get_field_found definition nf Hnd Hin)).
      cbn [mbind result_bind]. rewrite Hrs.
      unfold wire_kwargs. cbn [fold_left]. rewrite Hv. reflexivity.
Qed.

Lemma structure_roundtrip_step
    (definition : DataclassDefinition) (cls : pyclass) (x : value)
    (stream rest : bytes) :
  canonical_structure (S depth) definition cls x = true ->
  exists data,
    _write_structure (S depth) stream definition x = Ok (stream ++ data)
    /\ _read_structure (S depth) (data ++ rest) definition (PyClass cls) = Ok (x, rest).
Proof using field_roundtrip.
  intros Hc. cbn [canonical_structure] in Hc.
  destruct x as [| | | | | |c attrs]; try discriminate Hc.
  destruct (__dataclass_fields__ cls) as [fs|] eqn:Hfs; [|discriminate Hc].
  apply andb_true_iff in Hc as [Hc Hall].
  apply andb_true_iff in Hc as [Hc Hpush].
  apply andb_true_iff in Hc as [Hc Hnd_ids].
  apply andb_true_iff in Hc as [Hc Hnd_names].
  apply andb_true_iff in Hc as [Hc Hfields].
  apply andb_true_iff in Hc as [Hclass Hattrs].
  apply bool_decide_eq_true in Hclass, Hattrs, Hfields, Hnd_names, Hnd_ids.
  subst c.
  set (x := VObject cls attrs) in *.
  set (fields := get_fields definition) in *.
  set (surviving := List.filter (field_survives x) fields) in *.
  rewrite forallb_forall in Hall.
  (* the fields that go on the wire *)
  assert (Hsurv : forall nf, In nf surviving ->
            In nf fields
            /\ exists v, getattr x (fst nf) = Ok v
                         /\ canonical_field depth definition (snd nf) v = true).
  { intros nf Hin. apply List.filter_In in Hin as [Hin Hs]. split; [exact Hin|].
    specialize (Hall nf Hin). destruct (getattr x (fst nf)) as [v|]; [|discriminate].
    rewrite Hs in Hall. exists v. split; [reflexivity|exact Hall]. }
  destruct (pushed_int_then_read _ Hpush) as (cdata & Hcdata & Hnext).
  destruct (field_loop_roundtrip definition x Hnd_ids surviving Hsurv ∅
              (stream ++ cdata) rest) as (data & Hw & Hr).
  destruct (Hnext (data ++ rest)) as (op & item & Hop & Hitem).
  exists (cdata ++ data). cbn [_write_structure _read_structure].
  fold fields. fold surviving. rewrite Hcdata, write_Ok. cbn [mbind result_bind].
  split; [rewrite Hw, <- app_assoc; reflexivity|].
  rewrite <- app_assoc, Hop. cbn [mbind result_bind].
  rewrite Hitem, to_nat_len, Hr. cbn [mbind result_bind].
  set (kwargs := wire_kwargs x surviving ∅).
  set (kwargs' := fold_left backfill fields kwargs).
  (* every declared field ends up with the value the instance holds *)
  assert (Hvalues : forall nf v, In nf fields -> getattr x (fst nf) = Ok v ->
            kwargs' !! fst nf = Some v).
  { intros nf v Hin Hv. specialize (Hall nf Hin). rewrite Hv in Hall.
    destruct (field_survives x nf) eqn:Hs.
    - apply fold_backfill_lookup_Some. apply wire_kwargs_lookup_in; [|exact Hv].
      apply in_map. apply List.filter_In. split; assumption.
    - destruct (backfilled (type_metadata (snd nf))) as [d|] eqn:Hd; [|discriminate].
      apply value_eqb_eq in Hall. subst d.
      assert (Habsent : kwargs !! fst nf = None).
      { subst kwargs. rewrite wire_kwargs_lookup_other; [apply lookup_empty|].
        intros Hin'. apply in_map_iff in Hin' as (nf' & Heq & Hin').
        apply List.filter_In in Hin' as [Hin' Hs'].
        assert (nf' = nf)
          by (apply (NoDup_fst_inj fields); [rewrite Hfields| | |]; assumption).
        subst nf'. congruence. }
      destruct (in_split _ _ Hin) as (before & after & Hsplit).
      subst kwargs'. rewrite Hsplit, fold_left_app. cbn [fold_left].
      apply fold_backfill_lookup_Some.
      destruct nf as [field_name field_entry]. cbn [fst snd] in *.
      rewrite backfill_lookup_here; [exact Hd|].
      rewrite fold_backfill_lookup_other; [exact Habsent|].
      intros Hb. assert (Hnd : NoDup (map fst fields)) by (rewrite Hfields; assumption).
      rewrite Hsplit, map_app in Hnd. cbn [map fst] in Hnd.
      apply NoDup_app in Hnd as (_ & Hdisj & _).
      apply (Hdisj field_name); [apply list_elem_of_In, Hb|].
      apply list_elem_of_In. left. reflexivity. }
  (* and there is no other keyword *)
  assert (Hkeys : forall n, is_Some (kwargs' !! n) -> In n (map dataclasses.name fs)).
  { intros n Hn. rewrite <- Hfields.
    apply fold_backfill_keys in Hn as [Hn|Hn]; [exact Hn|].
    apply wire_kwargs_keys in Hn as [Hn|Hn].
    - apply in_map_iff in Hn as (nf & Heq & Hin).
      apply List.filter_In in Hin as [Hin _]. subst n. apply in_map, Hin.
    - rewrite lookup_empty in Hn. destruct Hn as [? Hn]. discriminate Hn. }
  unfold call_kwargs. rewrite Hfs.
  assert (Hcheck :
    forallb (fun k => existsb (fun f => String.eqb k (dataclasses.name f)) fs)
      (map fst (map_to_list kwargs')) = true).
  { apply forallb_forall. intros k Hk.
    apply in_map_iff in Hk as ([k' v] & Heq & Hk). cbn [fst] in Heq. subst k'.
    apply list_elem_of_In, elem_of_map_to_list in Hk.
    assert (Hin : In k (map dataclasses.name fs)) by (apply Hkeys; eauto).
    apply in_map_iff in Hin as (f & Hf & Hin).
    apply existsb_exists. exists f. split; [exact Hin|].
    subst k. apply String.eqb_refl. }
  rewrite Hcheck.
  rewrite (init_attrs_exact kwargs' fs attrs Hattrs); [reflexivity|].
  intros k v Hin.
  assert (Hk : In k (map fst fields))
    by (rewrite Hfields, <- Hattrs; apply (in_map fst) in Hin; exact Hin).
  apply in_map_iff in Hk as (nf & Heq & Hnf). subst k.
  apply (Hvalues nf v Hnf). subst x. cbn [getattr].
  rewrite (assoc_In attrs (fst nf) v); [reflexivity| |exact Hin].
  rewrite Hattrs. exact Hnd_names.
Qed.

End StructureLevel.

(** ** The round trip *)

Lemma roundtrip_at_depth (depth : nat) :
  (forall definition field_identifier m v stream rest,
     canonical_type depth definition field_identifier m v = true ->
     exists data,
       _write_type depth stream definition field_identifier m v = Ok (stream ++ data)
       /\ _read_type depth (data ++ rest) definition
            {| identifier := field_identifier; type_metadata := m |} = Ok (v, rest))
  /\ (forall definition named_field v stream rest,
        NoDup (map (fun nf => identifier (snd nf)) (get_fields definition)) ->
        In named_field (get_fields definition) ->
        canonical_field depth definition (snd named_field) v = true ->
        exists data,
          _write_field depth stream definition (identifier (snd named_field))
            (type_metadata (snd named_field)) v = Ok (stream ++ data)
          /\ _read_field depth (data ++ rest) definition
             = Ok ((identifier (snd named_field), v), rest))
  /\ (forall definition cls x stream rest,
        canonical_structure depth definition cls x = true ->
        exists data,
          _write_structure depth stream definition x = Ok (stream ++ data)
          /\ _read_structure depth (data ++ rest) definition (PyClass cls)
             = Ok (x, rest)).
Proof.
  induction depth as [|depth (IHtype & IHfield & IHstructure)].
  - split; [|split]; intros; discriminate.
  - split; [|split]; intros.
    + apply type_roundtrip_step; assumption.
    + apply field_roundtrip_step; assumption.
    + apply structure_roundtrip_step; assumption.
Qed.

(** A canonical instance is equal to itself in the sense of [==]. *)

Lemma py_eq_list_refl (items : list value) :
  Forall (fun v => py_eq v v = true) items -> py_eq (VList items) (VList items) = true.
Proof.
  intros H. cbn [py_eq]. induction H as [|v r Hv _ IH]; [reflexivity|].
  rewrite Hv. exact IH.
Qed.

Lemma py_eq_object_refl (cls : pyclass) (attrs : list (string * value)) :
  Forall (fun kv => py_eq (snd kv) (snd kv) = true) attrs ->
  py_eq (VObject cls attrs) (VObject cls attrs) = true.
Proof.
  intros H. cbn [py_eq]. rewrite String.eqb_refl. cbn [andb].
  induction H as [|[k v] r Hv _ IH]; [reflexivity|].
  cbn [snd] in Hv. rewrite String.eqb_refl, Hv. exact IH.
Qed.

Lemma backfilled_py_eq (m : FieldTypeMetadata) (d : value) :
  backfilled m = Some d -> py_eq d d = true.
Proof.
  unfold backfilled. destruct (stores_pointers m); [intros [= <-]; reflexivity|].
  destruct (field_type m); intros [= <-]; reflexivity.
Qed.

Lemma canonical_py_eq (depth : nat) :
  (forall definition field_identifier m v,
     canonical_type depth definition field_identifier m v = true -> py_eq v v = true)
  /\ (forall definition field_entry v,
        canonical_field depth definition field_entry v = true -> py_eq v v = true)
  /\ (forall definition cls x,
        canonical_structure depth definition cls x = true -> py_eq x x = true).
Proof.
  induction depth as [|depth (IHtype & IHfield & IHstructure)];
    [split; [|split]; intros; discriminate|].
  assert (Htype : forall definition field_identifier m v,
            canonical_type (S depth) definition field_identifier m v = true ->
            py_eq v v = true).
  { intros definition field_identifier m v Hc. cbn [canonical_type] in Hc.
    destruct (is_custom_scalar m).
    - destruct (field_type m); try discriminate Hc.
      destruct (get_field_value definition field_identifier)
        as [[decode_callable [factory|]]|]; try discriminate Hc.
      destruct (factory v) as [encoder|]; [|discriminate Hc].
      destruct (encoder tt) as [[| | | | b | |]|]; try discriminate Hc.
      apply andb_true_iff in Hc as [Hc _]. apply andb_true_iff in Hc as [_ Hc].
      exact Hc.
    - destruct (field_type m).
      + destruct v; try discriminate Hc. cbn. apply Z.eqb_refl.
      + destruct v; try discriminate Hc. apply andb_true_iff in Hc as [Hnan _].
        cbn [py_eq]. unfold float_eq. rewrite Hnan, Z.eqb_refl. reflexivity.
      + destruct v; try discriminate Hc. apply andb_true_iff in Hc as [Hc _].
        apply andb_true_iff in Hc as [Hnan _].
        cbn [py_eq]. unfold float_eq. rewrite Hnan, Z.eqb_refl. reflexivity.
      + destruct v as [| | | | | items |]; try discriminate Hc.
        destruct (get_list_constraint definition field_identifier)
          as [[[list_definition item_field_entry] item_count]|]; [|discriminate Hc].
        apply andb_true_iff in Hc as [_ Hitems].
        apply py_eq_list_refl. apply List.Forall_forall. intros item Hin.
        rewrite forallb_forall in Hitems. specialize (Hitems item Hin).
        apply orb_true_iff in Hitems as [Hnone|Hitem].
        * apply andb_true_iff in Hnone as [_ Hnone].
          destruct item; try discriminate Hnone; reflexivity.
        * eapply IHtype, Hitem.
      + destruct v; try discriminate Hc. cbn. apply bool_decide_eq_true. reflexivity.
      + destruct v; try discriminate Hc. cbn. apply bool_decide_eq_true. reflexivity.
      + destruct (get_definition definition field_identifier) as [next_definition|];
          [|discriminate Hc].
        destruct (get_field_value definition field_identifier)
          as [[[sub|] [|]]|]; try discriminate Hc.
        eapply IHstructure, Hc. }
  split; [exact Htype|]. split.
  { intros definition field_entry v Hc. cbn [canonical_field] in Hc.
    apply andb_true_iff in Hc as [_ Hc]. eapply IHtype, Hc. }
  intros definition cls x Hc. cbn [canonical_structure] in Hc.
  destruct x as [| | | | | |c attrs]; try discriminate Hc.
  destruct (__dataclass_fields__ cls) as [fs|]; [|discriminate Hc].
  apply andb_true_iff in Hc as [Hc Hall].
  apply andb_true_iff in Hc as [Hc _].
  apply andb_true_iff in Hc as [Hc _].
  apply andb_true_iff in Hc as [Hc Hnd_names].
  apply andb_true_iff in Hc as [Hc Hfields].
  apply andb_true_iff in Hc as [_ Hattrs].
  apply bool_decide_eq_true in Hattrs, Hfields, Hnd_names.
  rewrite forallb_forall in Hall.
  apply py_eq_object_refl. apply List.Forall_forall. intros [k v] Hin. cbn [snd].
  assert (Hk : In k (map fst (get_fields definition)))
    by (rewrite Hfields, <- Hattrs; apply (in_map fst) in Hin; exact Hin).
  apply in_map_iff in Hk as (nf & Heq & Hnf). subst k.
  specialize (Hall nf Hnf). cbn [getattr] in Hall.
  rewrite (assoc_In attrs (fst nf) v) in Hall;
    [|rewrite Hattrs; exact Hnd_names|exact Hin].
  destruct (field_survives _ nf).
  - eapply IHfield, Hall.
  - destruct (backfilled (type_metadata (snd nf))) as [d|] eqn:Hd; [|discriminate].
    apply value_eqb_eq in Hall. subst d. eapply backfilled_py_eq, Hd.
Qed.

(** A larger recursion limit keeps an instance canonical. *)
Lemma canonical_monotone (depth : nat) :
  (forall definition field_identifier m v,
     canonical_type depth definition field_identifier m v = true ->
     canonical_type (S depth) definition field_identifier m v = true)
  /\ (forall definition field_entry v,
        canonical_field depth definition field_entry v = true ->
        canonical_field (S depth) definition field_entry v = true)
  /\ (forall definition cls x,
        canonical_structure depth definition cls x = true ->
        canonical_structure (S depth) definition cls x = true).
Proof.
  induction depth as [|depth (IHtype & IHfield & IHstructure)];
    [split; [|split]; intros; discriminate|].
  remember (S depth) as n eqn:Hn in IHtype, IHfield, IHstructure |- *.
  split; [|split].
  - intros definition field_identifier m v Hc.
    rewrite Hn in Hc. cbn [canonical_type] in Hc. cbn [canonical_type].
    destruct (is_custom_scalar m); [exact Hc|].
    destruct (field_type m); try exact Hc.
    + destruct v as [| | | | | items |]; try discriminate Hc.
      destruct (get_list_constraint definition field_identifier)
        as [[[list_definition item_field_entry] item_count]|]; [|discriminate Hc].
      apply andb_true_iff in Hc as [Hcount Hitems].
      rewrite Hcount. cbn [andb].
      rewrite forallb_forall in Hitems. apply forallb_forall. intros item Hin.
      specialize (Hitems item Hin). cbv beta in Hitems |- *.
      apply orb_true_iff in Hitems as [Hnone|Hitem].
      * rewrite Hnone. reflexivity.
      * rewrite (IHtype _ _ _ _ Hitem). apply orb_true_r.
    + destruct (get_definition definition field_identifier) as [next_definition|];
        [|discriminate Hc].
      destruct (get_field_value definition field_identifier)
        as [[[sub|] [|]]|]; try discriminate Hc.
      apply IHstructure, Hc.
  - intros definition field_entry v Hc.
    rewrite Hn in Hc. cbn [canonical_field] in Hc. cbn [canonical_field].
    apply andb_true_iff in Hc as [Hid Hc].
    rewrite Hid. cbn [andb]. apply IHtype, Hc.
  - intros definition cls x Hc.
    rewrite Hn in Hc. cbn [canonical_structure] in Hc. cbn [canonical_structure].
    destruct x as [| | | | | |c attrs]; try discriminate Hc.
    destruct (__dataclass_fields__ cls) as [fs|]; [|discriminate Hc].
    apply andb_true_iff in Hc as [Hc Hall]. rewrite Hc. cbn [andb].
    rewrite forallb_forall in Hall. apply forallb_forall. intros nf Hin.
    specialize (Hall nf Hin). cbv beta in Hall |- *.
    destruct (getattr (VObject c attrs) (fst nf)) as [v|]; [|discriminate Hall].
    destruct (field_survives (VObject c attrs) nf); [|exact Hall].
    apply IHfield, Hall.
Qed.

(** C1 (amended). For every structure type with a built definition and
    every canonical instance [x] of it - an instance of that class, with
    every field holding a value of its declared type that the wire can
    carry, pointer fields of a type without zero default not null, fixed
    lists of the declared length, no NaN, within the recursion limit -
    [dumps] returns bytes, [loads] of these bytes returns [x] itself, and
    [x] is equal to it in the sense of [==]. *)
Theorem C1_canonical_round_trip
    (recursion_limit : nat) (structure_metadata : gmap string class_reference)
    (cls : pyclass) (definition : DataclassDefinition) (x : value) :
  DataclassDefinition_init (PyClass cls) structure_metadata = Ok definition ->
  canonical_structure recursion_limit definition cls x = true ->
  exists data y,
    dumps recursion_limit x structure_metadata = Ok data
    /\ loads recursion_limit data definition (PyClass cls) = Ok y
    /\ y = x
    /\ py_eq y x = true.
Proof.
  intros Hdefinition Hc.
  destruct (roundtrip_at_depth recursion_limit) as (_ & _ & Hstructure).
  destruct (Hstructure definition cls x [] [] Hc) as (data & Hw & Hr).
  exists data, x.
  assert (Hclass : class_of x = cls).
  { destruct recursion_limit; [discriminate Hc|]. cbn [canonical_structure] in Hc.
    destruct x; try discriminate Hc.
    destruct (__dataclass_fields__ cls); [|discriminate Hc].
    repeat (apply andb_true_iff in Hc as [Hc _]).
    apply bool_decide_eq_true in Hc. exact Hc. }
  split; [|split; [|split]].
  - unfold dumps, dump. rewrite Hclass, Hdefinition. cbn [mbind result_bind].
    exact Hw.
  - unfold loads. rewrite app_nil_r in Hr. rewrite Hr. reflexivity.
  - reflexivity.
  - destruct (canonical_py_eq recursion_limit) as (_ & _ & Heq).
    eapply Heq, Hc.
Qed.

Lemma C1_canonical_round_trip_witness :
  canonical_structure 12 (Examples.definition_of Examples.Sample) Examples.Sample
    Examples.sample = true
  /\ exists data y,
       dumps 12 Examples.sample Examples.structure_metadata = Ok data
       /\ loads 12 data (Examples.definition_of Examples.Sample)
            (PyClass Examples.Sample) = Ok y
       /\ y = Examples.sample
       /\ py_eq y Examples.sample = true.
Proof.
  split; [vm_compute; reflexivity|].
  apply (C1_canonical_round_trip 12 Examples.structure_metadata Examples.Sample
           (Examples.definition_of Examples.Sample) Examples.sample).
  - vm_compute. reflexivity.
  - vm_compute. reflexivity.
Defined.

(** C1 (as stated) fails.  A Python float is a double: the Float32 field
    [Single] holding 0.1 is written as the nearest binary32 number and comes
    back as that number, which is not equal to 0.1.  And the instance that
    [loads] itself returns for the empty structure [count=0] of [WithPtr],
    whose [SubStructPtr] is [None], is written with that field as an empty
    structure and comes back holding a [XTestSubStruct] of defaults. *)
Lemma C1_round_trip_counterexample :
  (let x := Examples.instance Examples.Floats
              [("Single", VFloat 4591870180066957722); ("Double", VFloat 0)] in
   let y := Examples.instance Examples.Floats
              [("Single", VFloat 4591870180174331904); ("Double", VFloat 0)] in
   DataclassDefinition_init (PyClass Examples.Floats) Examples.structure_metadata
   = Ok (Examples.definition_of Examples.Floats)
   /\ dumps 6 x Examples.structure_metadata
      = Ok [x52; x51; x04; xcd; xcc; xcc; x3d; x52; x08; x00; x00; x00; x00; x00;
            x00; x00; x00]
   /\ loads 6 [x52; x51; x04; xcd; xcc; xcc; x3d; x52; x08; x00; x00; x00; x00; x00;
               x00; x00; x00]
        (Examples.definition_of Examples.Floats) (PyClass Examples.Floats) = Ok y
   /\ py_eq y x = false)
  /\ (let x := Examples.instance Examples.WithPtr [("SubStructPtr", VNone)] in
      let y := Examples.instance Examples.WithPtr
                 [("SubStructPtr", Examples.sub_struct 0 "")] in
      DataclassDefinition_init (PyClass Examples.WithPtr) Examples.structure_metadata
      = Ok (Examples.definition_of Examples.WithPtr)
      /\ loads 6 [x00] (Examples.definition_of Examples.WithPtr)
           (PyClass Examples.WithPtr) = Ok x
      /\ dumps 6 x Examples.structure_metadata = Ok [x51; x54; x00]
      /\ loads 6 [x51; x54; x00] (Examples.definition_of Examples.WithPtr)
           (PyClass Examples.WithPtr) = Ok y
      /\ py_eq y x = false).
Proof. cbv zeta. repeat split. Qed.

(** * Further properties of the module *)

(** ** What a built definition holds *)

(** The relation between a declared field and its entry in [_fields]. *)
Lemma init_fields_entries (class_references : gmap string class_reference)
    (todo : list dataclasses.Field) :
  forall encountered acc encountered' fields,
    init_fields class_references todo encountered acc = Ok (encountered', fields) ->
    exists new,
      fields = acc ++ new
      /\ Forall2
           (fun f named_field =>
              fst named_field = dataclasses.name f
              /\ dataclasses.bsor_id (dataclasses.metadata f)
                 = Some (identifier (snd named_field))
              /\ map_type_name_to_field_type (dataclasses.type f) class_references
                   (Some f) = Ok (type_metadata (snd named_field)))
           todo new.
Proof.
  induction todo as [|f todo IH]; intros encountered acc encountered' fields H.
  - injection H as _ <-. exists []. rewrite app_nil_r. split; [reflexivity|constructor].
  - cbn [init_fields] in H.
    destruct (dataclasses.bsor_id (dataclasses.metadata f)) as [field_id|] eqn:Hid;
      [|discriminate H].
    destruct (map_type_name_to_field_type _ _ _) as [m|] eqn:Hm; [|discriminate H].
    cbn [mbind result_bind] in H.
    apply IH in H as (new & -> & Hall).
    eexists (_ :: new). rewrite <- app_assoc. split; [reflexivity|].
    constructor; [|exact Hall]. cbn. auto.
Qed.

(** X1. A definition that [DataclassDefinition.__init__] builds keeps the
    class and the binding table it was given and has exactly one entry per
    declared field, in declaration order: the entry carries the name of the
    field, its [bsor_id] as identifier, and the metadata that
    [map_type_name_to_field_type] gives for its type. *)
Theorem X1_definition_mirrors_fields
    (dataclass_object : pyobject) (class_references : gmap string class_reference)
    (definition : DataclassDefinition) :
  DataclassDefinition_init dataclass_object class_references = Ok definition ->
  _dataclass_object definition = dataclass_object
  /\ _class_references definition = class_references
  /\ exists fs,
       dataclasses_fields dataclass_object = Ok fs
       /\ map fst (get_fields definition) = map dataclasses.name fs
       /\ Forall2
            (fun f named_field =>
               fst named_field = dataclasses.name f
               /\ dataclasses.bsor_id (dataclasses.metadata f)
                  = Some (identifier (snd named_field))
               /\ map_type_name_to_field_type (dataclasses.type f) class_references
                    (Some f) = Ok (type_metadata (snd named_field)))
            fs (get_fields definition).
Proof.
  unfold DataclassDefinition_init. intros H.
  destruct (dataclasses_fields dataclass_object) as [fs|] eqn:Hfs; [|discriminate H].
  cbn [mbind result_bind] in H.
  destruct (init_fields class_references fs ∅ []) as [[encountered fields]|] eqn:Hinit;
    [|discriminate H].
  cbn in H. injection H as <-. cbn.
  split; [reflexivity|]. split; [reflexivity|].
  exists fs. split; [reflexivity|].
  apply init_fields_entries in Hinit as (new & -> & Hall). cbn [app].
  split; [|exact Hall].
  clear -Hall. induction Hall as [|f nf fs new (Hn & _) _ IH]; [reflexivity|].
  cbn [map]. rewrite Hn, IH. reflexivity.
Qed.

Lemma X1_definition_mirrors_fields_witness :
  DataclassDefinition_init (PyClass Examples.Sample) Examples.structure_metadata
  = Ok (Examples.definition_of Examples.Sample)
  /\ map fst (get_fields (Examples.definition_of Examples.Sample))
     = ["IntField"; "StringField"; "SubStruct"; "SubStructPtr"; "BinaryField";
        "PointerField"; "ArrayPrimitiveField"; "FixedArrayPrimitiveField";
        "ArrayObjectField"; "ArrayObjectPtrField"; "ArrayStringPtrField";
        "PublicKeyField"; "PublicKeyPtrField"; "PublicKeyArrayField"; "IntPtrField";
        "IntPtrZeroField"; "Single"; "Double"].
Proof.
  assert (H : DataclassDefinition_init (PyClass Examples.Sample)
                Examples.structure_metadata
              = Ok (Examples.definition_of Examples.Sample)) by (vm_compute; reflexivity).
  split; [exact H|].
  destruct (X1_definition_mirrors_fields _ _ _ H) as (_ & _ & fs & Hfs & Hnames & _).
  rewrite Hnames. injection Hfs as <-. reflexivity.
Defined.

(** X2. Building a definition fails at the first declared field that
    cannot be entered, with the error of that field: a field without
    [bsor_id] in its metadata raises [AssertionError]; a field whose type
    [map_type_name_to_field_type] refuses raises what that function raises
    ([Exception] for an unknown type name, [AssertionError] for a float with
    a [bsor_type] that is neither FLOAT nor DOUBLE).  The fields declared
    after it are not looked at. *)
Theorem X2_definition_first_failure
    (dataclass_object : pyobject) (class_references : gmap string class_reference)
    (before after : list dataclasses.Field) (f : dataclasses.Field) :
  dataclasses_fields dataclass_object = Ok (before ++ f :: after) ->
  (forall g, In g before ->
     is_Some (dataclasses.bsor_id (dataclasses.metadata g))
     /\ is_Ok (map_type_name_to_field_type (dataclasses.type g) class_references
                 (Some g)) = true) ->
  (dataclasses.bsor_id (dataclasses.metadata f) = None ->
     DataclassDefinition_init dataclass_object class_references = Raise AssertionError)
  /\ (forall e,
        is_Some (dataclasses.bsor_id (dataclasses.metadata f)) ->
        map_type_name_to_field_type (dataclasses.type f) class_references (Some f)
        = Raise e ->
        DataclassDefinition_init dataclass_object class_references = Raise e).
Proof.
  intros Hfs Hbefore.
  assert (Hloop : forall e,
    (dataclasses.bsor_id (dataclasses.metadata f) = None /\ e = AssertionError)
    \/ (is_Some (dataclasses.bsor_id (dataclasses.metadata f))
        /\ map_type_name_to_field_type (dataclasses.type f) class_references (Some f)
           = Raise e) ->
    forall encountered acc,
      init_fields class_references (before ++ f :: after) encountered acc = Raise e).
  { clear Hfs. intros e He.
    induction before as [|g before IH]; intros encountered acc.
    - cbn [app init_fields]. destruct He as [[-> ->]|[[id ->] ->]]; reflexivity.
    - cbn [app init_fields].
      destruct (Hbefore g (or_introl eq_refl)) as [[id ->] Hok].
      destruct (map_type_name_to_field_type _ _ (Some g)) as [m|]; [|discriminate Hok].
      cbn [mbind result_bind]. apply IH. intros g' Hg'. apply Hbefore. right. exact Hg'. }
  unfold DataclassDefinition_init. rewrite Hfs. cbn [mbind result_bind]. split.
  - intros Hid. rewrite (Hloop AssertionError); [reflexivity|]. left. auto.
  - intros e Hid He. rewrite (Hloop e); [reflexivity|]. right. auto.
Qed.

Lemma X2_definition_first_failure_witness :
  DataclassDefinition_init (PyClass Further.NoId) Examples.structure_metadata
  = Raise AssertionError
  /\ DataclassDefinition_init (PyClass Further.Untyped) Examples.structure_metadata
     = Raise (Exception "Unknown type").
Proof.
  split.
  - refine (proj1 (X2_definition_first_failure (PyClass Further.NoId)
                     Examples.structure_metadata
                     [Examples.field "First" "int" 1 None None]
                     [Examples.field "Third" "Mystery" 3 None None]
                     {| dataclasses.name := "Second"; dataclasses.type := "str";
                        dataclasses.metadata :=
                          {| dataclasses.bsor_id := None;
                             dataclasses.bsor_length := None;
                             dataclasses.bsor_type := None |} |}
                     eq_refl _) eq_refl).
    intros g [<-|[]]. split; [eexists; reflexivity|reflexivity].
  - refine (proj2 (X2_definition_first_failure (PyClass Further.Untyped)
                     Examples.structure_metadata
                     [Examples.field "First" "int" 1 None None] []
                     (Examples.field "Second" "Mystery" 2 None None)
                     eq_refl _) (Exception "Unknown type") _ eq_refl).
    + intros g [<-|[]]. split; [eexists; reflexivity|reflexivity].
    + eexists. reflexivity.
Defined.

(** ** Lookups by field id *)

Lemma find_none_by_identifier (fields : list NamedFieldEntry) (field_identifier : Z) :
  (forall named_field, In named_field fields ->
     identifier (snd named_field) <> field_identifier) ->
  List.find (fun named_field => identifier (snd named_field) =? field_identifier) fields
  = None.
Proof.
  intros H. destruct (List.find _ _) as [nf|] eqn:E; [|reflexivity].
  apply List.find_some in E as [Hin Hid]. apply Z.eqb_eq in Hid.
  exfalso. exact (H nf Hin Hid).
Qed.

(** X3. An identifier that no declared field carries is an error for every
    lookup of the definition: [get_field], [get_field_entry],
    [get_field_value] and [get_list_constraint] raise [ValueError], and
    [get_definition], which starts with [get_field_value], raises it too. *)
Theorem X3_unknown_identifier_lookups
    (definition : DataclassDefinition) (field_identifier : Z) :
  (forall named_field, In named_field (get_fields definition) ->
     identifier (snd named_field) <> field_identifier) ->
  get_field definition field_identifier = Raise (ValueError "Field not found")
  /\ get_field_entry definition field_identifier
     = Raise (ValueError "Unexpected field identifier")
  /\ get_field_value definition field_identifier
     = Raise (ValueError "Unexpected field identifier")
  /\ get_list_constraint definition field_identifier
     = Raise (ValueError "Unexpected field identifier")
  /\ get_definition definition field_identifier
     = Raise (ValueError "Unexpected field identifier").
Proof.
  intros H. pose proof (find_none_by_identifier _ _ H) as Hfind.
  unfold get_fields in Hfind.
  assert (Hvalue : get_field_value definition field_identifier
                   = Raise (ValueError "Unexpected field identifier"))
    by (unfold get_field_value; rewrite Hfind; reflexivity).
  split; [|split; [|split; [|split]]].
  - unfold get_field. rewrite Hfind. reflexivity.
  - apply get_field_entry_unknown. intros entry Hin.
    unfold get_field_entries in Hin. apply in_map_iff in Hin as (nf & <- & Hin).
    apply H, Hin.
  - exact Hvalue.
  - unfold get_list_constraint. rewrite Hfind. reflexivity.
  - unfold get_definition. rewrite Hvalue. reflexivity.
Qed.

Lemma X3_unknown_identifier_lookups_witness :
  get_field (Examples.definition_of Examples.Pair) 999
  = Raise (ValueError "Field not found")
  /\ get_list_constraint (Examples.definition_of Examples.Pair) 999
     = Raise (ValueError "Unexpected field identifier").
Proof.
  assert (H : forall named_field,
            In named_field (get_fields (Examples.definition_of Examples.Pair)) ->
            identifier (snd named_field) <> 999).
  { intros nf Hin. vm_compute in Hin.
    destruct Hin as [<-|[<-|[]]]; vm_compute; discriminate. }
  destruct (X3_unknown_identifier_lookups _ 999 H) as (Hf & _ & _ & Hl & _).
  split; assumption.
Defined.

(** X4. [get_field] and [get_field_entry] walk the same list with the same
    test, so they always agree: for any identifier, and also when several
    declared fields share it, [get_field_entry] returns the entry of the
    field [get_field] returns - the first declared field with that
    identifier - and one fails exactly when the other does.  The decoder
    reads a value with the entry of [get_field_entry] and files it under the
    name of [get_field]. *)
Theorem X4_get_field_agrees_with_get_field_entry
    (definition : DataclassDefinition) (field_identifier : Z) :
  (forall field_name field_entry,
     get_field definition field_identifier = Ok (field_name, field_entry) ->
     get_field_entry definition field_identifier = Ok field_entry
     /\ identifier field_entry = field_identifier
     /\ exists before after,
          get_fields definition = before ++ (field_name, field_entry) :: after
          /\ forall named_field, In named_field before ->
               identifier (snd named_field) <> field_identifier)
  /\ (forall field_entry,
        get_field_entry definition field_identifier = Ok field_entry ->
        exists field_name,
          get_field definition field_identifier = Ok (field_name, field_entry))
  /\ (is_Ok (get_field definition field_identifier)
      = is_Ok (get_field_entry definition field_identifier)).
Proof.
  unfold get_field, get_field_entry, get_field_entries, get_fields.
  rewrite find_map_snd.
  destruct (List.find _ (_fields definition)) as [[n e]|] eqn:Hfind; cbn.
  - split; [|split; [|reflexivity]].
    + intros field_name field_entry [= <- <-]. split; [reflexivity|].
      pose proof (List.find_some _ _ Hfind) as [Hin Hid]. apply Z.eqb_eq in Hid.
      split; [exact Hid|].
      clear Hin Hid. revert Hfind. generalize (_fields definition) as fields.
      induction fields as [|f fields IH]; [discriminate|]. cbn [List.find].
      destruct (Z.eqb_spec (identifier (snd f)) field_identifier) as [Heq|Hne].
      * intros [= ->]. exists [], fields. split; [reflexivity|]. intros _ [].
      * intros H. destruct (IH H) as (before & after & -> & Hbefore).
        exists (f :: before), after. split; [reflexivity|].
        intros nf [<-|Hin]; [exact Hne|apply Hbefore, Hin].
    + intros field_entry [= <-]. exists n. reflexivity.
  - split; [|split; [|reflexivity]]; intros; discriminate.
Qed.

(** In [Twice] both fields have the identifier 1: every lookup of 1 gives
    [First]. *)
Lemma X4_get_field_agrees_with_get_field_entry_witness :
  let entry := {| identifier := 1;
                  type_metadata := {| field_type := INTEGER; is_class_reference := false;
                                      stores_pointers := false |} |} in
  get_field (Examples.definition_of Examples.Twice) 1 = Ok ("First", entry)
  /\ get_field_entry (Examples.definition_of Examples.Twice) 1 = Ok entry.
Proof.
  cbv zeta. split; [reflexivity|].
  exact (proj1 (proj1 (X4_get_field_agrees_with_get_field_entry
                         (Examples.definition_of Examples.Twice) 1)
                  "First" _ eq_refl)).
Defined.

(** ** The encoder only appends *)

Section Appending.









End Appending.

(** ** Framing *)



(** ** Streams that end too early *)

(** X7. A script that ends before the structure does is an error, never a
    partial instance: [loads] of the empty script raises [StopIteration],
    and so does [loads] of a script whose count token announces more fields
    than follow - the error comes from [next] on the exhausted generator,
    when the first [k] fields have been read and nothing is left. *)
Theorem X7_exhausted_script_raises
    (depth : nat) (data : bytes) (definition : DataclassDefinition)
    (class_reference : pyobject)
    (opcode : Z) (value_bytes : option bytes) (generator : bytes)
    (k : nat) (kwargs : gmap string value) :
  next data = Ok ((opcode, value_bytes), generator) ->
  (k < Z.to_nat (item_to_int value_bytes))%nat ->
  for_range k
    (read_structure_step
       (fun generator => _read_field (S depth) generator definition) definition)
    (∅, generator) = Ok (kwargs, []) ->
  loads (S (S depth)) data definition class_reference = Raise StopIteration
  /\ loads (S (S depth)) [] definition class_reference = Raise StopIteration.
Proof.
  intros Hcount Hk Hloop. split; [|reflexivity].
  unfold loads. cbn [_read_structure]. rewrite Hcount. cbn [mbind result_bind].
  replace (Z.to_nat (item_to_int value_bytes))
    with (k + S (Z.to_nat (item_to_int value_bytes) - S k))%nat by lia.
  rewrite for_range_add, Hloop. cbn [mbind result_bind].
  rewrite for_range_raise with (e := StopIteration); reflexivity.
Qed.

(** [count=2] and only the field [id=2, "hi"]. *)
Lemma X7_exhausted_script_raises_witness :
  loads 4 [x52; x52; x02; x68; x69] (Examples.definition_of Examples.Pair)
    (PyClass Examples.Pair) = Raise StopIteration.
Proof.
  refine (proj1 (X7_exhausted_script_raises 2 [x52; x52; x02; x68; x69]
                   (Examples.definition_of Examples.Pair) (PyClass Examples.Pair)
                   82 (Some [x02]) [x52; x02; x68; x69] 1
                   {[ "StrField" := VStr (Codecs.of_string "hi") ]}
                   eq_refl _ eq_refl)).
  vm_compute. lia.
Defined.

(** ** Fields without a default *)

Lemma fold_backfill_lookup_None (fields : list NamedFieldEntry) :
  forall (kwargs : gmap string value) (n : string),
    kwargs !! n = None ->
    (forall named_field, In named_field fields -> fst named_field = n ->
       backfilled (type_metadata (snd named_field)) = None) ->
    fold_left backfill fields kwargs !! n = None.
Proof.
  induction fields as [|[field_name field] fields IH]; intros kwargs n Hn Hall;
    [exact Hn|].
  cbn [fold_left]. apply IH; [|intros nf Hin; apply Hall; right; exact Hin].
  destruct (String.eqb_spec field_name n) as [->|Hne].
  - rewrite backfill_lookup_here by exact Hn.
    exact (Hall (n, field) (or_introl eq_refl) eq_refl).
  - rewrite backfill_lookup_other by exact Hne. exact Hn.
Qed.

Lemma init_attrs_missing (kwargs : gmap string value) (fs : list dataclasses.Field)
    (f : dataclasses.Field) :
  In f fs -> kwargs !! dataclasses.name f = None ->
  init_attrs fs kwargs = Raise TypeError.
Proof.
  induction fs as [|g fs IH]; intros Hin Hnone; [destruct Hin|].
  cbn [init_attrs]. destruct Hin as [->|Hin].
  - rewrite Hnone. reflexivity.
  - destruct (kwargs !! dataclasses.name g); [|reflexivity].
    rewrite (IH Hin Hnone). reflexivity.
Qed.

(** X8. The decoder fabricates no value for a field that has no default.
    When a field the class declares is not on the wire and every declared
    field of that name is a non-pointer of a type outside [TYPE_DEFAULTS]
    (Float32, Float64, List, Object), the second loop leaves it out of
    [kwargs], the constructor misses an argument, and [_read_structure]
    raises [TypeError]. *)
Theorem X8_absent_field_without_default_raises
    (depth : nat) (generator : bytes) (definition : DataclassDefinition)
    (cls : pyclass) (fs : list dataclasses.Field) (f : dataclasses.Field)
    (opcode : Z) (value_bytes : option bytes) (generator1 : bytes)
    (kwargs : gmap string value) (rest : bytes) :
  next generator = Ok ((opcode, value_bytes), generator1) ->
  for_range (Z.to_nat (item_to_int value_bytes))
    (read_structure_step
       (fun generator => _read_field depth generator definition) definition)
    (∅, generator1) = Ok (kwargs, rest) ->
  __dataclass_fields__ cls = Some fs ->
  In f fs ->
  kwargs !! dataclasses.name f = None ->
  (forall named_field, In named_field (get_fields definition) ->
     fst named_field = dataclasses.name f ->
     stores_pointers (type_metadata (snd named_field)) = false
     /\ TYPE_DEFAULTS (field_type (type_metadata (snd named_field))) = None) ->
  _read_structure (S depth) generator definition (PyClass cls) = Raise TypeError.
Proof.
  intros Hnext Hloop Hfs Hin Habsent Hnodefault.
  cbn [_read_structure]. rewrite Hnext. cbn [mbind result_bind].
  rewrite Hloop. cbn [mbind result_bind].
  unfold call_kwargs. rewrite Hfs.
  destruct (forallb _ _); [|reflexivity].
  rewrite (init_attrs_missing _ fs f Hin); [reflexivity|].
  apply fold_backfill_lookup_None; [exact Habsent|].
  intros nf Hnf Hname. destruct (Hnodefault nf Hnf Hname) as [Hptr Hdef].
  unfold backfilled. rewrite Hptr. exact Hdef.
Qed.

(** [Mixed] with only [IntField] on the wire: [Ratio] has no default. *)
Lemma X8_absent_field_without_default_raises_witness :
  _read_structure 3 [x51; x51; x55] (Examples.definition_of Further.Mixed)
    (PyClass Further.Mixed) = Raise TypeError.
Proof.
  refine (X8_absent_field_without_default_raises 2 [x51; x51; x55]
            (Examples.definition_of Further.Mixed) Further.Mixed _
            (Examples.field "Ratio" "float" 2 None None)
            81 (Some [x01]) [x51; x55] {[ "IntField" := VInt 5 ]} []
            eq_refl eq_refl eq_refl _ eq_refl _).
  - right. left. reflexivity.
  - intros nf Hin Hname. vm_compute in Hin.
    destruct Hin as [<-|[<-|[<-|[<-|[]]]]]; try discriminate Hname.
    split; reflexivity.
Defined.

(** ** Values without attributes, fields without bytes *)




(** X10. A field that holds its zero default, or a null pointer of a type
    that has one, costs nothing on the wire.  When the instance has the
    field, its type is Integer, String or Bytes, and it is a pointer holding
    [None] or a non-pointer holding a value equal to the default, the whole
    [_write_structure] call is the call made over the other declared
    fields: the field is not counted and neither its id nor its value is
    written. *)
Theorem X10_default_and_null_take_no_bytes
    (depth : nat) (stream : bytes) (definition : DataclassDefinition)
    (object_value : value) (before after : list NamedFieldEntry)
    (field_name : string) (field_entry : FieldEntry) (field_value d : value) :
  get_fields definition = before ++ (field_name, field_entry) :: after ->
  getattr object_value field_name = Ok field_value ->
  TYPE_DEFAULTS (field_type (type_metadata field_entry)) = Some d ->
  (stores_pointers (type_metadata field_entry) = true /\ field_value = VNone)
  \/ (stores_pointers (type_metadata field_entry) = false
      /\ py_eq field_value d = true) ->
  _write_structure (S depth) stream definition object_value =
    (let fields := List.filter (field_survives object_value) (before ++ after) in
     stream ← write stream (push_int (len fields));
     for_each fields
       (write_structure_step
          (fun stream => _write_field depth stream definition) object_value)
       stream).
Proof.
  intros Hfields Hattr Hdefault Hcase.
  assert (Hs : field_survives object_value (field_name, field_entry) = false).
  { apply (field_survives_false object_value field_name field_entry field_value Hattr).
    exists d. split; assumption. }
  cbn [_write_structure]. rewrite Hfields.
  rewrite !filter_app_bool. cbn [List.filter]. rewrite Hs. reflexivity.
Qed.

(** [Pair] holding [IntField=0]: only [StrField] is written. *)
Lemma X10_default_and_null_take_no_bytes_witness :
  _write_structure 4 [] (Examples.definition_of Examples.Pair)
    (Examples.instance Examples.Pair
       [("IntField", VInt 0); ("StrField", VStr (Codecs.of_string "hi"))])
  = Ok [x51; x52; x02; x68; x69].
Proof.
  rewrite (X10_default_and_null_take_no_bytes 3 []
             (Examples.definition_of Examples.Pair)
             (Examples.instance Examples.Pair
                [("IntField", VInt 0); ("StrField", VStr (Codecs.of_string "hi"))])
             []
             [("StrField",
               {| identifier := 2;
                  type_metadata := {| field_type := STRING; is_class_reference := false;
                                      stores_pointers := false |} |})]
             "IntField"
             {| identifier := 1;
                type_metadata := {| field_type := INTEGER; is_class_reference := false;
                                    stores_pointers := false |} |}
             (VInt 0) (VInt 0) eq_refl eq_refl eq_refl (or_intror (conj eq_refl eq_refl))).
  reflexivity.
Defined.

(** ** Type names *)

Section TypeNames.

Local Open Scope string_scope.

Lemma string_length_append (a b : string) :
  String.length (a ++ b) = (String.length a + String.length b)%nat.
Proof.
  induction a as [|c a IH]; [reflexivity|].
  change (String c a ++ b) with (String c (a ++ b)). simpl. rewrite IH. reflexivity.
Qed.

Lemma substring_0_0 (s : string) : String.substring 0 0 s = "".
Proof. destruct s; reflexivity. Qed.

Lemma substring_0_length (s : string) : String.substring 0 (String.length s) s = s.
Proof. induction s as [|c s IH]; cbn; [reflexivity|]. rewrite IH. reflexivity. Qed.

Lemma substring_0_append (a b : string) (k : nat) :
  String.substring 0 (String.length a + k) (a ++ b) = a ++ String.substring 0 k b.
Proof.
  induction a as [|c a IH]; [reflexivity|].
  change (String c a ++ b) with (String c (a ++ b)). simpl. rewrite IH. reflexivity.
Qed.

Lemma substring_skip_append (a b : string) (k : nat) :
  String.substring (String.length a) k (a ++ b) = String.substring 0 k b.
Proof.
  induction a as [|c a IH]; [reflexivity|].
  change (String c a ++ b) with (String c (a ++ b)). simpl. exact IH.
Qed.

Lemma string_append_nil (a : string) : a ++ "" = a.
Proof.
  induction a as [|c a IH]; [reflexivity|].
  change (String c a ++ "") with (String c (a ++ "")). rewrite IH. reflexivity.
Qed.

Lemma string_eqb_length (a b : string) :
  String.length a <> String.length b -> String.eqb a b = false.
Proof. intros H. apply String.eqb_neq. intros ->. apply H. reflexivity. Qed.

(** [s[start:stop]] for bounds within the text, [stop] counted from the
    end. *)
Lemma slice_from_end (s : string) (start back : nat) :
  (0 < back)%nat -> (start + back <= String.length s)%nat ->
  PyStr.slice s (Z.of_nat start) (- Z.of_nat back)
  = String.substring start (String.length s - back - start) s.
Proof.
  intros Hback Hlen. unfold PyStr.slice.
  destruct (Z.ltb_spec (Z.of_nat start) 0); [lia|].
  destruct (Z.ltb_spec (- Z.of_nat back) 0); [|lia].
  rewrite (Z.max_r 0 (Z.of_nat start)) by lia.
  rewrite (Z.min_r _ (Z.of_nat start)) by lia.
  rewrite (Z.max_r 0 (- Z.of_nat back + _)) by lia.
  rewrite (Z.min_r _ (- Z.of_nat back + _)) by lia.
  f_equal; lia.
Qed.

Lemma slice_tail (s : string) (back : nat) :
  (back <= String.length s)%nat ->
  PyStr.slice s (Z.of_nat (String.length s) - Z.of_nat back)
    (Z.of_nat (String.length s))
  = String.substring (String.length s - back) back s.
Proof.
  intros Hlen. unfold PyStr.slice.
  destruct (Z.ltb_spec (Z.of_nat (String.length s) - Z.of_nat back) 0); [lia|].
  destruct (Z.ltb_spec (Z.of_nat (String.length s)) 0); [lia|].
  rewrite !Z.max_r by lia. rewrite Z.min_r by lia. rewrite Z.min_l by lia.
  f_equal; lia.
Qed.

Lemma endswith_append (a p : string) : PyStr.endswith (a ++ p) p = true.
Proof.
  unfold PyStr.endswith. rewrite string_length_append.
  destruct (Z.leb_spec (Z.of_nat (String.length p))
              (Z.of_nat (String.length a + String.length p))); [|lia].
  cbn [andb]. rewrite <- string_length_append.
  rewrite slice_tail by (rewrite string_length_append; lia).
  rewrite string_length_append.
  replace (String.length a + String.length p - String.length p)%nat
    with (String.length a) by lia.
  rewrite substring_skip_append, substring_0_length. apply String.eqb_refl.
Qed.

Lemma strip_pointer_marker (a : string) : PyStr.slice (a ++ " | None") 0 (-7) = a.
Proof.
  change 0 with (Z.of_nat 0). change (-7) with (- Z.of_nat 7).
  rewrite slice_from_end by (rewrite ?string_length_append; simpl; lia).
  rewrite string_length_append. simpl String.length.
  replace (String.length a + 7 - 7 - 0)%nat with (String.length a + 0)%nat by lia.
  rewrite substring_0_append, substring_0_0. apply string_append_nil.
Qed.

(** X11. The pointer marker does nothing but set the flag.  For a type
    name [T] that does not itself end in the marker,
    [map_type_name_to_field_type] resolves ["T | None"] whenever it resolves
    [T], to the same field type and class-reference flag with
    [stores_pointers] set, and fails on it as it fails on [T] - with one
    exception: for the item type of a list ([field] absent) the name
    ["float | None"] gives a Float32 that is not a pointer. *)
Theorem X11_pointer_marker_sets_the_flag
    (type_name : string) (class_references : gmap string class_reference)
    (field : option dataclasses.Field) :
  PyStr.endswith type_name " | None" = false ->
  map_type_name_to_field_type (type_name ++ " | None") class_references field
  = match map_type_name_to_field_type type_name class_references field with
    | Ok m =>
        Ok {| field_type := field_type m;
              is_class_reference := is_class_reference m;
              stores_pointers :=
                negb (String.eqb type_name "float" && bool_decide (field = None)) |}
    | Raise e => Raise e
    end.
Proof.
  intros Hplain. unfold map_type_name_to_field_type.
  rewrite endswith_append, strip_pointer_marker, Hplain.
  destruct (String.eqb type_name "int") eqn:Hint.
  { apply String.eqb_eq in Hint. subst type_name. reflexivity. }
  destruct (String.eqb type_name "float").
  - destruct field as [f|]; [|reflexivity].
    destruct (default FLOAT (dataclasses.bsor_type (dataclasses.metadata f)));
      reflexivity.
  - cbn [andb negb].
    destruct (PyStr.startswith type_name "list["); [reflexivity|].
    destruct (String.eqb type_name "str"); [reflexivity|].
    destruct (String.eqb type_name "bytes"); [reflexivity|].
    destruct (class_references !! type_name); reflexivity.
Qed.

Lemma X11_pointer_marker_sets_the_flag_witness :
  map_type_name_to_field_type "XTestSubStruct | None" Examples.structure_metadata None
  = Ok {| field_type := OBJECT; is_class_reference := true; stores_pointers := true |}
  /\ map_type_name_to_field_type "float | None" Examples.structure_metadata None
     = Ok {| field_type := FLOAT; is_class_reference := false;
             stores_pointers := false |}.
Proof.
  split.
  - exact (X11_pointer_marker_sets_the_flag "XTestSubStruct"
             Examples.structure_metadata None eq_refl).
  - exact (X11_pointer_marker_sets_the_flag "float"
             Examples.structure_metadata None eq_refl).
Defined.

End TypeNames.

(** ** Item types of lists *)

Section ListItems.

Local Open Scope string_scope.

Lemma string_append_assoc (a b c : string) : (a ++ b) ++ c = a ++ (b ++ c).
Proof.
  induction a as [|x a IH]; [reflexivity|].
  change (String x a ++ b) with (String x (a ++ b)).
  change (String x (a ++ b) ++ c) with (String x ((a ++ b) ++ c)).
  rewrite IH. reflexivity.
Qed.

Lemma prefix_append (p t : string) : String.prefix p (p ++ t) = true.
Proof.
  apply String.prefix_correct.
  replace (String.length p) with (String.length p + 0)%nat by lia.
  rewrite substring_0_append, substring_0_0. apply string_append_nil.
Qed.

(** A prefix that a text lacks is not completed by a continuation whose
    first character the prefix does not contain. *)
Lemma prefix_append_false (p t : string) (c : ascii) (x : string) :
  String.prefix p t = false -> ~ In c (list_ascii_of_string p) ->
  String.prefix p (t ++ String c x) = false.
Proof.
  revert p. induction t as [|y t IH]; intros p Hp Hc.
  - destruct p as [|a p]; [discriminate|].
    change ("" ++ String c x) with (String c x). simpl.
    destruct (Ascii.ascii_dec a c) as [->|]; [|reflexivity].
    exfalso. apply Hc. left. reflexivity.
  - destruct p as [|a p]; [discriminate|].
    change (String y t ++ String c x) with (String y (t ++ String c x)).
    simpl in Hp |- *.
    destruct (Ascii.ascii_dec a y); [|reflexivity].
    apply IH; [exact Hp|]. intros Hin. apply Hc. right. exact Hin.
Qed.

(** [type[5:-1]] of a list type with something after the bracket. *)
Lemma slice_list_item (t tail : string) (c : ascii) :
  PyStr.slice ("list[" ++ t ++ tail ++ String c "") 5 (-1) = t ++ tail.
Proof.
  change 5 with (Z.of_nat 5). change (-1) with (- Z.of_nat 1).
  rewrite slice_from_end
    by (rewrite ?string_length_append; simpl; rewrite ?string_length_append;
        simpl; lia).
  change ("list[" ++ t ++ tail ++ String c "")
    with (String "l" (String "i" (String "s" (String "t" (String "["
            (t ++ tail ++ String c "")))))).
  simpl String.length. simpl String.substring.
  rewrite <- string_append_assoc, string_length_append. simpl String.length.
  replace (String.length (t ++ tail) + 1 - 1)%nat
    with (String.length (t ++ tail) + 0)%nat by lia.
  rewrite substring_0_append, substring_0_0. apply string_append_nil.
Qed.

Lemma endswith_other_tail (t tail p : string) :
  String.length tail = String.length p -> String.eqb tail p = false ->
  PyStr.endswith (t ++ tail) p = false.
Proof.
  intros Hlen Hneq. unfold PyStr.endswith. rewrite string_length_append, <- Hlen.
  destruct (Z.leb_spec (Z.of_nat (String.length tail))
              (Z.of_nat (String.length t + String.length tail))); [|lia].
  cbn [andb]. rewrite <- string_length_append.
  rewrite slice_tail by (rewrite string_length_append; lia).
  rewrite string_length_append.
  replace (String.length t + String.length tail - String.length tail)%nat
    with (String.length t) by lia.
  rewrite substring_skip_append, substring_0_length. exact Hneq.
Qed.

Lemma get_list_constraint_found (definition : DataclassDefinition)
    (field_identifier : Z) (entry_field_name : string) (entry_field_entry : FieldEntry)
    (field : dataclasses.Field) :
  List.find (fun named_field => (identifier (snd named_field) =? field_identifier)%Z)
    (_fields definition) = Some (entry_field_name, entry_field_entry) ->
  dataclass_field definition entry_field_name = Ok field ->
  get_list_constraint definition field_identifier
  = (field_type_data ←
       map_type_name_to_field_type (PyStr.slice (dataclasses.type field) 5 (-1))
         (_class_references definition) None;
     Ok (definition, {| identifier := field_identifier;
                        type_metadata := field_type_data |},
         dataclasses.bsor_length (dataclasses.metadata field))).
Proof.
  intros Hfind Hfield. unfold get_list_constraint. rewrite Hfind, Hfield. reflexivity.
Qed.

(** X12. A pointer to a list cannot be used.  A field typed
    ["list[T] | None"], for an item type [T] that is not itself a list
    type, is accepted by the constructor as a List that stores pointers, but
    [get_list_constraint] cuts the item type out of the whole annotation and
    looks up ["T] | Non"]: unless a class is bound under that name it raises
    the [Exception] for an unknown type, and so do [_read_type] and
    [_write_type] on the field, whatever the input and the value. *)
Theorem X12_pointer_to_list_is_unusable
    (definition : DataclassDefinition) (field_identifier : Z)
    (entry_field_name : string) (entry_field_entry : FieldEntry)
    (field : dataclasses.Field) (T : string) :
  List.find (fun named_field => (identifier (snd named_field) =? field_identifier)%Z)
    (_fields definition) = Some (entry_field_name, entry_field_entry) ->
  dataclass_field definition entry_field_name = Ok field ->
  dataclasses.type field = "list[" ++ T ++ "] | None" ->
  PyStr.startswith T "list[" = false ->
  _class_references definition !! (T ++ "] | Non") = None ->
  let list_pointer :=
    {| field_type := LIST; is_class_reference := false; stores_pointers := true |} in
  map_type_name_to_field_type (dataclasses.type field)
    (_class_references definition) (Some field) = Ok list_pointer
  /\ get_list_constraint definition field_identifier
     = Raise (Exception "Unknown type")
  /\ (forall (depth : nat) (generator : bytes),
        _read_type (S depth) generator definition
          {| identifier := field_identifier; type_metadata := list_pointer |}
        = Raise (Exception "Unknown type"))
  /\ (forall (depth : nat) (stream : bytes) (field_value : value),
        _write_type (S depth) stream definition field_identifier list_pointer
          field_value
        = Raise (Exception "Unknown type")).
Proof.
  intros Hfind Hfield Htype Hplain Hunbound list_pointer.
  assert (Hconstraint : get_list_constraint definition field_identifier
                        = Raise (Exception "Unknown type")).
  { rewrite (get_list_constraint_found _ _ _ _ _ Hfind Hfield), Htype.
    change ("] | None") with ("] | Non" ++ String "e" "").
    rewrite slice_list_item.
    unfold map_type_name_to_field_type.
    rewrite (endswith_other_tail T "] | Non" " | None") by reflexivity.
    rewrite !string_eqb_length by (rewrite string_length_append; simpl; lia).
    unfold PyStr.startswith in Hplain |- *.
    rewrite prefix_append_false; [|exact Hplain|].
    - rewrite Hunbound. reflexivity.
    - simpl. intros [H|[H|[H|[H|[H|[]]]]]]; discriminate H. }
  split; [|split; [exact Hconstraint|split]].
  - rewrite Htype.
    replace ("list[" ++ T ++ "] | None") with (("list[" ++ T ++ "]") ++ " | None")
      by (rewrite !string_append_assoc; reflexivity).
    unfold map_type_name_to_field_type.
    rewrite endswith_append, strip_pointer_marker.
    unfold PyStr.startswith. rewrite prefix_append.
    change ("list[" ++ T ++ "]")
      with (String "l" (String "i" (String "s" (String "t" (String "[" (T ++ "]")))))).
    reflexivity.
  - intros depth generator. cbn. rewrite Hconstraint. reflexivity.
  - intros depth stream field_value. cbn. rewrite Hconstraint. reflexivity.
Qed.

Lemma X12_pointer_to_list_is_unusable_witness :
  DataclassDefinition_init (PyClass Further.ListPtr) Examples.structure_metadata
  = Ok (Examples.definition_of Further.ListPtr)
  /\ _read_type 1000 [] (Examples.definition_of Further.ListPtr)
       {| identifier := 1;
          type_metadata := {| field_type := LIST; is_class_reference := false;
                              stores_pointers := true |} |}
     = Raise (Exception "Unknown type")
  /\ _write_type 1000 [] (Examples.definition_of Further.ListPtr) 1
       {| field_type := LIST; is_class_reference := false; stores_pointers := true |}
       (VList [])
     = Raise (Exception "Unknown type").
Proof.
  pose proof (X12_pointer_to_list_is_unusable (Examples.definition_of Further.ListPtr) 1
                "Items"
                {| identifier := 1;
                   type_metadata := {| field_type := LIST; is_class_reference := false;
                                       stores_pointers := true |} |}
                (Examples.field "Items" "list[int] | None" 1 None None) "int"
                eq_refl eq_refl eq_refl eq_refl eq_refl) as (_ & _ & Hread & Hwrite).
  split; [reflexivity|split].
  - exact (Hread 999%nat []).
  - exact (Hwrite 999%nat [] (VList [])).
Defined.

Lemma for_each_raises {S A : Type} (body : S -> A -> result S) (x : A) (l : list A) :
  (forall s, exists e, body s x = Raise e) -> In x l ->
  forall s, exists e, for_each l body s = Raise e.
Proof.
  intros Hx. induction l as [|y l IH]; intros Hin s; [destruct Hin|].
  cbn [for_each]. destruct Hin as [->|Hin].
  - destruct (Hx s) as [e He]. exists e. rewrite He. reflexivity.
  - destruct (body s y) as [s'|e]; [|exists e; reflexivity]. exact (IH Hin s').
Qed.

(** X13. The items of a list of floats are always single-precision and
    never pointers.  For a field typed ["list[float]"] or
    ["list[float | None]"], whatever [bsor_type] the field declares,
    [get_list_constraint] describes the items as Float32 that store no
    pointers; so a list of that field that holds [None] is never written:
    [_write_type] raises. *)
Theorem X13_float_items_are_single_and_never_pointers
    (definition : DataclassDefinition) (field_identifier : Z)
    (entry_field_name : string) (entry_field_entry : FieldEntry)
    (field : dataclasses.Field) :
  List.find (fun named_field => (identifier (snd named_field) =? field_identifier)%Z)
    (_fields definition) = Some (entry_field_name, entry_field_entry) ->
  dataclass_field definition entry_field_name = Ok field ->
  dataclasses.type field = "list[float]"
  \/ dataclasses.type field = "list[float | None]" ->
  let list_plain :=
    {| field_type := LIST; is_class_reference := false; stores_pointers := false |} in
  map_type_name_to_field_type (dataclasses.type field)
    (_class_references definition) (Some field) = Ok list_plain
  /\ get_list_constraint definition field_identifier
     = Ok (definition,
           {| identifier := field_identifier;
              type_metadata := {| field_type := FLOAT; is_class_reference := false;
                                  stores_pointers := false |} |},
           dataclasses.bsor_length (dataclasses.metadata field))
  /\ (forall (depth : nat) (stream : bytes) (items : list value),
        In VNone items ->
        exists e,
          _write_type (S (S depth)) stream definition field_identifier list_plain
            (VList items) = Raise e).
Proof.
  intros Hfind Hfield Htype list_plain.
  assert (Hconstraint :
            get_list_constraint definition field_identifier
            = Ok (definition,
                  {| identifier := field_identifier;
                     type_metadata := {| field_type := FLOAT;
                                         is_class_reference := false;
                                         stores_pointers := false |} |},
                  dataclasses.bsor_length (dataclasses.metadata field))).
  { rewrite (get_list_constraint_found _ _ _ _ _ Hfind Hfield).
    destruct Htype as [-> | ->]; reflexivity. }
  split; [destruct Htype as [-> | ->]; reflexivity|].
  split; [exact Hconstraint|].
  intros depth stream items Hnone.
  remember (S depth) as n eqn:Hn. cbn. rewrite Hconstraint. cbn.
  match goal with
  | |- exists e, mbind _ ?m = _ => destruct m as [stream'|e]
  end; [|exists e; reflexivity].
  cbn. apply (for_each_raises _ VNone); [|exact Hnone].
  intros s. rewrite Hn. exists StructError. reflexivity.
Qed.

Lemma X13_float_items_are_single_and_never_pointers_witness :
  get_list_constraint (Examples.definition_of Further.FloatLists) 2
  = Ok (Examples.definition_of Further.FloatLists,
        {| identifier := 2;
           type_metadata := {| field_type := FLOAT; is_class_reference := false;
                               stores_pointers := false |} |}, None)
  /\ exists e,
       _write_type 1000 [] (Examples.definition_of Further.FloatLists) 2
         {| field_type := LIST; is_class_reference := false; stores_pointers := false |}
         (VList [VFloat 0; VNone]) = Raise e.
Proof.
  pose proof (X13_float_items_are_single_and_never_pointers
                (Examples.definition_of Further.FloatLists) 2 "Pointers"
                {| identifier := 2;
                   type_metadata := {| field_type := LIST; is_class_reference := false;
                                       stores_pointers := false |} |}
                (Examples.field "Pointers" "list[float | None]" 2 None (Some DOUBLE))
                eq_refl eq_refl (or_intror eq_refl)) as (_ & Hconstraint & Hwrite).
  split; [exact Hconstraint|].
  exact (Hwrite 998%nat [] [VFloat 0; VNone] (or_intror (or_introl eq_refl))).
Defined.

Lemma substring_to_end (t : string) (c : ascii) (a k : nat) :
  (a + S k = String.length t + 1)%nat ->
  String.substring a (S k) (t ++ String c "") = String.substring a k t ++ String c "".
Proof.
  revert a k. induction t as [|y t IH]; intros a k Hlen.
  - simpl in Hlen. assert (a = 0%nat) as -> by lia. assert (k = 0%nat) as -> by lia.
    reflexivity.
  - change (String y t ++ String c "") with (String y (t ++ String c "")).
    simpl in Hlen. destruct a as [|a].
    + destruct k as [|k]; [lia|].
      change (String.substring 0 (S (S k)) (String y (t ++ String c "")))
        with (String y (String.substring 0 (S k) (t ++ String c ""))).
      rewrite IH by lia. reflexivity.
    + change (String.substring (S a) (S k) (String y (t ++ String c "")))
        with (String.substring a (S k) (t ++ String c "")).
      rewrite IH by lia. reflexivity.
Qed.

Lemma string_snoc_inj (a b : string) (c d : ascii) :
  a ++ String c "" = b ++ String d "" -> c = d.
Proof.
  revert b. induction a as [|x a IH]; intros [|y b] H.
  - injection H as H. exact H.
  - injection H as _ H. destruct b; discriminate H.
  - injection H as _ H. destruct a; discriminate H.
  - injection H as _ H. exact (IH b H).
Qed.

(** A text does not end with a suffix whose last character is another. *)
Lemma endswith_last_char (t q : string) (c d : ascii) :
  c <> d -> PyStr.endswith (t ++ String c "") (q ++ String d "") = false.
Proof.
  intros Hcd. unfold PyStr.endswith.
  destruct (Z.leb_spec (Z.of_nat (String.length (q ++ String d "")))
              (Z.of_nat (String.length (t ++ String c "")))) as [Hle|]; [|reflexivity].
  cbn [andb]. rewrite slice_tail by lia.
  rewrite !string_length_append in Hle |- *. simpl String.length in Hle |- *.
  replace (String.length q + 1)%nat with (S (String.length q)) by lia.
  rewrite substring_to_end by lia.
  apply String.eqb_neq. intros H. apply string_snoc_inj in H. exact (Hcd H).
Qed.

(** X14. A fixed array of arrays cannot be read.  For a field typed
    ["list[list[T]]"] with a [bsor_length] of one or more, the item type is
    again a List under the same field id, so that [_read_type] asks
    [get_list_constraint] the same question at every level: whatever the
    input and however deep the interpreter lets it go, it ends in a
    [RecursionError]. *)
Theorem X14_fixed_array_of_arrays_never_reads
    (definition : DataclassDefinition) (field_identifier : Z)
    (entry_field_name : string) (entry_field_entry : FieldEntry)
    (field : dataclasses.Field) (T : string) (item_count : Z) :
  List.find (fun named_field => (identifier (snd named_field) =? field_identifier)%Z)
    (_fields definition) = Some (entry_field_name, entry_field_entry) ->
  dataclass_field definition entry_field_name = Ok field ->
  dataclasses.type field = "list[list[" ++ T ++ "]]" ->
  dataclasses.bsor_length (dataclasses.metadata field) = Some item_count ->
  (1 <= item_count)%Z ->
  let list_plain :=
    {| field_type := LIST; is_class_reference := false; stores_pointers := false |} in
  map_type_name_to_field_type (dataclasses.type field)
    (_class_references definition) (Some field) = Ok list_plain
  /\ forall (depth : nat) (generator : bytes),
       _read_type depth generator definition
         {| identifier := field_identifier; type_metadata := list_plain |}
       = Raise RecursionError.
Proof.
  intros Hfind Hfield Htype Hcount Hpositive list_plain.
  assert (Hlist : forall (X : string) (f : option dataclasses.Field),
            map_type_name_to_field_type ("list[" ++ X ++ "]")
              (_class_references definition) f = Ok list_plain).
  { intros X f. unfold map_type_name_to_field_type.
    replace ("list[" ++ X ++ "]") with (("list[" ++ X) ++ String "]" "")
      by (rewrite string_append_assoc; reflexivity).
    pose proof (endswith_last_char ("list[" ++ X) " | Non" "]" "e") as Hends.
    change (" | Non" ++ String "e" "") with " | None" in Hends.
    rewrite Hends by discriminate. clear Hends.
    rewrite string_append_assoc. unfold PyStr.startswith. rewrite prefix_append.
    change ("list[" ++ X ++ "]")
      with (String "l" (String "i" (String "s" (String "t" (String "[" (X ++ "]")))))).
    reflexivity. }
  assert (Hconstraint :
            get_list_constraint definition field_identifier
            = Ok (definition,
                  {| identifier := field_identifier; type_metadata := list_plain |},
                  Some item_count)).
  { rewrite (get_list_constraint_found _ _ _ _ _ Hfind Hfield), Htype, Hcount.
    change ("list[list[" ++ T ++ "]]")
      with ("list[" ++ ("list[" ++ T) ++ "]" ++ String "]" "").
    rewrite slice_list_item, string_append_assoc, Hlist. reflexivity. }
  split.
  - rewrite Htype.
    replace ("list[list[" ++ T ++ "]]") with ("list[" ++ ("list[" ++ T ++ "]") ++ "]")
      by (rewrite !string_append_assoc; reflexivity).
    apply Hlist.
  - intros depth. induction depth as [|depth IH]; intros generator; [reflexivity|].
    cbn. rewrite Hconstraint. cbn.
    destruct (Z.to_nat item_count) as [|n] eqn:Hn; [lia|].
    rewrite (for_range_raise n _ _ RecursionError); [reflexivity|].
    cbn. rewrite IH. reflexivity.
Qed.

Lemma X14_fixed_array_of_arrays_never_reads_witness :
  DataclassDefinition_init (PyClass Further.Matrix) Examples.structure_metadata
  = Ok (Examples.definition_of Further.Matrix)
  /\ forall (depth : nat) (generator : bytes),
       _read_type depth generator (Examples.definition_of Further.Matrix)
         {| identifier := 1;
            type_metadata := {| field_type := LIST; is_class_reference := false;
                                stores_pointers := false |} |}
       = Raise RecursionError.
Proof.
  split; [reflexivity|].
  refine (proj2 (X14_fixed_array_of_arrays_never_reads
                   (Examples.definition_of Further.Matrix) 1 "Rows"
                   {| identifier := 1;
                      type_metadata := {| field_type := LIST;
                                          is_class_reference := false;
                                          stores_pointers := false |} |}
                   (Examples.field "Rows" "list[list[int]]" 1 (Some 2) None)
                   "int" 2 eq_refl eq_refl eq_refl eq_refl _)).
  lia.
Defined.

End ListItems.

(** ** Reading from a longer script *)

Section Extension.

Variable extra : bytes.

(** [read] from a script that goes on with [extra] does what it does
    without, and leaves [extra] behind what it left. *)
Let extends {A : Type} (read : bytes -> result (A * bytes)) : Prop :=
  forall generator a rest,
    read generator = Ok (a, rest) -> read (generator ++ extra) = Ok (a, rest ++ extra).

Lemma take_exact_extends (dlen : Z) : extends (take_exact dlen).
Proof.
  intros script item rest. unfold take_exact.
  destruct (Z.leb_spec dlen (len script)) as [Hle|]; [|discriminate].
  intros [= <- <-]. rewrite len_app. pose proof (len_nonneg extra).
  destruct (Z.leb_spec dlen (len script + len extra)); [|lia].
  assert (Hn : (Z.to_nat dlen <= length script)%nat) by (unfold len in Hle; lia).
  rewrite take_app_le, drop_app_le by exact Hn. reflexivity.
Qed.

Lemma next_extends : extends next.
Proof.
  intros [|b script] token rest; [discriminate|].
  change ((b :: script) ++ extra) with (b :: (script ++ extra)).
  unfold next.
  destruct (byte_to_Z b <=? OP_16); [|intros [= <- <-]; reflexivity].
  destruct (byte_to_Z b <=? OP_PUSHDATA4).
  - assert (Hlen : forall n dlen rest1,
              ('(l, r) ← take_exact n script; Ok (le_bytes_to_int l, r)) = Ok (dlen, rest1) ->
              ('(l, r) ← take_exact n (script ++ extra); Ok (le_bytes_to_int l, r))
              = Ok (dlen, rest1 ++ extra)).
    { intros n dlen rest1 H.
      destruct (take_exact n script) as [[l r]|] eqn:Ht; [|discriminate H].
      rewrite (take_exact_extends n _ _ _ Ht). cbn in H |- *.
      injection H as <- <-. reflexivity. }
    match goal with
    | |- mbind _ ?m = _ -> _ => destruct m as [[dlen rest1]|] eqn:Hm; [|discriminate]
    end.
    assert (Hm' :
      (if byte_to_Z b <? OP_PUSHDATA1 then Ok (byte_to_Z b, script ++ extra)
       else if byte_to_Z b =? OP_PUSHDATA1 then
         '(l, r) ← take_exact 1 (script ++ extra); Ok (le_bytes_to_int l, r)
       else if byte_to_Z b =? OP_PUSHDATA2 then
         '(l, r) ← take_exact 2 (script ++ extra); Ok (le_bytes_to_int l, r)
       else
         '(l, r) ← take_exact 4 (script ++ extra); Ok (le_bytes_to_int l, r))
      = Ok (dlen, rest1 ++ extra)).
    { destruct (byte_to_Z b <? OP_PUSHDATA1).
      - injection Hm as <- <-. reflexivity.
      - destruct (byte_to_Z b =? OP_PUSHDATA1); [exact (Hlen _ _ _ Hm)|].
        destruct (byte_to_Z b =? OP_PUSHDATA2); exact (Hlen _ _ _ Hm). }
    rewrite Hm'. cbn [mbind result_bind].
    destruct (take_exact dlen rest1) as [[data rest2]|] eqn:Ht; [|discriminate].
    rewrite (take_exact_extends dlen _ _ _ Ht). cbn.
    intros [= <- <-]. reflexivity.
  - destruct (OP_1 <=? byte_to_Z b); [intros [= <- <-]; reflexivity|].
    destruct (byte_to_Z b =? OP_1NEGATE); intros [= <- <-]; reflexivity.
Qed.

Lemma for_range_extends {K : Type} (n : nat)
    (body : K * bytes -> result (K * bytes)) :
  (forall k, extends (fun generator => body (k, generator))) ->
  forall k, extends (fun generator => for_range n body (k, generator)).
Proof.
  intros Hbody. induction n as [|n IH]; intros k generator k' rest; cbn [for_range].
  - intros [= <- <-]. reflexivity.
  - destruct (body (k, generator)) as [[k1 g1]|] eqn:Hb; [|discriminate].
    rewrite (Hbody k _ _ _ Hb). cbn [mbind result_bind]. apply IH.
Qed.

Lemma read_structure_step_extends
    (read_field : bytes -> result ((Z * value) * bytes))
    (definition : DataclassDefinition) :
  extends read_field ->
  forall kwargs,
    extends (fun generator => read_structure_step read_field definition (kwargs, generator)).
Proof.
  intros Hread kwargs generator kwargs' rest. unfold read_structure_step.
  destruct (read_field generator) as [[[field_id field_value] g1]|] eqn:Hr; [|discriminate].
  rewrite (Hread _ _ _ Hr). cbn [mbind result_bind].
  destruct (get_field definition field_id) as [[field_name f]|]; [|discriminate].
  cbn. intros [= <- <-]. reflexivity.
Qed.

Lemma read_list_step_extends (read_item : bytes -> result (value * bytes))
    (item_field_entry : FieldEntry) :
  extends read_item ->
  forall field_value,
    extends (fun generator =>
               read_list_step read_item item_field_entry (field_value, generator)).
Proof.
  intros Hread field_value generator field_value' rest. unfold read_list_step.
  destruct (stores_pointers (type_metadata item_field_entry)).
  - destruct (next generator) as [[[opcode value_bytes] g1]|] eqn:Hn; [|discriminate].
    rewrite (next_extends _ _ _ Hn). cbn [mbind result_bind].
    destruct (opcode =? OP_0); [intros [= <- <-]; reflexivity|].
    destruct (negb (opcode =? OP_1)); [discriminate|].
    destruct (read_item g1) as [[item g2]|] eqn:Hr; [|discriminate].
    rewrite (Hread _ _ _ Hr). cbn. intros [= <- <-]. reflexivity.
  - destruct (read_item generator) as [[item g2]|] eqn:Hr; [|discriminate].
    rewrite (Hread _ _ _ Hr). cbn. intros [= <- <-]. reflexivity.
Qed.

Lemma readers_extend (depth : nat) :
  (forall definition class_reference,
     extends (fun generator => _read_structure depth generator definition class_reference))
  /\ (forall definition,
        extends (fun generator => _read_field depth generator definition))
  /\ (forall definition field_entry,
        extends (fun generator => _read_type depth generator definition field_entry)).
Proof.
  induction depth as [|depth (IHstructure & IHfield & IHtype)];
    [split; [|split]; intros; intros generator a rest; discriminate|].
  split; [|split].
  - intros definition class_reference generator instance rest.
    cbn [_read_structure].
    destruct (next generator) as [[[opcode value_bytes] g1]|] eqn:Hn; [|discriminate].
    rewrite (next_extends _ _ _ Hn). cbn [mbind result_bind].
    match goal with
    | |- mbind _ (for_range ?n ?body (?k0, g1)) = _ -> _ =>
        destruct (for_range n body (k0, g1)) as [[kwargs g2]|] eqn:Hloop; [|discriminate];
        rewrite (for_range_extends n body
                   (fun k => read_structure_step_extends _ definition
                               (IHfield definition) k)
                   _ _ _ _ Hloop)
    end.
    cbn [mbind result_bind].
    destruct (call_kwargs _ _) as [v|]; [|discriminate].
    cbn. intros [= <- <-]. reflexivity.
  - intros definition generator a rest. cbn [_read_field].
    destruct (next generator) as [[[opcode value_bytes] g1]|] eqn:Hn; [|discriminate].
    rewrite (next_extends _ _ _ Hn). cbn [mbind result_bind].
    destruct (get_field_entry definition _) as [field_entry|]; [|discriminate].
    cbn [mbind result_bind].
    destruct (_read_type depth g1 definition field_entry) as [[v g2]|] eqn:Hr;
      [|discriminate].
    rewrite (IHtype _ _ _ _ _ Hr). cbn. intros [= <- <-]. reflexivity.
  - intros definition field_entry generator a rest. cbn [_read_type].
    destruct (is_custom_scalar (type_metadata field_entry)).
    { destruct (get_field_value definition _) as [[decode_callable e]|]; [|discriminate].
      cbn [mbind result_bind].
      destruct (next generator) as [[[opcode value_bytes] g1]|] eqn:Hn; [|discriminate].
      rewrite (next_extends _ _ _ Hn). cbn [mbind result_bind].
      destruct (call1 _ _) as [v|]; [|discriminate].
      cbn. intros [= <- <-]. reflexivity. }
    destruct (field_type (type_metadata field_entry)).
    + destruct (next generator) as [[[opcode value_bytes] g1]|] eqn:Hn; [|discriminate].
      rewrite (next_extends _ _ _ Hn). cbn. intros [= <- <-]. reflexivity.
    + destruct (next generator) as [[[opcode value_bytes] g1]|] eqn:Hn; [|discriminate].
      rewrite (next_extends _ _ _ Hn). cbn [mbind result_bind].
      destruct value_bytes as [b|]; [|discriminate].
      destruct (len b =? 4); [|discriminate]. intros [= <- <-]. reflexivity.
    + destruct (next generator) as [[[opcode value_bytes] g1]|] eqn:Hn; [|discriminate].
      rewrite (next_extends _ _ _ Hn). cbn [mbind result_bind].
      destruct value_bytes as [b|]; [|discriminate].
      destruct (len b =? 8); [|discriminate]. intros [= <- <-]. reflexivity.
    + destruct (get_list_constraint definition _)
        as [[[list_definition item_field_entry] item_count]|]; [|discriminate].
      cbn [mbind result_bind].
      match goal with
      | |- mbind _ ?m = _ -> _ =>
          destruct m as [[count g1]|] eqn:Hcount; [|discriminate]
      end.
      assert (Hcount' :
        match item_count with
        | None =>
            '((opcode, value_bytes), generator) ← next (generator ++ extra);
            Ok (item_to_int value_bytes, generator)
        | Some n => Ok (n, generator ++ extra)
        end = Ok (count, g1 ++ extra)).
      { destruct item_count as [n|].
        - injection Hcount as <- <-. reflexivity.
        - destruct (next generator) as [[[opcode value_bytes] g]|] eqn:Hn;
            [|discriminate Hcount].
          rewrite (next_extends _ _ _ Hn). cbn in Hcount |- *.
          injection Hcount as <- <-. reflexivity. }
      rewrite Hcount'. cbn [mbind result_bind].
      match goal with
      | |- mbind _ (for_range ?n ?body (?k0, g1)) = _ -> _ =>
          destruct (for_range n body (k0, g1)) as [[items g2]|] eqn:Hloop; [|discriminate];
          rewrite (for_range_extends n body
                     (fun k => read_list_step_extends _ item_field_entry
                                 (IHtype list_definition item_field_entry) k)
                     _ _ _ _ Hloop)
      end.
      cbn. intros [= <- <-]. reflexivity.
    + destruct (next generator) as [[[opcode value_bytes] g1]|] eqn:Hn; [|discriminate].
      rewrite (next_extends _ _ _ Hn). cbn [mbind result_bind].
      destruct value_bytes as [b|]; [|discriminate].
      destruct (Codecs.decode b); [|discriminate]. cbn. intros [= <- <-]. reflexivity.
    + destruct (next generator) as [[[opcode value_bytes] g1]|] eqn:Hn; [|discriminate].
      rewrite (next_extends _ _ _ Hn). cbn. intros [= <- <-]. reflexivity.
    + destruct (get_definition definition _) as [next_definition|]; [|discriminate].
      cbn [mbind result_bind].
      destruct (get_field_value definition _) as [[class_reference decoder_value]|];
        [|discriminate].
      cbn [mbind result_bind].
      destruct decoder_value; [discriminate|]. apply IHstructure.
Qed.

End Extension.

(** X15. What follows a structure in the script is left alone.  When
    [_read_structure] reads an instance from [data] and leaves [rest], it
    reads the same instance from [data] followed by any bytes [extra] and
    leaves [rest] followed by [extra]; [loads] returns the same instance
    from both: it never looks for the end of the script, so trailing bytes
    are not an error. *)
Theorem X15_trailing_bytes_are_left_alone
    (recursion_limit : nat) (data rest extra : bytes)
    (definition : DataclassDefinition) (class_reference : pyobject) (instance : value) :
  _read_structure recursion_limit data definition class_reference = Ok (instance, rest) ->
  _read_structure recursion_limit (data ++ extra) definition class_reference
  = Ok (instance, rest ++ extra)
  /\ loads recursion_limit data definition class_reference = Ok instance
  /\ loads recursion_limit (data ++ extra) definition class_reference = Ok instance.
Proof.
  intros Hread.
  destruct (readers_extend extra recursion_limit) as (Hstructure & _ & _).
  pose proof (Hstructure definition class_reference data instance rest Hread) as Hextra.
  unfold loads. rewrite Hread, Hextra. split; [reflexivity|split; reflexivity].
Qed.

(** [Pair] with IntField 5, followed by two bytes that are no structure. *)
Lemma X15_trailing_bytes_are_left_alone_witness :
  loads 4 ([x51; x51; x55] ++ [xff; xff]) (Examples.definition_of Examples.Pair)
    (PyClass Examples.Pair)
  = loads 4 [x51; x51; x55] (Examples.definition_of Examples.Pair)
      (PyClass Examples.Pair).
Proof.
  destruct (X15_trailing_bytes_are_left_alone 4 [x51; x51; x55] [] [xff; xff]
              (Examples.definition_of Examples.Pair) (PyClass Examples.Pair)
              (VObject Examples.Pair
                 [("IntField", VInt 5); ("StrField", VStr [])])
              eq_refl) as (_ & Hplain & Hextra).
  rewrite Hplain, Hextra. reflexivity.
Defined.

(** ** The recursion limit *)

Section Limit.

(** [a] is [b] unless it ran into the recursion limit. *)
Let refines {A : Type} (a b : result A) : Prop := a = Raise RecursionError \/ a = b.

Lemma refines_refl {A : Type} (a : result A) : refines a a.
Proof. right. reflexivity. Qed.

Lemma refines_bind {A B : Type} (a b : result A) (f g : A -> result B) :
  refines a b -> (forall x, refines (f x) (g x)) -> refines (mbind f a) (mbind g b).
Proof.
  intros [->| ->] Hfg; [left; reflexivity|].
  destruct b as [x|e]; [exact (Hfg x)|right; reflexivity].
Qed.

Lemma for_range_refines {S : Type} (n : nat) (body body' : S -> result S) :
  (forall s, refines (body s) (body' s)) ->
  forall s, refines (for_range n body s) (for_range n body' s).
Proof.
  intros Hbody. induction n as [|n IH]; intros s; cbn [for_range]; [apply refines_refl|].
  apply refines_bind; [apply Hbody|exact IH].
Qed.

Lemma for_each_refines {S A : Type} (l : list A) (body body' : S -> A -> result S) :
  (forall s a, refines (body s a) (body' s a)) ->
  forall s, refines (for_each l body s) (for_each l body' s).
Proof.
  intros Hbody. induction l as [|a l IH]; intros s; cbn [for_each]; [apply refines_refl|].
  apply refines_bind; [apply Hbody|exact IH].
Qed.

Lemma read_structure_step_refines
    (read_field read_field' : bytes -> result ((Z * value) * bytes))
    (definition : DataclassDefinition) :
  (forall generator, refines (read_field generator) (read_field' generator)) ->
  forall state,
    refines (read_structure_step read_field definition state)
      (read_structure_step read_field' definition state).
Proof.
  intros Hread [kwargs generator]. unfold read_structure_step.
  apply refines_bind; [apply Hread|]. intros x. apply refines_refl.
Qed.

Lemma read_list_step_refines (read_item read_item' : bytes -> result (value * bytes))
    (item_field_entry : FieldEntry) :
  (forall generator, refines (read_item generator) (read_item' generator)) ->
  forall state,
    refines (read_list_step read_item item_field_entry state)
      (read_list_step read_item' item_field_entry state).
Proof.
  intros Hread [field_value generator]. unfold read_list_step.
  destruct (stores_pointers (type_metadata item_field_entry)).
  - apply refines_bind; [apply refines_refl|]. intros [[opcode value_bytes] g1].
    destruct (opcode =? OP_0); [apply refines_refl|].
    destruct (negb (opcode =? OP_1)); [apply refines_refl|].
    apply refines_bind; [apply Hread|]. intros x. apply refines_refl.
  - apply refines_bind; [apply Hread|]. intros x. apply refines_refl.
Qed.

Lemma write_structure_step_refines
    (write_field write_field' : bytes -> Z -> FieldTypeMetadata -> value -> result bytes)
    (object_value : value) :
  (forall stream i m v, refines (write_field stream i m v) (write_field' stream i m v)) ->
  forall stream named_field,
    refines (write_structure_step write_field object_value stream named_field)
      (write_structure_step write_field' object_value stream named_field).
Proof.
  intros Hwrite stream [field_name field_entry]. unfold write_structure_step.
  destruct (hasattr object_value field_name); [|apply refines_refl].
  apply refines_bind; [apply refines_refl|]. intros v. apply Hwrite.
Qed.

Lemma write_list_step_refines (write_item write_item' : bytes -> value -> result bytes)
    (item_field_entry : FieldEntry) :
  (forall stream v, refines (write_item stream v) (write_item' stream v)) ->
  forall stream item_value,
    refines (write_list_step write_item item_field_entry stream item_value)
      (write_list_step write_item' item_field_entry stream item_value).
Proof.
  intros Hwrite stream item_value. unfold write_list_step.
  destruct (stores_pointers (type_metadata item_field_entry)); [|apply Hwrite].
  destruct (is_None item_value); [apply refines_refl|].
  apply refines_bind; [apply refines_refl|]. intros s. apply Hwrite.
Qed.

Lemma readers_refine (depth : nat) :
  forall depth', (depth <= depth')%nat ->
    (forall generator definition class_reference,
       refines (_read_structure depth generator definition class_reference)
         (_read_structure depth' generator definition class_reference))
    /\ (forall generator definition,
          refines (_read_field depth generator definition)
            (_read_field depth' generator definition))
    /\ (forall generator definition field_entry,
          refines (_read_type depth generator definition field_entry)
            (_read_type depth' generator definition field_entry)).
Proof.
  induction depth as [|depth IH]; intros depth' Hle;
    [split; [|split]; intros; left; reflexivity|].
  destruct depth' as [|depth']; [lia|].
  destruct (IH depth' ltac:(lia)) as (IHstructure & IHfield & IHtype).
  split; [|split].
  - intros generator definition class_reference. cbn [_read_structure].
    apply refines_bind; [apply refines_refl|]. intros [[opcode value_bytes] g1].
    apply refines_bind; [|intros x; apply refines_refl].
    apply for_range_refines. apply read_structure_step_refines.
    intros g. apply IHfield.
  - intros generator definition. cbn [_read_field].
    apply refines_bind; [apply refines_refl|]. intros [[opcode value_bytes] g1].
    apply refines_bind; [apply refines_refl|]. intros field_entry.
    apply refines_bind; [apply IHtype|]. intros x. apply refines_refl.
  - intros generator definition field_entry. cbn [_read_type].
    destruct (is_custom_scalar (type_metadata field_entry)); [apply refines_refl|].
    destruct (field_type (type_metadata field_entry)); try apply refines_refl.
    + apply refines_bind; [apply refines_refl|].
      intros [[list_definition item_field_entry] item_count].
      apply refines_bind; [apply refines_refl|]. intros [count g1].
      apply refines_bind; [|intros x; apply refines_refl].
      apply for_range_refines. apply read_list_step_refines.
      intros g. apply IHtype.
    + apply refines_bind; [apply refines_refl|]. intros next_definition.
      apply refines_bind; [apply refines_refl|]. intros [class_reference decoder_value].
      destruct decoder_value; [apply refines_refl|]. apply IHstructure.
Qed.

Lemma writers_refine (depth : nat) :
  forall depth', (depth <= depth')%nat ->
    (forall stream definition object_value,
       refines (_write_structure depth stream definition object_value)
         (_write_structure depth' stream definition object_value))
    /\ (forall stream definition i m v,
          refines (_write_field depth stream definition i m v)
            (_write_field depth' stream definition i m v))
    /\ (forall stream definition i m v,
          refines (_write_type depth stream definition i m v)
            (_write_type depth' stream definition i m v)).
Proof.
  induction depth as [|depth IH]; intros depth' Hle;
    [split; [|split]; intros; left; reflexivity|].
  destruct depth' as [|depth']; [lia|].
  destruct (IH depth' ltac:(lia)) as (IHstructure & IHfield & IHtype).
  split; [|split].
  - intros stream definition object_value. cbn [_write_structure].
    apply refines_bind; [apply refines_refl|]. intros s.
    apply for_each_refines. apply write_structure_step_refines.
    intros s' i m v. apply IHfield.
  - intros stream definition i m v. cbn [_write_field].
    apply refines_bind; [apply refines_refl|]. intros s. apply IHtype.
  - intros stream definition i m v. cbn [_write_type].
    apply refines_bind; [apply refines_refl|]. intros field_value.
    destruct (field_type m); try apply refines_refl.
    + apply refines_bind; [apply refines_refl|].
      intros [[list_definition item_field_entry] item_count].
      apply refines_bind; [apply refines_refl|]. intros s.
      apply refines_bind; [apply refines_refl|]. intros items.
      apply for_each_refines. apply write_list_step_refines.
      intros s' item. apply IHtype.
    + apply refines_bind; [apply refines_refl|]. intros next_definition.
      apply IHstructure.
Qed.

Lemma refines_settled {A : Type} (a b : result A) :
  refines a b -> a <> Raise RecursionError -> b = a.
Proof. intros [H|H] Hne; [contradiction|symmetry; exact H]. Qed.

Lemma readers_settled (depth depth' : nat) (generator : bytes)
    (definition : DataclassDefinition) (class_reference : pyobject) :
  (depth <= depth')%nat ->
  _read_structure depth generator definition class_reference <> Raise RecursionError ->
  _read_structure depth' generator definition class_reference
  = _read_structure depth generator definition class_reference.
Proof.
  intros Hle. apply refines_settled.
  destruct (readers_refine depth depth' Hle) as (H & _ & _). apply H.
Qed.

Lemma writers_settled (depth depth' : nat) (stream : bytes)
    (definition : DataclassDefinition) (object_value : value) :
  (depth <= depth')%nat ->
  _write_structure depth stream definition object_value <> Raise RecursionError ->
  _write_structure depth' stream definition object_value
  = _write_structure depth stream definition object_value.
Proof.
  intros Hle. apply refines_settled.
  destruct (writers_refine depth depth' Hle) as (H & _ & _). apply H.
Qed.

End Limit.

(** X16. The recursion limit shows in no other way than a
    [RecursionError].  When [loads] under a limit ends in anything else - an
    instance or another exception - it ends in the same way under every
    higher limit; and so does [dumps]. *)
Theorem X16_recursion_limit_only_limits
    (recursion_limit higher_limit : nat)
    (object : value) (structure_metadata : gmap string class_reference)
    (data : bytes) (definition : DataclassDefinition) (class_reference : pyobject) :
  (recursion_limit <= higher_limit)%nat ->
  (loads recursion_limit data definition class_reference <> Raise RecursionError ->
   loads higher_limit data definition class_reference
   = loads recursion_limit data definition class_reference)
  /\ (dumps recursion_limit object structure_metadata <> Raise RecursionError ->
      dumps higher_limit object structure_metadata
      = dumps recursion_limit object structure_metadata).
Proof.
  intros Hle. split.
  - unfold loads. intros Hne.
    rewrite (readers_settled recursion_limit higher_limit); [reflexivity|exact Hle|].
    intros H. apply Hne. rewrite H. reflexivity.
  - unfold dumps, dump. intros Hne.
    destruct (DataclassDefinition_init _ _) as [definition'|e]; [|reflexivity].
    cbn [mbind result_bind] in Hne |- *.
    apply writers_settled; [exact Hle|exact Hne].
Qed.

(** The sample of the tests, read and written under the limits 8 and
    1000. *)
Lemma X16_recursion_limit_only_limits_witness :
  dumps 1000 Examples.sample Examples.structure_metadata
  = dumps 8 Examples.sample Examples.structure_metadata.
Proof.
  refine (proj2 (X16_recursion_limit_only_limits 8 1000
                   Examples.sample Examples.structure_metadata []
                   (Examples.definition_of Examples.Sample) (PyClass Examples.Sample)
                   _) _).
  - lia.
  - vm_compute. discriminate.
Defined.

(** ** The order of the fields on the wire *)

Section WireOrder.

Variable depth : nat.
Variable definition : DataclassDefinition.

(** A field as it stands on the wire - the bytes of its id and value - with
    the name and the value the decoder gets from it. *)
Let wire_field : Type := (bytes * (string * value))%type.

Let reads_as (f : wire_field) : Prop :=
  exists field_identifier field_entry,
    _read_field depth (fst f) definition = Ok ((field_identifier, snd (snd f)), [])
    /\ get_field definition field_identifier = Ok (fst (snd f), field_entry).

Let put (kwargs : gmap string value) (f : wire_field) : gmap string value :=
  <[fst (snd f) := snd (snd f)]> kwargs.

Lemma read_fields_in_order (fields : list wire_field) :
  Forall reads_as fields ->
  forall kwargs rest,
    for_range (length fields)
      (read_structure_step (fun generator => _read_field depth generator definition)
         definition)
      (kwargs, concat (map fst fields) ++ rest)
    = Ok (fold_left put fields kwargs, rest).
Proof.
  induction 1 as [|f fields (field_identifier & field_entry & Hread & Hget) _ IH];
    intros kwargs rest; [reflexivity|].
  cbn [length for_range map concat fold_left]. rewrite <- app_assoc.
  destruct (readers_extend (concat (map fst fields) ++ rest) depth) as (_ & Hfield & _).
  assert (Hstep :
    read_structure_step (fun generator => _read_field depth generator definition)
      definition (kwargs, fst f ++ concat (map fst fields) ++ rest)
    = Ok (put kwargs f, concat (map fst fields) ++ rest)).
  { unfold read_structure_step.
    rewrite (Hfield definition _ _ _ Hread). cbn [mbind result_bind app].
    rewrite Hget. reflexivity. }
  rewrite Hstep. cbn [mbind result_bind]. apply IH.
Qed.

Lemma fold_put_permutation (fields fields' : list wire_field) :
  Permutation fields fields' ->
  NoDup (map (fun f : wire_field => fst (snd f)) fields) ->
  forall kwargs, fold_left put fields kwargs = fold_left put fields' kwargs.
Proof.
  induction 1 as [|f l l' _ IH|f g l|l l' l'' H IH H' IH']; intros Hnd kwargs.
  - reflexivity.
  - cbn [fold_left]. apply IH. cbn [map] in Hnd. apply NoDup_cons in Hnd as [_ Hnd].
    exact Hnd.
  - cbn [fold_left]. f_equal. unfold put. apply insert_insert_ne.
    cbn [map] in Hnd. apply NoDup_cons in Hnd as [Hnotin _].
    intros Heq. apply Hnotin. rewrite <- Heq. left.
  - rewrite (IH Hnd). apply IH'.
    apply (NoDup_Permutation_proper _ _ (Permutation_map _ H)). exact Hnd.
Qed.

Lemma read_structure_of_fields (class_reference : pyobject) (count : bytes)
    (opcode : Z) (value_bytes : option bytes) (fields : list wire_field) :
  next count = Ok ((opcode, value_bytes), []) ->
  Z.to_nat (item_to_int value_bytes) = length fields ->
  Forall reads_as fields ->
  _read_structure (S depth) (count ++ concat (map fst fields)) definition class_reference
  = (instance ←
       call_kwargs class_reference
         (fold_left backfill (get_fields definition) (fold_left put fields ∅));
     Ok (instance, [])).
Proof.
  intros Hcount Hlen Hall. cbn [_read_structure].
  rewrite (next_extends _ _ _ _ Hcount). cbn [mbind result_bind app].
  rewrite Hlen.
  pose proof (read_fields_in_order fields Hall ∅ []) as Hloop.
  rewrite app_nil_r in Hloop. rewrite Hloop. reflexivity.
Qed.

Lemma read_structure_permutation (class_reference : pyobject) (count : bytes)
    (opcode : Z) (value_bytes : option bytes) (fields fields' : list wire_field) :
  next count = Ok ((opcode, value_bytes), []) ->
  Z.to_nat (item_to_int value_bytes) = length fields ->
  Forall reads_as fields ->
  NoDup (map (fun f : wire_field => fst (snd f)) fields) ->
  Permutation fields fields' ->
  _read_structure (S depth) (count ++ concat (map fst fields')) definition class_reference
  = _read_structure (S depth) (count ++ concat (map fst fields)) definition
      class_reference.
Proof.
  intros Hcount Hlen Hall Hnd Hperm.
  rewrite (read_structure_of_fields _ _ _ _ fields Hcount Hlen Hall).
  rewrite (read_structure_of_fields _ _ _ _ fields' Hcount).
  - rewrite (fold_put_permutation _ _ Hperm Hnd). reflexivity.
  - rewrite Hlen. apply Permutation_length, Hperm.
  - exact (Permutation_Forall Hperm Hall).
Qed.

Lemma fold_put_lookup_other (fields : list wire_field) (n : string) :
  (forall g, In g fields -> fst (snd g) <> n) ->
  forall kwargs, fold_left put fields kwargs !! n = kwargs !! n.
Proof.
  induction fields as [|g fields IH]; intros Hother kwargs; [reflexivity|].
  cbn [fold_left]. rewrite IH by (intros g' Hin; apply Hother; right; exact Hin).
  unfold put. apply lookup_insert_ne. apply Hother. left. reflexivity.
Qed.

Lemma read_structure_last_occurrence (class_reference : pyobject) (count : bytes)
    (opcode : Z) (value_bytes : option bytes) (before after : list wire_field)
    (f : wire_field) (instance : value) (rest : bytes) :
  next count = Ok ((opcode, value_bytes), []) ->
  Z.to_nat (item_to_int value_bytes) = length (before ++ f :: after) ->
  Forall reads_as (before ++ f :: after) ->
  (forall g, In g after -> fst (snd g) <> fst (snd f)) ->
  _read_structure (S depth) (count ++ concat (map fst (before ++ f :: after)))
    definition class_reference = Ok (instance, rest) ->
  getattr instance (fst (snd f)) = Ok (snd (snd f)).
Proof.
  intros Hcount Hlen Hall Hlast.
  rewrite (read_structure_of_fields _ _ _ _ _ Hcount Hlen Hall).
  destruct (call_kwargs _ _) as [v|] eqn:Hcall; [|discriminate].
  cbn. intros [= <- _].
  apply (call_kwargs_getattr _ _ _ Hcall). apply fold_backfill_lookup_Some.
  rewrite fold_left_app. cbn [fold_left].
  rewrite (fold_put_lookup_other after _ Hlast). unfold put at 1.
  apply lookup_insert_eq.
Qed.

End WireOrder.

(** X17. The order of the fields on the wire is free.  Take the count token
    of a structure and, for each field on the wire, the bytes that
    [_read_field] reads as that field.  When no two of them go to the same
    field name, [_read_structure] returns the same result - the same
    instance, or the same error - in whatever order the fields follow the
    count. *)
Theorem X17_field_order_is_free
    (depth : nat) (definition : DataclassDefinition) (class_reference : pyobject)
    (count : bytes) (opcode : Z) (value_bytes : option bytes)
    (fields fields' : list (bytes * (string * value))) :
  next count = Ok ((opcode, value_bytes), []) ->
  Z.to_nat (item_to_int value_bytes) = length fields ->
  Forall
    (fun f =>
       exists field_identifier field_entry,
         _read_field depth (fst f) definition = Ok ((field_identifier, snd (snd f)), [])
         /\ get_field definition field_identifier = Ok (fst (snd f), field_entry))
    fields ->
  NoDup (map (fun f => fst (snd f)) fields) ->
  Permutation fields fields' ->
  _read_structure (S depth) (count ++ concat (map fst fields')) definition class_reference
  = _read_structure (S depth) (count ++ concat (map fst fields)) definition
      class_reference.
Proof. apply read_structure_permutation. Qed.

(** [Pair] with StrField "hi" before IntField 5, and the other way round. *)
Lemma X17_field_order_is_free_witness :
  _read_structure 3 [x52; x52; x02; x68; x69; x51; x55]
    (Examples.definition_of Examples.Pair) (PyClass Examples.Pair)
  = _read_structure 3 [x52; x51; x55; x52; x02; x68; x69]
      (Examples.definition_of Examples.Pair) (PyClass Examples.Pair).
Proof.
  refine (X17_field_order_is_free 2 (Examples.definition_of Examples.Pair)
            (PyClass Examples.Pair) [x52] 82 (Some [x02])
            [([x51; x55], ("IntField", VInt 5));
             ([x52; x02; x68; x69], ("StrField", VStr (Codecs.of_string "hi")))]
            [([x52; x02; x68; x69], ("StrField", VStr (Codecs.of_string "hi")));
             ([x51; x55], ("IntField", VInt 5))]
            eq_refl eq_refl _ _ _).
  - constructor; [|constructor; [|constructor]].
    + exists 1, {| identifier := 1;
                   type_metadata := {| field_type := INTEGER;
                                       is_class_reference := false;
                                       stores_pointers := false |} |}.
      split; reflexivity.
    + exists 2, {| identifier := 2;
                   type_metadata := {| field_type := STRING;
                                       is_class_reference := false;
                                       stores_pointers := false |} |}.
      split; reflexivity.
  - cbn [map fst snd]. apply NoDup_cons. split.
    + intros Hin. apply list_elem_of_In in Hin. destruct Hin as [H|[]]. discriminate H.
    + apply NoDup_cons. split; [|apply NoDup_nil; exact I].
      intros Hin. apply list_elem_of_In in Hin. destruct Hin.
  - apply perm_swap.
Defined.

(** X19. A field that comes more than once on the wire is no error: the
    last occurrence wins.  When [_read_structure] returns an instance, the
    attribute of each field on the wire holds the value of the last bytes
    that [_read_field] read as that field, whatever came before them. *)
Theorem X19_last_occurrence_wins
    (depth : nat) (definition : DataclassDefinition) (class_reference : pyobject)
    (count : bytes) (opcode : Z) (value_bytes : option bytes)
    (before after : list (bytes * (string * value))) (f : bytes * (string * value))
    (instance : value) (rest : bytes) :
  next count = Ok ((opcode, value_bytes), []) ->
  Z.to_nat (item_to_int value_bytes) = length (before ++ f :: after) ->
  Forall
    (fun f =>
       exists field_identifier field_entry,
         _read_field depth (fst f) definition = Ok ((field_identifier, snd (snd f)), [])
         /\ get_field definition field_identifier = Ok (fst (snd f), field_entry))
    (before ++ f :: after) ->
  (forall g, In g after -> fst (snd g) <> fst (snd f)) ->
  _read_structure (S depth) (count ++ concat (map fst (before ++ f :: after)))
    definition class_reference = Ok (instance, rest) ->
  getattr instance (fst (snd f)) = Ok (snd (snd f)).
Proof. apply read_structure_last_occurrence. Qed.

(** [Pair] with IntField 5, IntField 7 and StrField "hi", in that order. *)
Lemma X19_last_occurrence_wins_witness :
  _read_structure 3 [x53; x51; x55; x51; x57; x52; x02; x68; x69]
    (Examples.definition_of Examples.Pair) (PyClass Examples.Pair)
  = Ok (VObject Examples.Pair
          [("IntField", VInt 7); ("StrField", VStr (Codecs.of_string "hi"))], [])
  /\ getattr
       (VObject Examples.Pair
          [("IntField", VInt 7); ("StrField", VStr (Codecs.of_string "hi"))])
       "IntField" = Ok (VInt 7).
Proof.
  split; [reflexivity|].
  refine (X19_last_occurrence_wins 2 (Examples.definition_of Examples.Pair)
            (PyClass Examples.Pair) [x53] 83 (Some [x03])
            [([x51; x55], ("IntField", VInt 5))]
            [([x52; x02; x68; x69], ("StrField", VStr (Codecs.of_string "hi")))]
            ([x51; x57], ("IntField", VInt 7))
            (VObject Examples.Pair
               [("IntField", VInt 7); ("StrField", VStr (Codecs.of_string "hi"))])
            [] eq_refl eq_refl _ _ eq_refl).
  - constructor; [|constructor; [|constructor; [|constructor]]].
    + exists 1, {| identifier := 1;
                   type_metadata := {| field_type := INTEGER;
                                       is_class_reference := false;
                                       stores_pointers := false |} |}.
      split; reflexivity.
    + exists 1, {| identifier := 1;
                   type_metadata := {| field_type := INTEGER;
                                       is_class_reference := false;
                                       stores_pointers := false |} |}.
      split; reflexivity.
    + exists 2, {| identifier := 2;
                   type_metadata := {| field_type := STRING;
                                       is_class_reference := false;
                                       stores_pointers := false |} |}.
      split; reflexivity.
  - intros g [<-|[]]. discriminate.
Defined.

(** ** The class behind a field *)

Section BoundClass.

Local Open Scope string_scope.

Lemma is_primitive_name_long (s : string) :
  (5 < String.length s)%nat -> is_primitive_name s = false.
Proof.
  intros H. unfold is_primitive_name.
  rewrite !string_eqb_length by (simpl; lia). reflexivity.
Qed.

(** X18. [get_field_value] finds the bound class through the list brackets
    and the pointer marker.  For a class name [T] bound in the table (no
    primitive name, no list type, without the marker), a field typed [T],
    ["T | None"], ["list[T]"] or ["list[T | None]"] gives the first two
    components of the binding of [T]: the class or decoder, and the encoder
    factory.  [get_definition] then builds the definition of that class
    with the same table - or raises [AssertionError] when the binding has
    an encoder factory. *)
Theorem X18_get_field_value_resolves_class
    (definition : DataclassDefinition) (field_identifier : Z)
    (entry_field_name : string) (entry_field_entry : FieldEntry)
    (field : dataclasses.Field) (T : string) (binding : class_reference) :
  List.find (fun named_field => (identifier (snd named_field) =? field_identifier)%Z)
    (_fields definition) = Some (entry_field_name, entry_field_entry) ->
  dataclass_field definition entry_field_name = Ok field ->
  is_primitive_name T = false ->
  PyStr.startswith T "list[" = false ->
  PyStr.endswith T " | None" = false ->
  _class_references definition !! T = Some binding ->
  dataclasses.type field = T
  \/ dataclasses.type field = T ++ " | None"
  \/ dataclasses.type field = "list[" ++ T ++ "]"
  \/ dataclasses.type field = "list[" ++ T ++ " | None]" ->
  get_field_value definition field_identifier
  = Ok (ref_first binding, ref_second binding)
  /\ get_definition definition field_identifier
     = match ref_second binding with
       | Some _ => Raise AssertionError
       | None =>
           DataclassDefinition_init (ref_first binding) (_class_references definition)
       end.
Proof.
  intros Hfind Hfield Hprimitive Hlist Hmarker Hbound Htype.
  assert (Hvalue : get_field_value definition field_identifier
                   = Ok (ref_first binding, ref_second binding));
    [|split; [exact Hvalue|unfold get_definition; rewrite Hvalue; reflexivity]].
  unfold get_field_value. rewrite Hfind, Hfield. cbn [mbind result_bind].
  destruct Htype as [Htype|[Htype|[Htype|Htype]]]; rewrite Htype.
  - rewrite Hprimitive, Hlist, Hmarker, Hbound. reflexivity.
  - rewrite is_primitive_name_long by (rewrite string_length_append; simpl; lia).
    unfold PyStr.startswith in Hlist |- *.
    change (T ++ " | None") with (T ++ String " " "| None").
    rewrite prefix_append_false;
      [|exact Hlist|simpl; intros [H|[H|[H|[H|[H|[]]]]]]; discriminate H].
    change (T ++ String " " "| None") with (T ++ " | None").
    rewrite endswith_append, strip_pointer_marker, Hbound. reflexivity.
  - rewrite is_primitive_name_long
      by (rewrite !string_length_append; simpl; lia).
    unfold PyStr.startswith. rewrite prefix_append.
    change ("list[" ++ T ++ "]") with ("list[" ++ T ++ "" ++ String "]" "").
    rewrite slice_list_item, string_append_nil, Hmarker, Hbound. reflexivity.
  - rewrite is_primitive_name_long
      by (rewrite !string_length_append; simpl; lia).
    unfold PyStr.startswith. rewrite prefix_append.
    change ("list[" ++ T ++ " | None]") with ("list[" ++ T ++ " | None" ++ String "]" "").
    rewrite slice_list_item, endswith_append, strip_pointer_marker, Hbound.
    reflexivity.
Qed.

Lemma X18_get_field_value_resolves_class_witness :
  get_field_value (Examples.definition_of Examples.Sample) 12
  = Ok (PyClass Examples.XTestSubStruct, None)
  /\ get_definition (Examples.definition_of Examples.Sample) 12
     = Ok (Examples.definition_of Examples.XTestSubStruct).
Proof.
  exact (X18_get_field_value_resolves_class
           (Examples.definition_of Examples.Sample) 12 "ArrayObjectPtrField"
           {| identifier := 12;
              type_metadata := {| field_type := LIST; is_class_reference := false;
                                  stores_pointers := false |} |}
           (Examples.field "ArrayObjectPtrField" "list[XTestSubStruct | None]" 12
              None None)
           "XTestSubStruct"
           {| ref_first := PyClass Examples.XTestSubStruct; ref_second := None;
              ref_type := OBJECT |}
           eq_refl eq_refl eq_refl eq_refl eq_refl eq_refl
           (or_intror (or_intror (or_intror eq_refl)))).
Defined.

End BoundClass.

(** ** The encoding as a code *)

Lemma canonical_dumps_reads
    (recursion_limit : nat) (structure_metadata : gmap string class_reference)
    (cls : pyclass) (definition : DataclassDefinition) (x : value) :
  DataclassDefinition_init (PyClass cls) structure_metadata = Ok definition ->
  canonical_structure recursion_limit definition cls x = true ->
  exists data,
    dumps recursion_limit x structure_metadata = Ok data
    /\ forall rest,
         _read_structure recursion_limit (data ++ rest) definition (PyClass cls)
         = Ok (x, rest).
Proof.
  intros Hdefinition Hc.
  destruct (roundtrip_at_depth recursion_limit) as (_ & _ & Hstructure).
  destruct (exists_data_uniform _ [] _
              (fun rest => Hstructure definition cls x [] rest Hc)) as (data & Hw & Hr).
  assert (Hclass : class_of x = cls).
  { destruct recursion_limit; [discriminate Hc|]. cbn [canonical_structure] in Hc.
    destruct x; try discriminate Hc.
    destruct (__dataclass_fields__ cls); [|discriminate Hc].
    repeat (apply andb_true_iff in Hc as [Hc _]).
    apply bool_decide_eq_true in Hc. exact Hc. }
  exists data. split; [|exact Hr].
  unfold dumps, dump. rewrite Hclass, Hdefinition. exact Hw.
Qed.

(** X20. The encoding of the canonical instances of a structure is a prefix
    code.  When the bytes of one canonical instance are the beginning of the
    bytes of another, the two instances are the same (and so are the
    bytes); in particular two canonical instances with the same bytes are
    equal. *)
Theorem X20_canonical_encoding_is_prefix_code
    (recursion_limit : nat) (structure_metadata : gmap string class_reference)
    (cls : pyclass) (definition : DataclassDefinition) (x y : value)
    (data more : bytes) :
  DataclassDefinition_init (PyClass cls) structure_metadata = Ok definition ->
  canonical_structure recursion_limit definition cls x = true ->
  canonical_structure recursion_limit definition cls y = true ->
  dumps recursion_limit x structure_metadata = Ok data ->
  dumps recursion_limit y structure_metadata = Ok (data ++ more) ->
  x = y /\ more = [].
Proof.
  intros Hdefinition Hx Hy Hdx Hdy.
  destruct (canonical_dumps_reads _ _ _ _ x Hdefinition Hx) as (dx & Hdx' & Hrx).
  destruct (canonical_dumps_reads _ _ _ _ y Hdefinition Hy) as (dy & Hdy' & Hry).
  rewrite Hdx in Hdx'. injection Hdx' as <-.
  rewrite Hdy in Hdy'. injection Hdy' as <-.
  pose proof (Hrx more) as H1. pose proof (Hry []) as H2.
  rewrite app_nil_r in H2. rewrite H1 in H2. injection H2 as -> ->.
  split; reflexivity.
Qed.

Lemma X20_canonical_encoding_is_prefix_code_witness :
  canonical_structure 12 (Examples.definition_of Examples.Sample) Examples.Sample
    Examples.sample = true
  /\ is_Ok (dumps 12 Examples.sample Examples.structure_metadata) = true
  /\ Examples.sample = Examples.sample /\ @nil byte = [].
Proof.
  split; [vm_compute; reflexivity|]. split; [vm_compute; reflexivity|].
  refine (X20_canonical_encoding_is_prefix_code 12 Examples.structure_metadata
            Examples.Sample (Examples.definition_of Examples.Sample)
            Examples.sample Examples.sample
            (match dumps 12 Examples.sample Examples.structure_metadata with
             | Ok data => data
             | Raise _ => []
             end) [] _ _ _ _ _).
  - vm_compute. reflexivity.
  - vm_compute. reflexivity.
  - vm_compute. reflexivity.
  - vm_compute. reflexivity.
  - vm_compute. reflexivity.
Defined.
